(** * Matterbridge: plugin lifecycle, bridge topology, commissioning
      contexts and shutdown coordinator

    A shallow embedding of the orchestration core of [matterbridge.ts]
    (class [Matterbridge]) and the properties of its specification.

    Conventions of the embedding.
    - An optional property [x?: T] is an [option T]; [None] is [undefined].
    - A JavaScript number that the code only ever counts with is a [Z].
    - The fields of the class are the fields of the record [Matterbridge];
      every method takes the instance and returns the updated instance.
    - The protocol engine (matter.js), node-persist and a plugin's hooks are
      outside the repository: a method that calls them takes their answer as
      an argument.
    - An [async] method is run up to its completion; where the source leaves a
      promise unawaited ([startPlugin], [configurePlugin]) the settlement of
      the promise is a separate step of the scheduler below.
    - Log output is not part of the state. *)

From stdpp Require Import gmap strings list fin_maps.
From Stdlib Require Import ZArith Ascii.

Local Open Scope Z_scope.

(** ** JavaScript values *)

(** Truthiness of an optional boolean flag such as [plugin.loaded]. *)
Definition truthy (b : option bool) : bool := default false b.

(** [x !== undefined]. *)
Definition defined {A : Type} (x : option A) : bool :=
  match x with Some _ => true | None => false end.

(** [if (x !== undefined) x++] and [x--] on an optional counter. *)
Definition incr (x : option Z) : option Z := (λ n, n + 1) <$> x.
Definition decr (x : option Z) : option Z := (λ n, n - 1) <$> x.

(** A value kept in a storage context of the protocol engine. *)
Inductive StorageValue : Type :=
| SString (s : string)
| SNumber (n : Z)
| SNaN.

(** Object identity of a [MatterbridgeDevice]. *)
Abbreviation DeviceId := N.

(** A storage context is a named view on the storage manager. *)
Abbreviation StorageContext := string.
Abbreviation StorageManager := (gmap string (gmap string StorageValue)).

(** JSON documents that no operation here inspects are kept as text. *)
Abbreviation PlatformConfig := string.
Abbreviation PlatformSchema := string.

(** Handles of collaborators whose state the core never reads. *)
Inductive Listener : Type := listener.
Inductive Timer : Type := timer.
Inductive Controller : Type := controller_handle.
Inductive NodeStorageManager : Type := node_storage_manager.

Inductive BridgeMode : Type := bridge | childbridge | controller | unset.

Definition BridgeMode_eqb (a b : BridgeMode) : bool :=
  match a, b with
  | bridge, bridge | childbridge, childbridge
  | controller, controller | unset, unset => true
  | _, _ => false
  end.

(** ** Devices *)

(** The attributes of a device's BasicInformation cluster that
    [importCommissioningServerContext] reads. *)
Record BasicInformation := {
  nodeLabel : string;
  vendorId : Z;
  vendorName : string;
  productId : Z;
  productName : string;
  serialNumber : option string;
  uniqueId : option string;
  softwareVersion : Z;
  softwareVersionString : string;
  hardwareVersion : Z;
  hardwareVersionString : string
}.

Record MatterbridgeDevice := {
  deviceId : DeviceId;
  deviceName : string;
  deviceType : Z;
  basicInformation : option BasicInformation;
  serializable : bool          (* [serialize] returns an object *)
}.

Record RegisteredDevice := {
  plugin : string;
  device : MatterbridgeDevice
}.

Record SerializedMatterbridgeDevice := {
  pluginName : string;
  serializedName : string;
  serializedId : DeviceId
}.

(** ** Objects of the protocol engine *)

(** What a commissioning server or an aggregator has been given as child. *)
Inductive Endpoint : Type :=
| EDevice (d : DeviceId)
| EAggregator.

Module Aggregator.
Record Aggregator := Build {
  serialNumber : StorageValue;
  uniqueId : StorageValue;
  softwareVersion : StorageValue;
  softwareVersionString : StorageValue;
  hardwareVersion : StorageValue;
  hardwareVersionString : StorageValue;
  bridged : list DeviceId       (* devices added with [addBridgedDevice] *)
}.

Definition addBridgedDevice (d : DeviceId) (a : Aggregator) : Aggregator :=
  {| serialNumber := serialNumber a; uniqueId := uniqueId a;
     softwareVersion := softwareVersion a;
     softwareVersionString := softwareVersionString a;
     hardwareVersion := hardwareVersion a;
     hardwareVersionString := hardwareVersionString a;
     bridged := bridged a ++ [d] |}.

Definition removeBridgedDevice (d : DeviceId) (a : Aggregator) : Aggregator :=
  {| serialNumber := serialNumber a; uniqueId := uniqueId a;
     softwareVersion := softwareVersion a;
     softwareVersionString := softwareVersionString a;
     hardwareVersion := hardwareVersion a;
     hardwareVersionString := hardwareVersionString a;
     bridged := filter (λ x, x ≠ d) (bridged a) |}.
End Aggregator.
Abbreviation Aggregator := Aggregator.Aggregator.

Module CS.
Record CommissioningServer := Build {
  port : Z;
  passcode : option Z;
  discriminator : option Z;
  deviceName : StorageValue;
  deviceType : StorageValue;
  vendorId : StorageValue;
  vendorName : StorageValue;
  productId : StorageValue;
  productName : StorageValue;
  softwareVersion : StorageValue;
  softwareVersionString : StorageValue;
  hardwareVersion : StorageValue;
  hardwareVersionString : StorageValue;
  uniqueId : StorageValue;
  serialNumber : StorageValue;
  devices : list Endpoint       (* children added with [addDevice] *)
}.

Definition addDevice (e : Endpoint) (c : CommissioningServer) : CommissioningServer :=
  {| port := port c; passcode := passcode c; discriminator := discriminator c;
     deviceName := deviceName c; deviceType := deviceType c;
     vendorId := vendorId c; vendorName := vendorName c;
     productId := productId c; productName := productName c;
     softwareVersion := softwareVersion c;
     softwareVersionString := softwareVersionString c;
     hardwareVersion := hardwareVersion c;
     hardwareVersionString := hardwareVersionString c;
     uniqueId := uniqueId c; serialNumber := serialNumber c;
     devices := devices c ++ [e] |}.
End CS.
Abbreviation CommissioningServer := CS.CommissioningServer.

(** The matter server: the storage keys of the commissioning servers added
    to it, and whether [start] has been called. *)
Record MatterServer := {
  commissioningServers : list string;
  running : bool
}.

(** ** Plugins *)

Module Platform.
Record MatterbridgePlatform := Build {
  name : string;
  type : string;
  version : string;
  config : PlatformConfig
}.
End Platform.
Abbreviation MatterbridgePlatform := Platform.MatterbridgePlatform.

Module Plugin.
Record RegisteredPlugin := Build {
  path : string;
  type : string;  (* 'AccessoryPlatform' | 'DynamicPlatform' *)
  name : string;
  version : string;
  description : string;
  author : string;
  locked : option bool;
  error : option bool;
  enabled : option bool;
  loaded : option bool;
  started : option bool;
  configured : option bool;
  paired : option bool;
  connected : option bool;
  registeredDevices : option Z;
  addedDevices : option Z;
  configJson : option PlatformConfig;
  schemaJson : option PlatformSchema;
  storageContext : option StorageContext;
  commissioningServer : option CommissioningServer;
  aggregator : option Aggregator;
  device : option DeviceId;
  platform : option MatterbridgePlatform
}.

Definition set_type (v : string) (x : RegisteredPlugin) : RegisteredPlugin :=
  {| path := path x; type := v; name := name x; version := version x;
     description := description x; author := author x; locked := locked x; error := error x;
     enabled := enabled x; loaded := loaded x; started := started x; configured := configured x;
     paired := paired x; connected := connected x; registeredDevices := registeredDevices x;
     addedDevices := addedDevices x; configJson := configJson x; schemaJson := schemaJson x;
     storageContext := storageContext x; commissioningServer := commissioningServer x;
     aggregator := aggregator x; device := device x; platform := platform x |}.

Definition set_name (v : string) (x : RegisteredPlugin) : RegisteredPlugin :=
  {| path := path x; type := type x; name := v; version := version x;
     description := description x; author := author x; locked := locked x; error := error x;
     enabled := enabled x; loaded := loaded x; started := started x; configured := configured x;
     paired := paired x; connected := connected x; registeredDevices := registeredDevices x;
     addedDevices := addedDevices x; configJson := configJson x; schemaJson := schemaJson x;
     storageContext := storageContext x; commissioningServer := commissioningServer x;
     aggregator := aggregator x; device := device x; platform := platform x |}.

Definition set_version (v : string) (x : RegisteredPlugin) : RegisteredPlugin :=
  {| path := path x; type := type x; name := name x; version := v; description := description x;
     author := author x; locked := locked x; error := error x; enabled := enabled x;
     loaded := loaded x; started := started x; configured := configured x; paired := paired x;
     connected := connected x; registeredDevices := registeredDevices x;
     addedDevices := addedDevices x; configJson := configJson x; schemaJson := schemaJson x;
     storageContext := storageContext x; commissioningServer := commissioningServer x;
     aggregator := aggregator x; device := device x; platform := platform x |}.

Definition set_description (v : string) (x : RegisteredPlugin) : RegisteredPlugin :=
  {| path := path x; type := type x; name := name x; version := version x; description := v;
     author := author x; locked := locked x; error := error x; enabled := enabled x;
     loaded := loaded x; started := started x; configured := configured x; paired := paired x;
     connected := connected x; registeredDevices := registeredDevices x;
     addedDevices := addedDevices x; configJson := configJson x; schemaJson := schemaJson x;
     storageContext := storageContext x; commissioningServer := commissioningServer x;
     aggregator := aggregator x; device := device x; platform := platform x |}.

Definition set_author (v : string) (x : RegisteredPlugin) : RegisteredPlugin :=
  {| path := path x; type := type x; name := name x; version := version x;
     description := description x; author := v; locked := locked x; error := error x;
     enabled := enabled x; loaded := loaded x; started := started x; configured := configured x;
     paired := paired x; connected := connected x; registeredDevices := registeredDevices x;
     addedDevices := addedDevices x; configJson := configJson x; schemaJson := schemaJson x;
     storageContext := storageContext x; commissioningServer := commissioningServer x;
     aggregator := aggregator x; device := device x; platform := platform x |}.

Definition set_locked (v : option bool) (x : RegisteredPlugin) : RegisteredPlugin :=
  {| path := path x; type := type x; name := name x; version := version x;
     description := description x; author := author x; locked := v; error := error x;
     enabled := enabled x; loaded := loaded x; started := started x; configured := configured x;
     paired := paired x; connected := connected x; registeredDevices := registeredDevices x;
     addedDevices := addedDevices x; configJson := configJson x; schemaJson := schemaJson x;
     storageContext := storageContext x; commissioningServer := commissioningServer x;
     aggregator := aggregator x; device := device x; platform := platform x |}.

Definition set_error (v : option bool) (x : RegisteredPlugin) : RegisteredPlugin :=
  {| path := path x; type := type x; name := name x; version := version x;
     description := description x; author := author x; locked := locked x; error := v;
     enabled := enabled x; loaded := loaded x; started := started x; configured := configured x;
     paired := paired x; connected := connected x; registeredDevices := registeredDevices x;
     addedDevices := addedDevices x; configJson := configJson x; schemaJson := schemaJson x;
     storageContext := storageContext x; commissioningServer := commissioningServer x;
     aggregator := aggregator x; device := device x; platform := platform x |}.

Definition set_enabled (v : option bool) (x : RegisteredPlugin) : RegisteredPlugin :=
  {| path := path x; type := type x; name := name x; version := version x;
     description := description x; author := author x; locked := locked x; error := error x;
     enabled := v; loaded := loaded x; started := started x; configured := configured x;
     paired := paired x; connected := connected x; registeredDevices := registeredDevices x;
     addedDevices := addedDevices x; configJson := configJson x; schemaJson := schemaJson x;
     storageContext := storageContext x; commissioningServer := commissioningServer x;
     aggregator := aggregator x; device := device x; platform := platform x |}.

Definition set_loaded (v : option bool) (x : RegisteredPlugin) : RegisteredPlugin :=
  {| path := path x; type := type x; name := name x; version := version x;
     description := description x; author := author x; locked := locked x; error := error x;
     enabled := enabled x; loaded := v; started := started x; configured := configured x;
     paired := paired x; connected := connected x; registeredDevices := registeredDevices x;
     addedDevices := addedDevices x; configJson := configJson x; schemaJson := schemaJson x;
     storageContext := storageContext x; commissioningServer := commissioningServer x;
     aggregator := aggregator x; device := device x; platform := platform x |}.

Definition set_started (v : option bool) (x : RegisteredPlugin) : RegisteredPlugin :=
  {| path := path x; type := type x; name := name x; version := version x;
     description := description x; author := author x; locked := locked x; error := error x;
     enabled := enabled x; loaded := loaded x; started := v; configured := configured x;
     paired := paired x; connected := connected x; registeredDevices := registeredDevices x;
     addedDevices := addedDevices x; configJson := configJson x; schemaJson := schemaJson x;
     storageContext := storageContext x; commissioningServer := commissioningServer x;
     aggregator := aggregator x; device := device x; platform := platform x |}.

Definition set_configured (v : option bool) (x : RegisteredPlugin) : RegisteredPlugin :=
  {| path := path x; type := type x; name := name x; version := version x;
     description := description x; author := author x; locked := locked x; error := error x;
     enabled := enabled x; loaded := loaded x; started := started x; configured := v;
     paired := paired x; connected := connected x; registeredDevices := registeredDevices x;
     addedDevices := addedDevices x; configJson := configJson x; schemaJson := schemaJson x;
     storageContext := storageContext x; commissioningServer := commissioningServer x;
     aggregator := aggregator x; device := device x; platform := platform x |}.

Definition set_paired (v : option bool) (x : RegisteredPlugin) : RegisteredPlugin :=
  {| path := path x; type := type x; name := name x; version := version x;
     description := description x; author := author x; locked := locked x; error := error x;
     enabled := enabled x; loaded := loaded x; started := started x; configured := configured x;
     paired := v; connected := connected x; registeredDevices := registeredDevices x;
     addedDevices := addedDevices x; configJson := configJson x; schemaJson := schemaJson x;
     storageContext := storageContext x; commissioningServer := commissioningServer x;
     aggregator := aggregator x; device := device x; platform := platform x |}.

Definition set_connected (v : option bool) (x : RegisteredPlugin) : RegisteredPlugin :=
  {| path := path x; type := type x; name := name x; version := version x;
     description := description x; author := author x; locked := locked x; error := error x;
     enabled := enabled x; loaded := loaded x; started := started x; configured := configured x;
     paired := paired x; connected := v; registeredDevices := registeredDevices x;
     addedDevices := addedDevices x; configJson := configJson x; schemaJson := schemaJson x;
     storageContext := storageContext x; commissioningServer := commissioningServer x;
     aggregator := aggregator x; device := device x; platform := platform x |}.

Definition set_registeredDevices (v : option Z) (x : RegisteredPlugin) : RegisteredPlugin :=
  {| path := path x; type := type x; name := name x; version := version x;
     description := description x; author := author x; locked := locked x; error := error x;
     enabled := enabled x; loaded := loaded x; started := started x; configured := configured x;
     paired := paired x; connected := connected x; registeredDevices := v;
     addedDevices := addedDevices x; configJson := configJson x; schemaJson := schemaJson x;
     storageContext := storageContext x; commissioningServer := commissioningServer x;
     aggregator := aggregator x; device := device x; platform := platform x |}.

Definition set_addedDevices (v : option Z) (x : RegisteredPlugin) : RegisteredPlugin :=
  {| path := path x; type := type x; name := name x; version := version x;
     description := description x; author := author x; locked := locked x; error := error x;
     enabled := enabled x; loaded := loaded x; started := started x; configured := configured x;
     paired := paired x; connected := connected x; registeredDevices := registeredDevices x;
     addedDevices := v; configJson := configJson x; schemaJson := schemaJson x;
     storageContext := storageContext x; commissioningServer := commissioningServer x;
     aggregator := aggregator x; device := device x; platform := platform x |}.

Definition set_configJson (v : option PlatformConfig) (x : RegisteredPlugin) : RegisteredPlugin :=
  {| path := path x; type := type x; name := name x; version := version x;
     description := description x; author := author x; locked := locked x; error := error x;
     enabled := enabled x; loaded := loaded x; started := started x; configured := configured x;
     paired := paired x; connected := connected x; registeredDevices := registeredDevices x;
     addedDevices := addedDevices x; configJson := v; schemaJson := schemaJson x;
     storageContext := storageContext x; commissioningServer := commissioningServer x;
     aggregator := aggregator x; device := device x; platform := platform x |}.

Definition set_schemaJson (v : option PlatformSchema) (x : RegisteredPlugin) : RegisteredPlugin :=
  {| path := path x; type := type x; name := name x; version := version x;
     description := description x; author := author x; locked := locked x; error := error x;
     enabled := enabled x; loaded := loaded x; started := started x; configured := configured x;
     paired := paired x; connected := connected x; registeredDevices := registeredDevices x;
     addedDevices := addedDevices x; configJson := configJson x; schemaJson := v;
     storageContext := storageContext x; commissioningServer := commissioningServer x;
     aggregator := aggregator x; device := device x; platform := platform x |}.

Definition set_storageContext (v : option StorageContext) (x : RegisteredPlugin) : RegisteredPlugin :=
  {| path := path x; type := type x; name := name x; version := version x;
     description := description x; author := author x; locked := locked x; error := error x;
     enabled := enabled x; loaded := loaded x; started := started x; configured := configured x;
     paired := paired x; connected := connected x; registeredDevices := registeredDevices x;
     addedDevices := addedDevices x; configJson := configJson x; schemaJson := schemaJson x;
     storageContext := v; commissioningServer := commissioningServer x;
     aggregator := aggregator x; device := device x; platform := platform x |}.

Definition set_commissioningServer (v : option CommissioningServer) (x : RegisteredPlugin) : RegisteredPlugin :=
  {| path := path x; type := type x; name := name x; version := version x;
     description := description x; author := author x; locked := locked x; error := error x;
     enabled := enabled x; loaded := loaded x; started := started x; configured := configured x;
     paired := paired x; connected := connected x; registeredDevices := registeredDevices x;
     addedDevices := addedDevices x; configJson := configJson x; schemaJson := schemaJson x;
     storageContext := storageContext x; commissioningServer := v; aggregator := aggregator x;
     device := device x; platform := platform x |}.

Definition set_aggregator (v : option Aggregator) (x : RegisteredPlugin) : RegisteredPlugin :=
  {| path := path x; type := type x; name := name x; version := version x;
     description := description x; author := author x; locked := locked x; error := error x;
     enabled := enabled x; loaded := loaded x; started := started x; configured := configured x;
     paired := paired x; connected := connected x; registeredDevices := registeredDevices x;
     addedDevices := addedDevices x; configJson := configJson x; schemaJson := schemaJson x;
     storageContext := storageContext x; commissioningServer := commissioningServer x;
     aggregator := v; device := device x; platform := platform x |}.

Definition set_device (v : option DeviceId) (x : RegisteredPlugin) : RegisteredPlugin :=
  {| path := path x; type := type x; name := name x; version := version x;
     description := description x; author := author x; locked := locked x; error := error x;
     enabled := enabled x; loaded := loaded x; started := started x; configured := configured x;
     paired := paired x; connected := connected x; registeredDevices := registeredDevices x;
     addedDevices := addedDevices x; configJson := configJson x; schemaJson := schemaJson x;
     storageContext := storageContext x; commissioningServer := commissioningServer x;
     aggregator := aggregator x; device := v; platform := platform x |}.

Definition set_platform (v : option MatterbridgePlatform) (x : RegisteredPlugin) : RegisteredPlugin :=
  {| path := path x; type := type x; name := name x; version := version x;
     description := description x; author := author x; locked := locked x; error := error x;
     enabled := enabled x; loaded := loaded x; started := started x; configured := configured x;
     paired := paired x; connected := connected x; registeredDevices := registeredDevices x;
     addedDevices := addedDevices x; configJson := configJson x; schemaJson := schemaJson x;
     storageContext := storageContext x; commissioningServer := commissioningServer x;
     aggregator := aggregator x; device := device x; platform := v |}.

End Plugin.
Abbreviation RegisteredPlugin := Plugin.RegisteredPlugin.

(** The part of a plugin that is saved in the node storage. *)
Module Base.
Record BaseRegisteredPlugin := Build {
  path : string;
  type : string;  (* 'AccessoryPlatform' | 'DynamicPlatform' *)
  name : string;
  version : string;
  description : string;
  author : string;
  locked : option bool;
  error : option bool;
  enabled : option bool;
  loaded : option bool;
  started : option bool;
  configured : option bool;
  paired : option bool;
  connected : option bool;
  registeredDevices : option Z;
  addedDevices : option Z;
  configJson : option PlatformConfig;
  schemaJson : option PlatformSchema
}.

End Base.
Abbreviation BaseRegisteredPlugin := Base.BaseRegisteredPlugin.

(** What the node storage of the bridge holds on disk: the keys the core
    writes. *)
Record NodeStorage := {
  plugins : option (list BaseRegisteredPlugin);
  devices : option (list SerializedMatterbridgeDevice)
}.

Inductive NodeContext : Type := node_context.

(** The two paths below the matterbridge directory that a reset deletes:
    the file [matterbridge.json] and the directory [storage], with the node
    storage kept in it. *)
Record Files := {
  matterbridge_json : bool;
  storage : option NodeStorage
}.

(** A hook of a platform that the core has invoked. *)
Inductive HookCall : Type :=
| OnStart (plugin : string) (message : option string)
| OnConfigure (plugin : string)
| OnShutdown (plugin : string) (message : string).

(** ** The bridge *)

Record Matterbridge := BuildMatterbridge {
  bridgeMode : BridgeMode;
  port : Z;  (* first commissioning server port *)
  passcode : option Z;
  discriminator : option Z;
  hasCleanupStarted : bool;
  registeredPlugins : list RegisteredPlugin;
  registeredDevices : list RegisteredDevice;
  nodeStorage : option NodeStorageManager;
  nodeContext : option NodeContext;  (* handle on the node storage *)
  expressApp : option Listener;
  httpServer : option Listener;
  httpsServer : option Listener;
  webSocketServer : option Listener;
  checkUpdateInterval : option Timer;
  storageManager : option StorageManager;
  matterbridgeContext : option StorageContext;
  mattercontrollerContext : option StorageContext;
  matterServer : option MatterServer;
  matterAggregator : option Aggregator;
  commissioningServer : option CommissioningServer;
  commissioningController : option Controller;
  matterbridgeVersion : string;
  osRelease : string;  (* systemInformation.osRelease *)
  instance : bool;  (* the static Matterbridge.instance handle is set *)
  processListeners : bool;  (* signal handlers still attached to the process *)
  reachable : gmap DeviceId bool;  (* reachability last set on each device object *)
  files : Files;  (* what is on disk below the matterbridge directory *)
  hookCalls : list HookCall;  (* plugin hooks invoked, oldest first *)
  emitted : list string  (* events passed to this.emit, oldest first *)
}.

Definition set_port (v : Z) (x : Matterbridge) : Matterbridge :=
  {| bridgeMode := bridgeMode x; port := v; passcode := passcode x;
     discriminator := discriminator x; hasCleanupStarted := hasCleanupStarted x;
     registeredPlugins := registeredPlugins x; registeredDevices := registeredDevices x;
     nodeStorage := nodeStorage x; nodeContext := nodeContext x; expressApp := expressApp x;
     httpServer := httpServer x; httpsServer := httpsServer x;
     webSocketServer := webSocketServer x; checkUpdateInterval := checkUpdateInterval x;
     storageManager := storageManager x; matterbridgeContext := matterbridgeContext x;
     mattercontrollerContext := mattercontrollerContext x; matterServer := matterServer x;
     matterAggregator := matterAggregator x; commissioningServer := commissioningServer x;
     commissioningController := commissioningController x;
     matterbridgeVersion := matterbridgeVersion x; osRelease := osRelease x;
     instance := instance x; processListeners := processListeners x; reachable := reachable x;
     files := files x; hookCalls := hookCalls x; emitted := emitted x |}.

Definition set_passcode (v : option Z) (x : Matterbridge) : Matterbridge :=
  {| bridgeMode := bridgeMode x; port := port x; passcode := v; discriminator := discriminator x;
     hasCleanupStarted := hasCleanupStarted x; registeredPlugins := registeredPlugins x;
     registeredDevices := registeredDevices x; nodeStorage := nodeStorage x;
     nodeContext := nodeContext x; expressApp := expressApp x; httpServer := httpServer x;
     httpsServer := httpsServer x; webSocketServer := webSocketServer x;
     checkUpdateInterval := checkUpdateInterval x; storageManager := storageManager x;
     matterbridgeContext := matterbridgeContext x;
     mattercontrollerContext := mattercontrollerContext x; matterServer := matterServer x;
     matterAggregator := matterAggregator x; commissioningServer := commissioningServer x;
     commissioningController := commissioningController x;
     matterbridgeVersion := matterbridgeVersion x; osRelease := osRelease x;
     instance := instance x; processListeners := processListeners x; reachable := reachable x;
     files := files x; hookCalls := hookCalls x; emitted := emitted x |}.

Definition set_discriminator (v : option Z) (x : Matterbridge) : Matterbridge :=
  {| bridgeMode := bridgeMode x; port := port x; passcode := passcode x; discriminator := v;
     hasCleanupStarted := hasCleanupStarted x; registeredPlugins := registeredPlugins x;
     registeredDevices := registeredDevices x; nodeStorage := nodeStorage x;
     nodeContext := nodeContext x; expressApp := expressApp x; httpServer := httpServer x;
     httpsServer := httpsServer x; webSocketServer := webSocketServer x;
     checkUpdateInterval := checkUpdateInterval x; storageManager := storageManager x;
     matterbridgeContext := matterbridgeContext x;
     mattercontrollerContext := mattercontrollerContext x; matterServer := matterServer x;
     matterAggregator := matterAggregator x; commissioningServer := commissioningServer x;
     commissioningController := commissioningController x;
     matterbridgeVersion := matterbridgeVersion x; osRelease := osRelease x;
     instance := instance x; processListeners := processListeners x; reachable := reachable x;
     files := files x; hookCalls := hookCalls x; emitted := emitted x |}.

Definition set_hasCleanupStarted (v : bool) (x : Matterbridge) : Matterbridge :=
  {| bridgeMode := bridgeMode x; port := port x; passcode := passcode x;
     discriminator := discriminator x; hasCleanupStarted := v;
     registeredPlugins := registeredPlugins x; registeredDevices := registeredDevices x;
     nodeStorage := nodeStorage x; nodeContext := nodeContext x; expressApp := expressApp x;
     httpServer := httpServer x; httpsServer := httpsServer x;
     webSocketServer := webSocketServer x; checkUpdateInterval := checkUpdateInterval x;
     storageManager := storageManager x; matterbridgeContext := matterbridgeContext x;
     mattercontrollerContext := mattercontrollerContext x; matterServer := matterServer x;
     matterAggregator := matterAggregator x; commissioningServer := commissioningServer x;
     commissioningController := commissioningController x;
     matterbridgeVersion := matterbridgeVersion x; osRelease := osRelease x;
     instance := instance x; processListeners := processListeners x; reachable := reachable x;
     files := files x; hookCalls := hookCalls x; emitted := emitted x |}.

Definition set_registeredPlugins (v : list RegisteredPlugin) (x : Matterbridge) : Matterbridge :=
  {| bridgeMode := bridgeMode x; port := port x; passcode := passcode x;
     discriminator := discriminator x; hasCleanupStarted := hasCleanupStarted x;
     registeredPlugins := v; registeredDevices := registeredDevices x;
     nodeStorage := nodeStorage x; nodeContext := nodeContext x; expressApp := expressApp x;
     httpServer := httpServer x; httpsServer := httpsServer x;
     webSocketServer := webSocketServer x; checkUpdateInterval := checkUpdateInterval x;
     storageManager := storageManager x; matterbridgeContext := matterbridgeContext x;
     mattercontrollerContext := mattercontrollerContext x; matterServer := matterServer x;
     matterAggregator := matterAggregator x; commissioningServer := commissioningServer x;
     commissioningController := commissioningController x;
     matterbridgeVersion := matterbridgeVersion x; osRelease := osRelease x;
     instance := instance x; processListeners := processListeners x; reachable := reachable x;
     files := files x; hookCalls := hookCalls x; emitted := emitted x |}.

Definition set_registeredDevices (v : list RegisteredDevice) (x : Matterbridge) : Matterbridge :=
  {| bridgeMode := bridgeMode x; port := port x; passcode := passcode x;
     discriminator := discriminator x; hasCleanupStarted := hasCleanupStarted x;
     registeredPlugins := registeredPlugins x; registeredDevices := v;
     nodeStorage := nodeStorage x; nodeContext := nodeContext x; expressApp := expressApp x;
     httpServer := httpServer x; httpsServer := httpsServer x;
     webSocketServer := webSocketServer x; checkUpdateInterval := checkUpdateInterval x;
     storageManager := storageManager x; matterbridgeContext := matterbridgeContext x;
     mattercontrollerContext := mattercontrollerContext x; matterServer := matterServer x;
     matterAggregator := matterAggregator x; commissioningServer := commissioningServer x;
     commissioningController := commissioningController x;
     matterbridgeVersion := matterbridgeVersion x; osRelease := osRelease x;
     instance := instance x; processListeners := processListeners x; reachable := reachable x;
     files := files x; hookCalls := hookCalls x; emitted := emitted x |}.

Definition set_nodeStorage (v : option NodeStorageManager) (x : Matterbridge) : Matterbridge :=
  {| bridgeMode := bridgeMode x; port := port x; passcode := passcode x;
     discriminator := discriminator x; hasCleanupStarted := hasCleanupStarted x;
     registeredPlugins := registeredPlugins x; registeredDevices := registeredDevices x;
     nodeStorage := v; nodeContext := nodeContext x; expressApp := expressApp x;
     httpServer := httpServer x; httpsServer := httpsServer x;
     webSocketServer := webSocketServer x; checkUpdateInterval := checkUpdateInterval x;
     storageManager := storageManager x; matterbridgeContext := matterbridgeContext x;
     mattercontrollerContext := mattercontrollerContext x; matterServer := matterServer x;
     matterAggregator := matterAggregator x; commissioningServer := commissioningServer x;
     commissioningController := commissioningController x;
     matterbridgeVersion := matterbridgeVersion x; osRelease := osRelease x;
     instance := instance x; processListeners := processListeners x; reachable := reachable x;
     files := files x; hookCalls := hookCalls x; emitted := emitted x |}.

Definition set_nodeContext (v : option NodeContext) (x : Matterbridge) : Matterbridge :=
  {| bridgeMode := bridgeMode x; port := port x; passcode := passcode x;
     discriminator := discriminator x; hasCleanupStarted := hasCleanupStarted x;
     registeredPlugins := registeredPlugins x; registeredDevices := registeredDevices x;
     nodeStorage := nodeStorage x; nodeContext := v; expressApp := expressApp x;
     httpServer := httpServer x; httpsServer := httpsServer x;
     webSocketServer := webSocketServer x; checkUpdateInterval := checkUpdateInterval x;
     storageManager := storageManager x; matterbridgeContext := matterbridgeContext x;
     mattercontrollerContext := mattercontrollerContext x; matterServer := matterServer x;
     matterAggregator := matterAggregator x; commissioningServer := commissioningServer x;
     commissioningController := commissioningController x;
     matterbridgeVersion := matterbridgeVersion x; osRelease := osRelease x;
     instance := instance x; processListeners := processListeners x; reachable := reachable x;
     files := files x; hookCalls := hookCalls x; emitted := emitted x |}.

Definition set_expressApp (v : option Listener) (x : Matterbridge) : Matterbridge :=
  {| bridgeMode := bridgeMode x; port := port x; passcode := passcode x;
     discriminator := discriminator x; hasCleanupStarted := hasCleanupStarted x;
     registeredPlugins := registeredPlugins x; registeredDevices := registeredDevices x;
     nodeStorage := nodeStorage x; nodeContext := nodeContext x; expressApp := v;
     httpServer := httpServer x; httpsServer := httpsServer x;
     webSocketServer := webSocketServer x; checkUpdateInterval := checkUpdateInterval x;
     storageManager := storageManager x; matterbridgeContext := matterbridgeContext x;
     mattercontrollerContext := mattercontrollerContext x; matterServer := matterServer x;
     matterAggregator := matterAggregator x; commissioningServer := commissioningServer x;
     commissioningController := commissioningController x;
     matterbridgeVersion := matterbridgeVersion x; osRelease := osRelease x;
     instance := instance x; processListeners := processListeners x; reachable := reachable x;
     files := files x; hookCalls := hookCalls x; emitted := emitted x |}.

Definition set_httpServer (v : option Listener) (x : Matterbridge) : Matterbridge :=
  {| bridgeMode := bridgeMode x; port := port x; passcode := passcode x;
     discriminator := discriminator x; hasCleanupStarted := hasCleanupStarted x;
     registeredPlugins := registeredPlugins x; registeredDevices := registeredDevices x;
     nodeStorage := nodeStorage x; nodeContext := nodeContext x; expressApp := expressApp x;
     httpServer := v; httpsServer := httpsServer x; webSocketServer := webSocketServer x;
     checkUpdateInterval := checkUpdateInterval x; storageManager := storageManager x;
     matterbridgeContext := matterbridgeContext x;
     mattercontrollerContext := mattercontrollerContext x; matterServer := matterServer x;
     matterAggregator := matterAggregator x; commissioningServer := commissioningServer x;
     commissioningController := commissioningController x;
     matterbridgeVersion := matterbridgeVersion x; osRelease := osRelease x;
     instance := instance x; processListeners := processListeners x; reachable := reachable x;
     files := files x; hookCalls := hookCalls x; emitted := emitted x |}.

Definition set_httpsServer (v : option Listener) (x : Matterbridge) : Matterbridge :=
  {| bridgeMode := bridgeMode x; port := port x; passcode := passcode x;
     discriminator := discriminator x; hasCleanupStarted := hasCleanupStarted x;
     registeredPlugins := registeredPlugins x; registeredDevices := registeredDevices x;
     nodeStorage := nodeStorage x; nodeContext := nodeContext x; expressApp := expressApp x;
     httpServer := httpServer x; httpsServer := v; webSocketServer := webSocketServer x;
     checkUpdateInterval := checkUpdateInterval x; storageManager := storageManager x;
     matterbridgeContext := matterbridgeContext x;
     mattercontrollerContext := mattercontrollerContext x; matterServer := matterServer x;
     matterAggregator := matterAggregator x; commissioningServer := commissioningServer x;
     commissioningController := commissioningController x;
     matterbridgeVersion := matterbridgeVersion x; osRelease := osRelease x;
     instance := instance x; processListeners := processListeners x; reachable := reachable x;
     files := files x; hookCalls := hookCalls x; emitted := emitted x |}.

Definition set_webSocketServer (v : option Listener) (x : Matterbridge) : Matterbridge :=
  {| bridgeMode := bridgeMode x; port := port x; passcode := passcode x;
     discriminator := discriminator x; hasCleanupStarted := hasCleanupStarted x;
     registeredPlugins := registeredPlugins x; registeredDevices := registeredDevices x;
     nodeStorage := nodeStorage x; nodeContext := nodeContext x; expressApp := expressApp x;
     httpServer := httpServer x; httpsServer := httpsServer x; webSocketServer := v;
     checkUpdateInterval := checkUpdateInterval x; storageManager := storageManager x;
     matterbridgeContext := matterbridgeContext x;
     mattercontrollerContext := mattercontrollerContext x; matterServer := matterServer x;
     matterAggregator := matterAggregator x; commissioningServer := commissioningServer x;
     commissioningController := commissioningController x;
     matterbridgeVersion := matterbridgeVersion x; osRelease := osRelease x;
     instance := instance x; processListeners := processListeners x; reachable := reachable x;
     files := files x; hookCalls := hookCalls x; emitted := emitted x |}.

Definition set_checkUpdateInterval (v : option Timer) (x : Matterbridge) : Matterbridge :=
  {| bridgeMode := bridgeMode x; port := port x; passcode := passcode x;
     discriminator := discriminator x; hasCleanupStarted := hasCleanupStarted x;
     registeredPlugins := registeredPlugins x; registeredDevices := registeredDevices x;
     nodeStorage := nodeStorage x; nodeContext := nodeContext x; expressApp := expressApp x;
     httpServer := httpServer x; httpsServer := httpsServer x;
     webSocketServer := webSocketServer x; checkUpdateInterval := v;
     storageManager := storageManager x; matterbridgeContext := matterbridgeContext x;
     mattercontrollerContext := mattercontrollerContext x; matterServer := matterServer x;
     matterAggregator := matterAggregator x; commissioningServer := commissioningServer x;
     commissioningController := commissioningController x;
     matterbridgeVersion := matterbridgeVersion x; osRelease := osRelease x;
     instance := instance x; processListeners := processListeners x; reachable := reachable x;
     files := files x; hookCalls := hookCalls x; emitted := emitted x |}.

Definition set_storageManager (v : option StorageManager) (x : Matterbridge) : Matterbridge :=
  {| bridgeMode := bridgeMode x; port := port x; passcode := passcode x;
     discriminator := discriminator x; hasCleanupStarted := hasCleanupStarted x;
     registeredPlugins := registeredPlugins x; registeredDevices := registeredDevices x;
     nodeStorage := nodeStorage x; nodeContext := nodeContext x; expressApp := expressApp x;
     httpServer := httpServer x; httpsServer := httpsServer x;
     webSocketServer := webSocketServer x; checkUpdateInterval := checkUpdateInterval x;
     storageManager := v; matterbridgeContext := matterbridgeContext x;
     mattercontrollerContext := mattercontrollerContext x; matterServer := matterServer x;
     matterAggregator := matterAggregator x; commissioningServer := commissioningServer x;
     commissioningController := commissioningController x;
     matterbridgeVersion := matterbridgeVersion x; osRelease := osRelease x;
     instance := instance x; processListeners := processListeners x; reachable := reachable x;
     files := files x; hookCalls := hookCalls x; emitted := emitted x |}.

Definition set_matterbridgeContext (v : option StorageContext) (x : Matterbridge) : Matterbridge :=
  {| bridgeMode := bridgeMode x; port := port x; passcode := passcode x;
     discriminator := discriminator x; hasCleanupStarted := hasCleanupStarted x;
     registeredPlugins := registeredPlugins x; registeredDevices := registeredDevices x;
     nodeStorage := nodeStorage x; nodeContext := nodeContext x; expressApp := expressApp x;
     httpServer := httpServer x; httpsServer := httpsServer x;
     webSocketServer := webSocketServer x; checkUpdateInterval := checkUpdateInterval x;
     storageManager := storageManager x; matterbridgeContext := v;
     mattercontrollerContext := mattercontrollerContext x; matterServer := matterServer x;
     matterAggregator := matterAggregator x; commissioningServer := commissioningServer x;
     commissioningController := commissioningController x;
     matterbridgeVersion := matterbridgeVersion x; osRelease := osRelease x;
     instance := instance x; processListeners := processListeners x; reachable := reachable x;
     files := files x; hookCalls := hookCalls x; emitted := emitted x |}.

Definition set_mattercontrollerContext (v : option StorageContext) (x : Matterbridge) : Matterbridge :=
  {| bridgeMode := bridgeMode x; port := port x; passcode := passcode x;
     discriminator := discriminator x; hasCleanupStarted := hasCleanupStarted x;
     registeredPlugins := registeredPlugins x; registeredDevices := registeredDevices x;
     nodeStorage := nodeStorage x; nodeContext := nodeContext x; expressApp := expressApp x;
     httpServer := httpServer x; httpsServer := httpsServer x;
     webSocketServer := webSocketServer x; checkUpdateInterval := checkUpdateInterval x;
     storageManager := storageManager x; matterbridgeContext := matterbridgeContext x;
     mattercontrollerContext := v; matterServer := matterServer x;
     matterAggregator := matterAggregator x; commissioningServer := commissioningServer x;
     commissioningController := commissioningController x;
     matterbridgeVersion := matterbridgeVersion x; osRelease := osRelease x;
     instance := instance x; processListeners := processListeners x; reachable := reachable x;
     files := files x; hookCalls := hookCalls x; emitted := emitted x |}.

Definition set_matterServer (v : option MatterServer) (x : Matterbridge) : Matterbridge :=
  {| bridgeMode := bridgeMode x; port := port x; passcode := passcode x;
     discriminator := discriminator x; hasCleanupStarted := hasCleanupStarted x;
     registeredPlugins := registeredPlugins x; registeredDevices := registeredDevices x;
     nodeStorage := nodeStorage x; nodeContext := nodeContext x; expressApp := expressApp x;
     httpServer := httpServer x; httpsServer := httpsServer x;
     webSocketServer := webSocketServer x; checkUpdateInterval := checkUpdateInterval x;
     storageManager := storageManager x; matterbridgeContext := matterbridgeContext x;
     mattercontrollerContext := mattercontrollerContext x; matterServer := v;
     matterAggregator := matterAggregator x; commissioningServer := commissioningServer x;
     commissioningController := commissioningController x;
     matterbridgeVersion := matterbridgeVersion x; osRelease := osRelease x;
     instance := instance x; processListeners := processListeners x; reachable := reachable x;
     files := files x; hookCalls := hookCalls x; emitted := emitted x |}.

Definition set_matterAggregator (v : option Aggregator) (x : Matterbridge) : Matterbridge :=
  {| bridgeMode := bridgeMode x; port := port x; passcode := passcode x;
     discriminator := discriminator x; hasCleanupStarted := hasCleanupStarted x;
     registeredPlugins := registeredPlugins x; registeredDevices := registeredDevices x;
     nodeStorage := nodeStorage x; nodeContext := nodeContext x; expressApp := expressApp x;
     httpServer := httpServer x; httpsServer := httpsServer x;
     webSocketServer := webSocketServer x; checkUpdateInterval := checkUpdateInterval x;
     storageManager := storageManager x; matterbridgeContext := matterbridgeContext x;
     mattercontrollerContext := mattercontrollerContext x; matterServer := matterServer x;
     matterAggregator := v; commissioningServer := commissioningServer x;
     commissioningController := commissioningController x;
     matterbridgeVersion := matterbridgeVersion x; osRelease := osRelease x;
     instance := instance x; processListeners := processListeners x; reachable := reachable x;
     files := files x; hookCalls := hookCalls x; emitted := emitted x |}.

Definition set_commissioningServer (v : option CommissioningServer) (x : Matterbridge) : Matterbridge :=
  {| bridgeMode := bridgeMode x; port := port x; passcode := passcode x;
     discriminator := discriminator x; hasCleanupStarted := hasCleanupStarted x;
     registeredPlugins := registeredPlugins x; registeredDevices := registeredDevices x;
     nodeStorage := nodeStorage x; nodeContext := nodeContext x; expressApp := expressApp x;
     httpServer := httpServer x; httpsServer := httpsServer x;
     webSocketServer := webSocketServer x; checkUpdateInterval := checkUpdateInterval x;
     storageManager := storageManager x; matterbridgeContext := matterbridgeContext x;
     mattercontrollerContext := mattercontrollerContext x; matterServer := matterServer x;
     matterAggregator := matterAggregator x; commissioningServer := v;
     commissioningController := commissioningController x;
     matterbridgeVersion := matterbridgeVersion x; osRelease := osRelease x;
     instance := instance x; processListeners := processListeners x; reachable := reachable x;
     files := files x; hookCalls := hookCalls x; emitted := emitted x |}.

Definition set_commissioningController (v : option Controller) (x : Matterbridge) : Matterbridge :=
  {| bridgeMode := bridgeMode x; port := port x; passcode := passcode x;
     discriminator := discriminator x; hasCleanupStarted := hasCleanupStarted x;
     registeredPlugins := registeredPlugins x; registeredDevices := registeredDevices x;
     nodeStorage := nodeStorage x; nodeContext := nodeContext x; expressApp := expressApp x;
     httpServer := httpServer x; httpsServer := httpsServer x;
     webSocketServer := webSocketServer x; checkUpdateInterval := checkUpdateInterval x;
     storageManager := storageManager x; matterbridgeContext := matterbridgeContext x;
     mattercontrollerContext := mattercontrollerContext x; matterServer := matterServer x;
     matterAggregator := matterAggregator x; commissioningServer := commissioningServer x;
     commissioningController := v; matterbridgeVersion := matterbridgeVersion x;
     osRelease := osRelease x; instance := instance x; processListeners := processListeners x;
     reachable := reachable x; files := files x; hookCalls := hookCalls x; emitted := emitted x |}.

Definition set_instance (v : bool) (x : Matterbridge) : Matterbridge :=
  {| bridgeMode := bridgeMode x; port := port x; passcode := passcode x;
     discriminator := discriminator x; hasCleanupStarted := hasCleanupStarted x;
     registeredPlugins := registeredPlugins x; registeredDevices := registeredDevices x;
     nodeStorage := nodeStorage x; nodeContext := nodeContext x; expressApp := expressApp x;
     httpServer := httpServer x; httpsServer := httpsServer x;
     webSocketServer := webSocketServer x; checkUpdateInterval := checkUpdateInterval x;
     storageManager := storageManager x; matterbridgeContext := matterbridgeContext x;
     mattercontrollerContext := mattercontrollerContext x; matterServer := matterServer x;
     matterAggregator := matterAggregator x; commissioningServer := commissioningServer x;
     commissioningController := commissioningController x;
     matterbridgeVersion := matterbridgeVersion x; osRelease := osRelease x; instance := v;
     processListeners := processListeners x; reachable := reachable x; files := files x;
     hookCalls := hookCalls x; emitted := emitted x |}.

Definition set_processListeners (v : bool) (x : Matterbridge) : Matterbridge :=
  {| bridgeMode := bridgeMode x; port := port x; passcode := passcode x;
     discriminator := discriminator x; hasCleanupStarted := hasCleanupStarted x;
     registeredPlugins := registeredPlugins x; registeredDevices := registeredDevices x;
     nodeStorage := nodeStorage x; nodeContext := nodeContext x; expressApp := expressApp x;
     httpServer := httpServer x; httpsServer := httpsServer x;
     webSocketServer := webSocketServer x; checkUpdateInterval := checkUpdateInterval x;
     storageManager := storageManager x; matterbridgeContext := matterbridgeContext x;
     mattercontrollerContext := mattercontrollerContext x; matterServer := matterServer x;
     matterAggregator := matterAggregator x; commissioningServer := commissioningServer x;
     commissioningController := commissioningController x;
     matterbridgeVersion := matterbridgeVersion x; osRelease := osRelease x;
     instance := instance x; processListeners := v; reachable := reachable x; files := files x;
     hookCalls := hookCalls x; emitted := emitted x |}.

Definition set_reachable (v : gmap DeviceId bool) (x : Matterbridge) : Matterbridge :=
  {| bridgeMode := bridgeMode x; port := port x; passcode := passcode x;
     discriminator := discriminator x; hasCleanupStarted := hasCleanupStarted x;
     registeredPlugins := registeredPlugins x; registeredDevices := registeredDevices x;
     nodeStorage := nodeStorage x; nodeContext := nodeContext x; expressApp := expressApp x;
     httpServer := httpServer x; httpsServer := httpsServer x;
     webSocketServer := webSocketServer x; checkUpdateInterval := checkUpdateInterval x;
     storageManager := storageManager x; matterbridgeContext := matterbridgeContext x;
     mattercontrollerContext := mattercontrollerContext x; matterServer := matterServer x;
     matterAggregator := matterAggregator x; commissioningServer := commissioningServer x;
     commissioningController := commissioningController x;
     matterbridgeVersion := matterbridgeVersion x; osRelease := osRelease x;
     instance := instance x; processListeners := processListeners x; reachable := v;
     files := files x; hookCalls := hookCalls x; emitted := emitted x |}.

Definition set_files (v : Files) (x : Matterbridge) : Matterbridge :=
  {| bridgeMode := bridgeMode x; port := port x; passcode := passcode x;
     discriminator := discriminator x; hasCleanupStarted := hasCleanupStarted x;
     registeredPlugins := registeredPlugins x; registeredDevices := registeredDevices x;
     nodeStorage := nodeStorage x; nodeContext := nodeContext x; expressApp := expressApp x;
     httpServer := httpServer x; httpsServer := httpsServer x;
     webSocketServer := webSocketServer x; checkUpdateInterval := checkUpdateInterval x;
     storageManager := storageManager x; matterbridgeContext := matterbridgeContext x;
     mattercontrollerContext := mattercontrollerContext x; matterServer := matterServer x;
     matterAggregator := matterAggregator x; commissioningServer := commissioningServer x;
     commissioningController := commissioningController x;
     matterbridgeVersion := matterbridgeVersion x; osRelease := osRelease x;
     instance := instance x; processListeners := processListeners x; reachable := reachable x;
     files := v; hookCalls := hookCalls x; emitted := emitted x |}.

Definition set_hookCalls (v : list HookCall) (x : Matterbridge) : Matterbridge :=
  {| bridgeMode := bridgeMode x; port := port x; passcode := passcode x;
     discriminator := discriminator x; hasCleanupStarted := hasCleanupStarted x;
     registeredPlugins := registeredPlugins x; registeredDevices := registeredDevices x;
     nodeStorage := nodeStorage x; nodeContext := nodeContext x; expressApp := expressApp x;
     httpServer := httpServer x; httpsServer := httpsServer x;
     webSocketServer := webSocketServer x; checkUpdateInterval := checkUpdateInterval x;
     storageManager := storageManager x; matterbridgeContext := matterbridgeContext x;
     mattercontrollerContext := mattercontrollerContext x; matterServer := matterServer x;
     matterAggregator := matterAggregator x; commissioningServer := commissioningServer x;
     commissioningController := commissioningController x;
     matterbridgeVersion := matterbridgeVersion x; osRelease := osRelease x;
     instance := instance x; processListeners := processListeners x; reachable := reachable x;
     files := files x; hookCalls := v; emitted := emitted x |}.

Definition set_emitted (v : list string) (x : Matterbridge) : Matterbridge :=
  {| bridgeMode := bridgeMode x; port := port x; passcode := passcode x;
     discriminator := discriminator x; hasCleanupStarted := hasCleanupStarted x;
     registeredPlugins := registeredPlugins x; registeredDevices := registeredDevices x;
     nodeStorage := nodeStorage x; nodeContext := nodeContext x; expressApp := expressApp x;
     httpServer := httpServer x; httpsServer := httpsServer x;
     webSocketServer := webSocketServer x; checkUpdateInterval := checkUpdateInterval x;
     storageManager := storageManager x; matterbridgeContext := matterbridgeContext x;
     mattercontrollerContext := mattercontrollerContext x; matterServer := matterServer x;
     matterAggregator := matterAggregator x; commissioningServer := commissioningServer x;
     commissioningController := commissioningController x;
     matterbridgeVersion := matterbridgeVersion x; osRelease := osRelease x;
     instance := instance x; processListeners := processListeners x; reachable := reachable x;
     files := files x; hookCalls := hookCalls x; emitted := v |}.


(** ** The plugin registry *)

(** Index of the first plugin with the given name, as
    [this.registeredPlugins.find(plugin => plugin.name === pluginName)]
    finds it. *)
Fixpoint findIndex (pluginName : string) (ps : list RegisteredPlugin) : option nat :=
  match ps with
  | [] => None
  | p :: ps' =>
      if String.eqb (Plugin.name p) pluginName then Some 0%nat
      else S <$> findIndex pluginName ps'
  end.

Definition findPlugin (pluginName : string) (mb : Matterbridge)
  : option (nat * RegisteredPlugin) :=
  i ← findIndex pluginName (registeredPlugins mb);
  p ← registeredPlugins mb !! i;
  Some (i, p).

(** Assignment to properties of the plugin object at position [i]. *)
Definition update_plugin (i : nat) (f : RegisteredPlugin → RegisteredPlugin)
    (mb : Matterbridge) : Matterbridge :=
  set_registeredPlugins (alter f i (registeredPlugins mb)) mb.

Definition call_hook (c : HookCall) (mb : Matterbridge) : Matterbridge :=
  set_hookCalls (hookCalls mb ++ [c]) mb.

Definition emit (event : string) (mb : Matterbridge) : Matterbridge :=
  set_emitted (emitted mb ++ [event]) mb.

(** [getBaseRegisteredPlugins()] with [includeConfigSchema = false]: the
    config and the schema are saved as empty objects. *)
Definition toBase (p : RegisteredPlugin) : BaseRegisteredPlugin :=
  {| Base.path := Plugin.path p; Base.type := Plugin.type p;
     Base.name := Plugin.name p; Base.version := Plugin.version p;
     Base.description := Plugin.description p; Base.author := Plugin.author p;
     Base.locked := Plugin.locked p; Base.error := Plugin.error p;
     Base.enabled := Plugin.enabled p; Base.loaded := Plugin.loaded p;
     Base.started := Plugin.started p; Base.configured := Plugin.configured p;
     Base.paired := Plugin.paired p; Base.connected := Plugin.connected p;
     Base.registeredDevices := Plugin.registeredDevices p;
     Base.addedDevices := Plugin.addedDevices p;
     Base.configJson := Some "{}"%string; Base.schemaJson := Some "{}"%string |}.

Definition getBaseRegisteredPlugins (mb : Matterbridge) : list BaseRegisteredPlugin :=
  toBase <$> registeredPlugins mb.

(** The node storage on disk, an empty one if the directory is missing. *)
Definition node_storage (f : Files) : NodeStorage :=
  default {| plugins := None; devices := None |} (storage f).

(** [this.nodeContext?.set('plugins', v)] once the write has succeeded. *)
Definition persist_plugins (v : list BaseRegisteredPlugin) (mb : Matterbridge)
  : Matterbridge :=
  match nodeContext mb with
  | None => mb
  | Some _ =>
      set_files
        {| matterbridge_json := matterbridge_json (files mb);
           storage := Some {| plugins := Some v;
                              devices := devices (node_storage (files mb)) |} |} mb
  end.

(** [this.nodeContext.set('devices', v)]. *)
Definition persist_devices (v : list SerializedMatterbridgeDevice) (mb : Matterbridge)
  : Matterbridge :=
  set_files
    {| matterbridge_json := matterbridge_json (files mb);
       storage := Some {| plugins := plugins (node_storage (files mb));
                          devices := Some v |} |} mb.

(** ** Results of methods that can throw or leave the process *)

Inductive Outcome (A : Type) : Type :=
| Returned (a : A) (mb : Matterbridge)
| Threw (mb : Matterbridge)                  (* the promise rejects *)
| Exited (code : Z) (mb : Matterbridge).     (* [process.exit(code)] *)
Arguments Returned {A} a mb.
Arguments Threw {A} mb.
Arguments Exited {A} code mb.

Definition M (A : Type) : Type := Matterbridge → Outcome A.

Definition ret {A} (a : A) : M A := λ mb, Returned a mb.

Definition bind {A B} (m : M A) (k : A → M B) : M B :=
  λ mb, match m mb with
        | Returned a mb' => k a mb'
        | Threw mb' => Threw mb'
        | Exited c mb' => Exited c mb'
        end.

Definition throw {A} : M A := λ mb, Threw mb.
Definition process_exit {A} (code : Z) : M A := λ mb, Exited code mb.
Definition get_state : M Matterbridge := λ mb, Returned mb mb.
Definition modify (f : Matterbridge → Matterbridge) : M unit := λ mb, Returned tt (f mb).

Declare Scope js_scope.
Delimit Scope js_scope with js.
Notation "x ←ᴶ m ; k" := (bind m (λ x, k))
  (at level 100, m at next level, right associativity) : js_scope.
Notation "m ;ᴶ k" := (bind m (λ _, k))
  (at level 100, right associativity) : js_scope.

(** The state an outcome ends in. *)
Definition final {A} (o : Outcome A) : Matterbridge :=
  match o with Returned _ mb | Threw mb | Exited _ mb => mb end.

(** ** Shutdown and restart coordinator *)

(** The loop of [cleanup] over the plugins: the shutdown hook of every
    enabled plugin without error that has a platform is called, in registry
    order; what the hook throws is caught and logged. *)
Definition shutdown_message (message : string) : string :=
  ("Matterbridge is closing: " ++ message)%string.

Fixpoint shutdown_plugins (message : string) (ps : list RegisteredPlugin)
    (mb : Matterbridge) : Matterbridge :=
  match ps with
  | [] => mb
  | p :: ps' =>
      if negb (truthy (Plugin.enabled p)) || truthy (Plugin.error p)
      then shutdown_plugins message ps' mb
      else if defined (Plugin.platform p)
      then shutdown_plugins message ps'
             (call_hook (OnShutdown (Plugin.name p) (shutdown_message message)) mb)
      else shutdown_plugins message ps' mb
  end.

(** Answers of the collaborators during the first timeout of [cleanup]:
    whether closing the protocol engine, closing its storage, and writing the
    devices to the node storage, return (rather than reject). *)
Record CleanupEnv := {
  stopMatter_ok : bool;
  stopStorage_ok : bool;
  saveDevices_ok : bool
}.

Definition stopMatter (ok : bool) : M unit :=
  if ok then
    modify (λ mb, set_matterServer None
                    (set_matterAggregator None
                       (set_commissioningServer None
                          (set_commissioningController None mb))))
  else throw.

Definition stopStorage (ok : bool) : M unit :=
  if ok then
    modify (λ mb, set_mattercontrollerContext None
                    (set_matterbridgeContext None
                       (set_storageManager None mb)))
  else throw.

Definition serialize (rd : RegisteredDevice) : option SerializedMatterbridgeDevice :=
  if serializable (device rd)
  then Some {| pluginName := plugin rd;
               serializedName := deviceName (device rd);
               serializedId := deviceId (device rd) |}
  else None.

Definition serializeRegisteredDevices (mb : Matterbridge)
  : list SerializedMatterbridgeDevice :=
  omap serialize (registeredDevices mb).

(** The callback of the second timeout (after 2 s). [fs.unlink] and
    [fs.rm] reject when the path is missing. *)
Definition unlink_matterbridge_json : M unit :=
  λ mb, if matterbridge_json (files mb)
        then Returned tt (set_files {| matterbridge_json := false;
                                       storage := storage (files mb) |} mb)
        else Threw mb.

Definition rm_storage : M unit :=
  λ mb, match storage (files mb) with
        | Some _ => Returned tt (set_files {| matterbridge_json := matterbridge_json (files mb);
                                              storage := None |} mb)
        | None => Threw mb
        end.

Definition when (b : bool) (m : M unit) : M unit := if b then m else ret tt.

Definition cleanupTimeout2 (message : string) (restart : bool) : M unit :=
  ((if restart then
      if String.eqb message "updating..." then
        modify (set_instance false) ;ᴶ modify (emit "update")
      else if String.eqb message "restarting..." then
        modify (set_instance false) ;ᴶ modify (emit "restart")
      else ret tt
    else
      when (String.eqb message "shutting down with reset...")
        unlink_matterbridge_json ;ᴶ
      when (String.eqb message "shutting down with factory reset...")
        (unlink_matterbridge_json ;ᴶ rm_storage) ;ᴶ
      modify (set_instance false) ;ᴶ
      modify (emit "shutdown")) ;ᴶ
   modify (set_hasCleanupStarted false))%js.

(** The callback of the first timeout (after 3 s); it ends by setting the
    second timeout, whose callback is run here at once. *)
Definition cleanupTimeout1 (env : CleanupEnv) (message : string) (restart : bool)
  : M unit :=
  (stopMatter (stopMatter_ok env) ;ᴶ
   stopStorage (stopStorage_ok env) ;ᴶ
   mb ←ᴶ get_state ;
   (if defined (nodeStorage mb) && defined (nodeContext mb) then
      (if saveDevices_ok env
       then modify (persist_devices (serializeRegisteredDevices mb))
       else throw) ;ᴶ
      modify (set_nodeContext None) ;ᴶ
      modify (set_nodeStorage None)
    else ret tt) ;ᴶ
   modify (set_registeredPlugins []) ;ᴶ
   modify (set_registeredDevices []) ;ᴶ
   cleanupTimeout2 message restart)%js.

(** The part of [cleanup] that runs at the call. *)
Definition cleanup_now (message : string) (mb : Matterbridge) : Matterbridge :=
  let mb := set_hasCleanupStarted true mb in
  let mb := set_processListeners false mb in
  let mb := set_checkUpdateInterval None mb in
  let mb := shutdown_plugins message (registeredPlugins mb) mb in
  let mb := set_httpServer None mb in
  let mb := set_httpsServer None mb in
  let mb := set_expressApp None mb in
  set_webSocketServer None mb.

(** [cleanup(message, restart)] followed to the end of its two timeouts. *)
Definition cleanup (env : CleanupEnv) (message : string) (restart : bool) : M unit :=
  λ mb, if hasCleanupStarted mb then Returned tt mb
        else cleanupTimeout1 env message restart (cleanup_now message mb).

(** ** Plugin lifecycle orchestrator *)

(** What [loadPlugin] reads from the plugin's [package.json]. *)
Record PackageJson := {
  pkg_name : string;
  pkg_version : string;
  pkg_description : string;
  pkg_author : string
}.

(** What importing a plugin gives: reading or parsing [package.json],
    resolving or importing the entry module, or the factory itself, throws;
    the module has no default export; or the factory returns a platform of
    some type. The config and the schema are what [loadPluginConfig] and
    [loadPluginSchema] return (neither of them throws). *)
Inductive Import : Type :=
| ImportThrows
| ImportNoDefault (pkg : PackageJson)
| ImportDefault (pkg : PackageJson) (platformType : string)
    (config : PlatformConfig) (schema : PlatformSchema).

Record LoadEnv := {
  import : Import;
  persist_ok : bool      (* [nodeContext.set('plugins', ...)] does not reject *)
}.

(** A hook either throws at the call or returns a promise. *)
Inductive HookAnswer : Type := HookThrows | HookPending.

(** A promise settles as fulfilled or as rejected. *)
Inductive Settlement : Type := Fulfilled | Rejected.

(** The promises of the orchestrator that nobody awaits: the body of a
    [loadPlugin] that is suspended at its first [await], and the promises
    returned by [onStart] and [onConfigure], together with what their [then]
    callback closes over. Plugins are named by their position in the
    registry. *)
Inductive Promise : Type :=
| PLoad (i : nat) (start : bool) (message : string)
| PStart (i : nat) (configure : bool)
| PConfigure (i : nat).

(** [configurePlugin(plugin)] up to the call of the hook. *)
Definition configurePlugin (i : nat) (answer : HookAnswer) (mb : Matterbridge)
  : Matterbridge * list Promise :=
  match registeredPlugins mb !! i with
  | None => (mb, [])
  | Some p =>
      if negb (truthy (Plugin.loaded p)) || negb (truthy (Plugin.started p))
         || negb (defined (Plugin.platform p))
      then (mb, [])
      else if truthy (Plugin.configured p) then (mb, [])
      else
        let mb := call_hook (OnConfigure (Plugin.name p)) mb in
        match answer with
        | HookThrows => (update_plugin i (Plugin.set_error (Some true)) mb, [])
        | HookPending => (mb, [PConfigure i])
        end
  end.

(** The [then] and [catch] callbacks on the promise of [onConfigure]. *)
Definition configurePlugin_settled (i : nat) (s : Settlement) (mb : Matterbridge)
  : Matterbridge :=
  match s with
  | Fulfilled => update_plugin i (Plugin.set_configured (Some true)) mb
  | Rejected => update_plugin i (Plugin.set_error (Some true)) mb
  end.

(** [startPlugin(plugin, message, configure)] up to the call of the hook. *)
Definition startPlugin (i : nat) (message : option string) (configure : bool)
    (answer : HookAnswer) (mb : Matterbridge) : Matterbridge * list Promise :=
  match registeredPlugins mb !! i with
  | None => (mb, [])
  | Some p =>
      if negb (truthy (Plugin.loaded p)) || negb (defined (Plugin.platform p))
      then (mb, [])
      else if truthy (Plugin.started p) then (mb, [])
      else
        let mb := call_hook (OnStart (Plugin.name p) message) mb in
        match answer with
        | HookThrows => (update_plugin i (Plugin.set_error (Some true)) mb, [])
        | HookPending => (mb, [PStart i configure])
        end
  end.

(** The [then] and [catch] callbacks on the promise of [onStart]; [answer]
    is what [onConfigure] does if the callback goes on to configure. *)
Definition startPlugin_settled (i : nat) (configure : bool) (s : Settlement)
    (answer : HookAnswer) (mb : Matterbridge) : Matterbridge * list Promise :=
  match s with
  | Fulfilled =>
      let mb := update_plugin i (Plugin.set_started (Some true)) mb in
      if configure then configurePlugin i answer mb else (mb, [])
  | Rejected => (update_plugin i (Plugin.set_error (Some true)) mb, [])
  end.

(** The two guards at the head of [loadPlugin]: [Some r] when the method
    returns [r] at once. *)
Definition loadPlugin_guard (p : RegisteredPlugin)
  : option (option MatterbridgePlatform) :=
  if negb (truthy (Plugin.enabled p)) then Some None
  else match Plugin.platform p with
       | Some pf => Some (Some pf)
       | None => None
       end.

(** The assignments of [loadPlugin] between the call of the factory and
    [loadPluginSchema]. *)
Definition loaded_plugin (pkg : PackageJson) (pf : MatterbridgePlatform)
    (config : PlatformConfig) (p : RegisteredPlugin) : RegisteredPlugin :=
  Plugin.set_configJson (Some config)
    (Plugin.set_addedDevices (Some 0)
       (Plugin.set_registeredDevices (Some 0)
          (Plugin.set_loaded (Some true)
             (Plugin.set_platform (Some pf)
                (Plugin.set_type (Platform.type pf)
                   (Plugin.set_author (pkg_author pkg)
                      (Plugin.set_version (pkg_version pkg)
                         (Plugin.set_description (pkg_description pkg)
                            (Plugin.set_name (pkg_name pkg) p))))))))).

(** The [try] block of [loadPlugin]. *)
Definition loadPlugin_body (i : nat) (start : bool) (message : string)
    (env : LoadEnv) (answer : HookAnswer) (mb : Matterbridge)
  : Matterbridge * option MatterbridgePlatform * list Promise :=
  match import env with
  | ImportThrows | ImportNoDefault _ =>
      (update_plugin i (Plugin.set_error (Some true)) mb, None, [])
  | ImportDefault pkg platformType config schema =>
      let pf := {| Platform.name := pkg_name pkg; Platform.type := platformType;
                   Platform.version := pkg_version pkg; Platform.config := config |} in
      let mb := update_plugin i (loaded_plugin pkg pf config) mb in
      let mb := update_plugin i (Plugin.set_schemaJson (Some schema)) mb in
      if defined (nodeContext mb) && negb (persist_ok env)
      then (update_plugin i (Plugin.set_error (Some true)) mb, None, [])
      else
        let mb := persist_plugins (getBaseRegisteredPlugins mb) mb in
        if start
        then let '(mb, ps) := startPlugin i (Some message) false answer mb in
             (mb, Some pf, ps)
        else (mb, Some pf, [])
  end.

(** [loadPlugin(plugin, start, message)] run to its end. *)
Definition loadPlugin (i : nat) (start : bool) (message : string)
    (env : LoadEnv) (answer : HookAnswer) (mb : Matterbridge)
  : Matterbridge * option MatterbridgePlatform * list Promise :=
  match registeredPlugins mb !! i with
  | None => (mb, None, [])
  | Some p =>
      match loadPlugin_guard p with
      | Some r => (mb, r, [])
      | None => loadPlugin_body i start message env answer mb
      end
  end.

(** *** The scheduler

    The orchestrator between two turns of the event loop: the bridge and
    the promises that have not settled yet. A step is a call of one of the
    three operations or the settlement of a pending promise. *)
Record Sched := {
  mbridge : Matterbridge;
  pending : list Promise
}.

Inductive Op : Type :=
| CallLoad (i : nat) (start : bool) (message : string)
| CallStart (i : nat) (message : option string) (configure : bool) (answer : HookAnswer)
| CallConfigure (i : nat) (answer : HookAnswer)
| ResumeLoad (k : nat) (env : LoadEnv) (answer : HookAnswer)
| SettleStart (k : nat) (s : Settlement) (answer : HookAnswer)
| SettleConfigure (k : nat) (s : Settlement).

Definition step (op : Op) (s : Sched) : Sched :=
  match op with
  | CallLoad i start message =>
      match registeredPlugins (mbridge s) !! i with
      | Some p =>
          match loadPlugin_guard p with
          | Some _ => s
          | None => {| mbridge := mbridge s;
                       pending := pending s ++ [PLoad i start message] |}
          end
      | None => s
      end
  | CallStart i message configure answer =>
      let '(mb, ps) := startPlugin i message configure answer (mbridge s) in
      {| mbridge := mb; pending := pending s ++ ps |}
  | CallConfigure i answer =>
      let '(mb, ps) := configurePlugin i answer (mbridge s) in
      {| mbridge := mb; pending := pending s ++ ps |}
  | ResumeLoad k env answer =>
      match pending s !! k with
      | Some (PLoad i start message) =>
          let '(mb, _, ps) := loadPlugin_body i start message env answer (mbridge s) in
          {| mbridge := mb; pending := delete k (pending s) ++ ps |}
      | _ => s
      end
  | SettleStart k st answer =>
      match pending s !! k with
      | Some (PStart i configure) =>
          let '(mb, ps) := startPlugin_settled i configure st answer (mbridge s) in
          {| mbridge := mb; pending := delete k (pending s) ++ ps |}
      | _ => s
      end
  | SettleConfigure k st =>
      match pending s !! k with
      | Some (PConfigure i) =>
          {| mbridge := configurePlugin_settled i st (mbridge s);
             pending := delete k (pending s) |}
      | _ => s
      end
  end.

Definition run (ops : list Op) (s : Sched) : Sched := foldl (λ s op, step op s) s ops.

(** The lifecycle flags of a plugin are ordered:
    [configured ⇒ started ⇒ loaded]. *)
Definition lifecycle_ok (p : RegisteredPlugin) : bool :=
  implb (truthy (Plugin.configured p)) (truthy (Plugin.started p))
  && implb (truthy (Plugin.started p)) (truthy (Plugin.loaded p)).

(** ** Startup supervisor *)

(** [startMatterServer()]; [start_ok] tells whether the engine's
    [matterServer.start()] returns. *)
Record StartEnv := {
  start_ok : bool;
  cleanup_env : CleanupEnv
}.

Definition startMatterServer (env : StartEnv) : M unit :=
  λ mb, match matterServer mb with
        | None => cleanup (cleanup_env env) "No matter server initialized" false mb
        | Some ms =>
            if start_ok env
            then Returned tt
                   (set_matterServer
                      (Some {| commissioningServers := commissioningServers ms;
                               running := true |}) mb)
            else Threw mb
        end.

(** How the loop over the plugins in a poll ends. *)
Inductive Scan : Type :=
| ScanError     (* an enabled plugin in error was met: the poll clears the interval *)
| ScanWait      (* the poll returns and the interval goes on *)
| ScanReady.    (* the loop ran to its end with nothing to wait for *)

Definition not_ready (p : RegisteredPlugin) : bool :=
  negb (truthy (Plugin.loaded p)) || negb (truthy (Plugin.started p)).

(** [failCount++; if (failCount > 30) plugin.error = true] for the plugin at
    position [k]. *)
Definition count_failure (k : nat) (failCount : Z) (mb : Matterbridge)
  : Z * Matterbridge :=
  let failCount := failCount + 1 in
  (failCount,
   if 30 <? failCount then update_plugin k (Plugin.set_error (Some true)) mb else mb).

(** The loop of the interval in bridge mode over the plugins from position
    [k] on: it returns at the first enabled plugin that is in error or not
    loaded and started. *)
Fixpoint scan_bridge (k : nat) (ps : list RegisteredPlugin) (failCount : Z)
    (mb : Matterbridge) : Scan * Z * Matterbridge :=
  match ps with
  | [] => (ScanReady, failCount, mb)
  | p :: ps' =>
      if negb (truthy (Plugin.enabled p)) then scan_bridge (S k) ps' failCount mb
      else if truthy (Plugin.error p) then (ScanError, failCount, mb)
      else if not_ready p then
        let '(failCount, mb) := count_failure k failCount mb in
        (ScanWait, failCount, mb)
      else scan_bridge (S k) ps' failCount mb
  end.

(** The loop of the interval in childbridge mode: a plugin that is not loaded
    and started clears [allStarted] and the loop goes on. *)
Fixpoint scan_childbridge (k : nat) (ps : list RegisteredPlugin) (failCount : Z)
    (allStarted : bool) (mb : Matterbridge) : Scan * Z * Matterbridge :=
  match ps with
  | [] => (if allStarted then ScanReady else ScanWait, failCount, mb)
  | p :: ps' =>
      if negb (truthy (Plugin.enabled p))
      then scan_childbridge (S k) ps' failCount allStarted mb
      else if truthy (Plugin.error p) then (ScanError, failCount, mb)
      else if not_ready p then
        let '(failCount, mb) := count_failure k failCount mb in
        scan_childbridge (S k) ps' failCount false mb
      else scan_childbridge (S k) ps' failCount allStarted mb
  end.

(** The interval set by [startMatterbridge]: its [failCount] and whether
    [clearInterval] has been called on it. *)
Record Interval := {
  failCount : Z;
  cleared : bool
}.

(** What one run of the interval's callback did. *)
Inductive Poll : Type :=
| NotRun                            (* the interval is cleared or was never set *)
| Waiting
| Aborted
| CalledStartMatterServer (o : Outcome unit).

Definition scan (mb : Matterbridge) (failCount : Z)
  : option (Scan * Z * Matterbridge) :=
  match bridgeMode mb with
  | bridge => Some (scan_bridge 0 (registeredPlugins mb) failCount mb)
  | childbridge => Some (scan_childbridge 0 (registeredPlugins mb) failCount true mb)
  | _ => None
  end.

(** One run of the callback of [startMatterInterval], up to and with the
    call of [startMatterServer]; showing the pairing codes, which follows
    it, is left out. The result is what the callback did, the interval, and
    the bridge as that call leaves it (as the loop leaves it when the call is
    not made). *)
Definition startMatterInterval (env : StartEnv) (iv : Interval) (mb : Matterbridge)
  : Poll * Interval * Matterbridge :=
  if cleared iv then (NotRun, iv, mb)
  else
    match scan mb (failCount iv) with
    | None => (NotRun, iv, mb)
    | Some (ScanError, fc, mb') => (Aborted, {| failCount := fc; cleared := true |}, mb')
    | Some (ScanWait, fc, mb') => (Waiting, {| failCount := fc; cleared := false |}, mb')
    | Some (ScanReady, fc, mb') =>
        let o := startMatterServer env mb' in
        (CalledStartMatterServer o, {| failCount := fc; cleared := true |}, final o)
    end.

Definition calls_startMatterServer (p : Poll) : bool :=
  match p with CalledStartMatterServer _ => true | _ => false end.

(** An enabled plugin in error. *)
Definition in_error (p : RegisteredPlugin) : bool :=
  truthy (Plugin.enabled p) && truthy (Plugin.error p).

(** An enabled plugin is without error, loaded and started. *)
Definition ready (p : RegisteredPlugin) : bool :=
  implb (truthy (Plugin.enabled p))
    (negb (truthy (Plugin.error p)) && truthy (Plugin.loaded p)
     && truthy (Plugin.started p)).

(** ** Commissioning context manager *)

(** The storage of the protocol engine is a map of maps; its operations
    do not fail. [get] of a key that is missing and has no default throws;
    [set] of [undefined] leaves the key without a value. *)
Definition ctx_get (ctx : StorageContext) (key : string) (sm : StorageManager)
  : option StorageValue :=
  sm !! ctx ≫= (λ c, c !! key).

Definition ctx_set (ctx : StorageContext) (key : string) (v : option StorageValue)
    (sm : StorageManager) : StorageManager :=
  let c := default ∅ (sm !! ctx) in
  <[ctx := match v with Some v => <[key := v]> c | None => delete key c end]> sm.

Definition storage_get (ctx : StorageContext) (key : string)
    (dflt : option StorageValue) : M StorageValue :=
  λ mb, match storageManager mb with
        | None => Threw mb
        | Some sm =>
            match ctx_get ctx key sm, dflt with
            | Some v, _ => Returned v mb
            | None, Some d => Returned d mb
            | None, None => Threw mb
            end
        end.

Definition storage_set (ctx : StorageContext) (key : string)
    (v : option StorageValue) : M unit :=
  λ mb, match storageManager mb with
        | None => Threw mb
        | Some sm => Returned tt (set_storageManager (Some (ctx_set ctx key v sm)) mb)
        end.

(** *** [parseInt(s.split('.')[0], 10)] on a version string *)

Definition is_digit (c : ascii) : bool :=
  let n := N_of_ascii c in ((48 <=? n) && (n <=? 57))%N.

Definition is_whitespace (c : ascii) : bool :=
  let n := N_of_ascii c in ((n =? 32) || ((9 <=? n) && (n <=? 13)))%N.

Definition digit_value (c : ascii) : Z := Z.of_N (N_of_ascii c) - 48.

Fixpoint skip_whitespace (s : string) : string :=
  match s with
  | String c s' => if is_whitespace c then skip_whitespace s' else s
  | EmptyString => s
  end.

(** The value of the longest prefix of digits, if there is a digit. *)
Fixpoint leading_digits (acc : option Z) (s : string) : option Z :=
  match s with
  | String c s' =>
      if is_digit c
      then leading_digits (Some (10 * default 0 acc + digit_value c)) s'
      else acc
  | EmptyString => acc
  end.

Definition parseInt (s : string) : StorageValue :=
  let s := skip_whitespace s in
  let '(negative, s) :=
    match s with
    | String "-" s' => (true, s')
    | String "+" s' => (false, s')
    | _ => (false, s)
    end in
  match leading_digits None s with
  | Some n => SNumber (if negative then - n else n)
  | None => SNaN
  end.

Fixpoint includes_dot (s : string) : bool :=
  match s with
  | String c s' => Ascii.eqb c "." || includes_dot s'
  | EmptyString => false
  end.

(** [s.split('.')[0]] *)
Fixpoint before_dot (s : string) : string :=
  match s with
  | String c s' => if Ascii.eqb c "." then EmptyString else String c (before_dot s')
  | EmptyString => EmptyString
  end.

(** [v && v.includes('.') ? parseInt(v.split('.')[0], 10) : 1] *)
Definition major_version (v : string) : StorageValue :=
  if negb (String.eqb v "") && includes_dot v then parseInt (before_dot v)
  else SNumber 1.

(** [s.slice(0, 32)] *)
Definition slice32 (s : string) : string := String.substring 0 32 s.

Definition set_value (ctx : StorageContext) (key : string) (v : StorageValue)
  : M unit := storage_set ctx key (Some v).

(** [createCommissioningServerContext]; [randomHex] is the hexadecimal
    text of the eight random bytes it draws. *)
Definition createCommissioningServerContext (randomHex : string)
    (pluginName deviceName : string) (deviceType vendorId : Z)
    (vendorName : string) (productId : Z) (productName : string)
  : M StorageContext :=
  (mb ←ᴶ get_state ;
   if negb (defined (storageManager mb)) then process_exit 1
   else
     let random := SString ("CS" ++ randomHex) in
     let storageContext : StorageContext := pluginName in
     set_value storageContext "deviceName" (SString deviceName) ;ᴶ
     set_value storageContext "deviceType" (SNumber deviceType) ;ᴶ
     set_value storageContext "vendorId" (SNumber vendorId) ;ᴶ
     set_value storageContext "vendorName" (SString (slice32 vendorName)) ;ᴶ
     set_value storageContext "productId" (SNumber productId) ;ᴶ
     set_value storageContext "productName" (SString (slice32 productName)) ;ᴶ
     set_value storageContext "nodeLabel" (SString (slice32 productName)) ;ᴶ
     set_value storageContext "productLabel" (SString (slice32 productName)) ;ᴶ
     sn ←ᴶ storage_get storageContext "serialNumber" (Some random) ;
     set_value storageContext "serialNumber" sn ;ᴶ
     uid ←ᴶ storage_get storageContext "uniqueId" (Some random) ;
     set_value storageContext "uniqueId" uid ;ᴶ
     set_value storageContext "softwareVersion"
       (major_version (matterbridgeVersion mb)) ;ᴶ
     set_value storageContext "softwareVersionString"
       (SString (matterbridgeVersion mb)) ;ᴶ
     set_value storageContext "hardwareVersion" (major_version (osRelease mb)) ;ᴶ
     set_value storageContext "hardwareVersionString" (SString (osRelease mb)) ;ᴶ
     ret storageContext)%js.

(** [importCommissioningServerContext]: the context of an accessory is
    filled from the BasicInformation cluster of its device. *)
Definition importCommissioningServerContext (pluginName : string)
    (device : MatterbridgeDevice) : M StorageContext :=
  (match basicInformation device with
   | None => process_exit 1
   | Some basic =>
       mb ←ᴶ get_state ;
       if negb (defined (storageManager mb)) then process_exit 1
       else
         let storageContext : StorageContext := pluginName in
         set_value storageContext "deviceName" (SString (nodeLabel basic)) ;ᴶ
         set_value storageContext "deviceType" (SNumber (deviceType device)) ;ᴶ
         set_value storageContext "vendorId" (SNumber (vendorId basic)) ;ᴶ
         set_value storageContext "vendorName" (SString (vendorName basic)) ;ᴶ
         set_value storageContext "productId" (SNumber (productId basic)) ;ᴶ
         set_value storageContext "productName" (SString (productName basic)) ;ᴶ
         set_value storageContext "nodeLabel" (SString (nodeLabel basic)) ;ᴶ
         set_value storageContext "productLabel" (SString (nodeLabel basic)) ;ᴶ
         storage_set storageContext "serialNumber" (SString <$> serialNumber basic) ;ᴶ
         storage_set storageContext "uniqueId" (SString <$> uniqueId basic) ;ᴶ
         set_value storageContext "softwareVersion" (SNumber (softwareVersion basic)) ;ᴶ
         set_value storageContext "softwareVersionString"
           (SString (softwareVersionString basic)) ;ᴶ
         set_value storageContext "hardwareVersion" (SNumber (hardwareVersion basic)) ;ᴶ
         set_value storageContext "hardwareVersionString"
           (SString (hardwareVersionString basic)) ;ᴶ
         ret storageContext
   end)%js.

(** [createCommisioningServer(context, pluginName)]: the server is built
    from the context and takes the current port, passcode and
    discriminator; the three are then stepped for the next server. *)
Definition createCommisioningServer (context : StorageContext) (pluginName : string)
  : M CommissioningServer :=
  (deviceName ←ᴶ storage_get context "deviceName" None ;
   deviceType ←ᴶ storage_get context "deviceType" None ;
   vendorId ←ᴶ storage_get context "vendorId" None ;
   vendorName ←ᴶ storage_get context "vendorName" None ;
   productId ←ᴶ storage_get context "productId" None ;
   productName ←ᴶ storage_get context "productName" None ;
   serialNumber ←ᴶ storage_get context "serialNumber" None ;
   uniqueId ←ᴶ storage_get context "uniqueId" None ;
   softwareVersion ←ᴶ storage_get context "softwareVersion" (Some (SNumber 1)) ;
   softwareVersionString ←ᴶ
     storage_get context "softwareVersionString" (Some (SString "1.0.0")) ;
   hardwareVersion ←ᴶ storage_get context "hardwareVersion" (Some (SNumber 1)) ;
   hardwareVersionString ←ᴶ
     storage_get context "hardwareVersionString" (Some (SString "1.0.0")) ;
   mb ←ᴶ get_state ;
   modify (set_port (port mb + 1)) ;ᴶ
   let commissioningServer :=
     {| CS.port := port mb;
        CS.passcode := passcode mb;
        CS.discriminator := discriminator mb;
        CS.deviceName := deviceName; CS.deviceType := deviceType;
        CS.vendorId := vendorId; CS.vendorName := vendorName;
        CS.productId := productId; CS.productName := productName;
        CS.softwareVersion := softwareVersion;
        CS.softwareVersionString := softwareVersionString;
        CS.hardwareVersion := hardwareVersion;
        CS.hardwareVersionString := hardwareVersionString;
        CS.uniqueId := uniqueId; CS.serialNumber := serialNumber;
        CS.devices := [] |} in
   modify (λ mb, set_passcode (incr (passcode mb)) mb) ;ᴶ
   modify (λ mb, set_discriminator (incr (discriminator mb)) mb) ;ᴶ
   ret commissioningServer)%js.

(** [createMatterAggregator(context, pluginName)] *)
Definition createMatterAggregator (randomHex : string) (context : StorageContext)
    (pluginName : string) : M Aggregator :=
  (let random := SString ("AG" ++ randomHex) in
   sn ←ᴶ storage_get context "aggregatorSerialNumber" (Some random) ;
   set_value context "aggregatorSerialNumber" sn ;ᴶ
   uid ←ᴶ storage_get context "aggregatorUniqueId" (Some random) ;
   set_value context "aggregatorUniqueId" uid ;ᴶ
   serialNumber ←ᴶ storage_get context "aggregatorSerialNumber" None ;
   uniqueId ←ᴶ storage_get context "aggregatorUniqueId" None ;
   softwareVersion ←ᴶ storage_get context "softwareVersion" (Some (SNumber 1)) ;
   softwareVersionString ←ᴶ
     storage_get context "softwareVersionString" (Some (SString "1.0.0")) ;
   hardwareVersion ←ᴶ storage_get context "hardwareVersion" (Some (SNumber 1)) ;
   hardwareVersionString ←ᴶ
     storage_get context "hardwareVersionString" (Some (SString "1.0.0")) ;
   ret {| Aggregator.serialNumber := serialNumber;
          Aggregator.uniqueId := uniqueId;
          Aggregator.softwareVersion := softwareVersion;
          Aggregator.softwareVersionString := softwareVersionString;
          Aggregator.hardwareVersion := hardwareVersion;
          Aggregator.hardwareVersionString := hardwareVersionString;
          Aggregator.bridged := [] |})%js.

(** The commissioning servers that a run of calls creates one after the
    other; a call that throws creates none and the run goes on. *)
Fixpoint createCommisioningServers (calls : list (StorageContext * string))
    (mb : Matterbridge) : list CommissioningServer * Matterbridge :=
  match calls with
  | [] => ([], mb)
  | (context, pluginName) :: calls' =>
      match createCommisioningServer context pluginName mb with
      | Returned cs mb' =>
          let '(css, mb'') := createCommisioningServers calls' mb' in
          (cs :: css, mb'')
      | Threw mb' | Exited _ mb' => createCommisioningServers calls' mb'
      end
  end.

(** ** Device registry and bridge topology manager *)

(** The plugin object at position [i], as it is now. *)
Definition plugin_at (i : nat) : M RegisteredPlugin :=
  λ mb, match registeredPlugins mb !! i with
        | Some p => Returned p mb
        | None => Threw mb
        end.

(** [this.matterServer?.addCommissioningServer(server, { uniqueStorageKey })] *)
Definition addCommissioningServer (uniqueStorageKey : string) (mb : Matterbridge)
  : Matterbridge :=
  match matterServer mb with
  | None => mb
  | Some ms =>
      set_matterServer
        (Some {| commissioningServers := commissioningServers ms ++ [uniqueStorageKey];
                 running := running ms |}) mb
  end.

(** The random texts drawn while the first device of a plugin is added. *)
Record AddEnv := {
  context_random : string;
  aggregator_random : string
}.

Definition AGGREGATOR_code : Z := 0x000e.

(** [plugin.commissioningServer.addDevice(child)] *)
Definition server_addDevice (e : Endpoint) (p : RegisteredPlugin) : RegisteredPlugin :=
  Plugin.set_commissioningServer (CS.addDevice e <$> Plugin.commissioningServer p) p.

(** Childbridge mode, first device of an [AccessoryPlatform] plugin. *)
Definition add_first_accessory (i : nat) (device : MatterbridgeDevice) : M unit :=
  (modify (update_plugin i (Plugin.set_locked (Some true))) ;ᴶ
   plugin ←ᴶ plugin_at i ;
   storageContext ←ᴶ importCommissioningServerContext (Plugin.name plugin) device ;
   modify (update_plugin i (Plugin.set_storageContext (Some storageContext))) ;ᴶ
   commissioningServer ←ᴶ createCommisioningServer storageContext (Plugin.name plugin) ;
   modify (update_plugin i (Plugin.set_commissioningServer (Some commissioningServer))) ;ᴶ
   modify (update_plugin i (server_addDevice (EDevice (deviceId device)))) ;ᴶ
   modify (update_plugin i (Plugin.set_device (Some (deviceId device)))) ;ᴶ
   modify (addCommissioningServer (Plugin.name plugin)))%js.

(** Childbridge mode, first device of a [DynamicPlatform] plugin. *)
Definition add_first_dynamic (env : AddEnv) (i : nat) : M unit :=
  (modify (update_plugin i (Plugin.set_locked (Some true))) ;ᴶ
   plugin ←ᴶ plugin_at i ;
   storageContext ←ᴶ
     createCommissioningServerContext (context_random env) (Plugin.name plugin)
       "Matterbridge" AGGREGATOR_code 0xfff1 "Matterbridge" 0x8000
       (Plugin.description plugin) ;
   modify (update_plugin i (Plugin.set_storageContext (Some storageContext))) ;ᴶ
   commissioningServer ←ᴶ createCommisioningServer storageContext (Plugin.name plugin) ;
   modify (update_plugin i (Plugin.set_commissioningServer (Some commissioningServer))) ;ᴶ
   aggregator ←ᴶ
     createMatterAggregator (aggregator_random env) storageContext (Plugin.name plugin) ;
   modify (update_plugin i (Plugin.set_aggregator (Some aggregator))) ;ᴶ
   modify (update_plugin i (server_addDevice EAggregator)) ;ᴶ
   modify (addCommissioningServer (Plugin.name plugin)))%js.

(** [plugin.aggregator?.addBridgedDevice(device)] *)
Definition aggregator_add (d : DeviceId) (p : RegisteredPlugin) : RegisteredPlugin :=
  Plugin.set_aggregator (Aggregator.addBridgedDevice d <$> Plugin.aggregator p) p.

Definition aggregator_remove (d : DeviceId) (p : RegisteredPlugin) : RegisteredPlugin :=
  Plugin.set_aggregator (Aggregator.removeBridgedDevice d <$> Plugin.aggregator p) p.

(** [if (plugin.registeredDevices !== undefined) plugin.registeredDevices++]
    and the same for [addedDevices]. *)
Definition count_up (p : RegisteredPlugin) : RegisteredPlugin :=
  Plugin.set_addedDevices (incr (Plugin.addedDevices p))
    (Plugin.set_registeredDevices (incr (Plugin.registeredDevices p)) p).

Definition count_down (p : RegisteredPlugin) : RegisteredPlugin :=
  Plugin.set_addedDevices (decr (Plugin.addedDevices p))
    (Plugin.set_registeredDevices (decr (Plugin.registeredDevices p)) p).

Definition push_device (pluginName : string) (device : MatterbridgeDevice)
    (mb : Matterbridge) : Matterbridge :=
  set_registeredDevices
    (registeredDevices mb ++ [{| plugin := pluginName; device := device |}]) mb.

Definition addBridgedDevice (env : AddEnv) (pluginName : string)
    (device : MatterbridgeDevice) : M unit :=
  (mb ←ᴶ get_state ;
   if BridgeMode_eqb (bridgeMode mb) bridge && negb (defined (matterAggregator mb))
   then ret tt
   else
     match findPlugin pluginName mb with
     | None => ret tt
     | Some (i, _) =>
         when (BridgeMode_eqb (bridgeMode mb) bridge)
           (modify (λ mb, set_matterAggregator
                            (Aggregator.addBridgedDevice (deviceId device)
                               <$> matterAggregator mb) mb)) ;ᴶ
         when (BridgeMode_eqb (bridgeMode mb) childbridge)
           (plugin ←ᴶ plugin_at i ;
            when (String.eqb (Plugin.type plugin) "AccessoryPlatform"
                  && negb (truthy (Plugin.locked plugin)))
              (add_first_accessory i device) ;ᴶ
            plugin ←ᴶ plugin_at i ;
            when (String.eqb (Plugin.type plugin) "DynamicPlatform")
              (when (negb (truthy (Plugin.locked plugin))) (add_first_dynamic env i) ;ᴶ
               modify (update_plugin i (aggregator_add (deviceId device))))) ;ᴶ
         modify (push_device pluginName device) ;ᴶ
         modify (update_plugin i count_up)
     end)%js.

(** The loop
    [this.registeredDevices.forEach((registeredDevice, index) => {
       if (registeredDevice.device === device) this.registeredDevices.splice(index, 1) })]:
    [forEach] visits the positions below the length the array had at the
    start, and after a [splice] the elements behind it have moved down by
    one. [n] counts the positions still to visit. *)
Fixpoint forEach_splice (n index : nat) (d : DeviceId) (rds : list RegisteredDevice)
  : list RegisteredDevice :=
  match n with
  | O => rds
  | S n' =>
      match rds !! index with
      | Some rd =>
          if N.eqb (deviceId (device rd)) d
          then forEach_splice n' (S index) d (delete index rds)
          else forEach_splice n' (S index) d rds
      | None => forEach_splice n' (S index) d rds
      end
  end.

Definition unregister (d : DeviceId) (mb : Matterbridge) : Matterbridge :=
  set_registeredDevices
    (forEach_splice (length (registeredDevices mb)) 0 d (registeredDevices mb)) mb.

(** [device.setBridgedDeviceReachability(false)] and the event that
    reports it. *)
Definition set_unreachable (d : DeviceId) (mb : Matterbridge) : Matterbridge :=
  set_reachable (<[d := false]> (reachable mb)) mb.

Definition removeBridgedDevice (pluginName : string) (device : MatterbridgeDevice)
  : M unit :=
  (mb ←ᴶ get_state ;
   if BridgeMode_eqb (bridgeMode mb) bridge && negb (defined (matterAggregator mb))
   then ret tt
   else
     match findPlugin pluginName mb with
     | None => ret tt
     | Some (i, plugin) =>
         if BridgeMode_eqb (bridgeMode mb) childbridge
            && negb (defined (Plugin.aggregator plugin))
         then ret tt
         else if BridgeMode_eqb (bridgeMode mb) childbridge
                 && negb (truthy (Plugin.connected plugin))
         then ret tt
         else
           when (BridgeMode_eqb (bridgeMode mb) bridge)
             (modify (set_unreachable (deviceId device)) ;ᴶ
              modify (λ mb, set_matterAggregator
                               (Aggregator.removeBridgedDevice (deviceId device)
                                  <$> matterAggregator mb) mb) ;ᴶ
              modify (unregister (deviceId device)) ;ᴶ
              modify (update_plugin i count_down)) ;ᴶ
           when (BridgeMode_eqb (bridgeMode mb) childbridge)
             (when (negb (String.eqb (Plugin.type plugin) "AccessoryPlatform")
                    && String.eqb (Plugin.type plugin) "DynamicPlatform")
                (modify (unregister (deviceId device)) ;ᴶ
                 modify (set_unreachable (deviceId device)) ;ᴶ
                 modify (update_plugin i (aggregator_remove (deviceId device)))) ;ᴶ
              modify (update_plugin i count_down))
     end)%js.

(** The two counters of the plugin at position [i]. *)
Definition counters (i : nat) (mb : Matterbridge) : option (option Z * option Z) :=
  (λ p, (Plugin.registeredDevices p, Plugin.addedDevices p)) <$> registeredPlugins mb !! i.

(** ** States used in the scenarios *)

(** The plugin object that [addplugin] builds from a [package.json]:
    [{ path, type: '', name, version, description, author, enabled: true }]. *)
Definition new_plugin (path name version description author : string)
  : RegisteredPlugin :=
  {| Plugin.path := path; Plugin.type := ""; Plugin.name := name;
     Plugin.version := version; Plugin.description := description;
     Plugin.author := author;
     Plugin.locked := None; Plugin.error := None; Plugin.enabled := Some true;
     Plugin.loaded := None; Plugin.started := None; Plugin.configured := None;
     Plugin.paired := None; Plugin.connected := None;
     Plugin.registeredDevices := None; Plugin.addedDevices := None;
     Plugin.configJson := None; Plugin.schemaJson := None;
     Plugin.storageContext := None; Plugin.commissioningServer := None;
     Plugin.aggregator := None; Plugin.device := None; Plugin.platform := None |}.

(** A bridge after [initialize]: the field initialisers of the class, the
    mode from the command line, the node storage and the storage manager
    opened, the matter server created, and the given plugins registered. *)
Definition initialized (mode : BridgeMode) (ps : list RegisteredPlugin)
  : Matterbridge :=
  {| bridgeMode := mode;
     port := 5540; passcode := None; discriminator := None;
     hasCleanupStarted := false;
     registeredPlugins := ps;
     registeredDevices := [];
     nodeStorage := Some node_storage_manager;
     nodeContext := Some node_context;
     expressApp := None; httpServer := None; httpsServer := None;
     webSocketServer := None;
     checkUpdateInterval := None;
     storageManager := Some ∅;
     matterbridgeContext := None; mattercontrollerContext := None;
     matterServer := Some {| commissioningServers := []; running := false |};
     matterAggregator := None;
     commissioningServer := None; commissioningController := None;
     matterbridgeVersion := "1.2.3"; osRelease := "6.1.0";
     instance := true;
     processListeners := true;
     reachable := ∅;
     files := {| matterbridge_json := true;
                 storage := Some {| plugins := None; devices := None |} |};
     hookCalls := [];
     emitted := [] |}.

(** A plugin that has been loaded as a platform of the given type. *)
Definition loaded_as (type : string) (p : RegisteredPlugin) : RegisteredPlugin :=
  loaded_plugin
    {| pkg_name := Plugin.name p; pkg_version := Plugin.version p;
       pkg_description := Plugin.description p; pkg_author := Plugin.author p |}
    {| Platform.name := Plugin.name p; Platform.type := type;
       Platform.version := Plugin.version p; Platform.config := "{}" |}
    "{}" p.

Definition plugin_A : RegisteredPlugin :=
  new_plugin "/plugins/a/package.json" "matterbridge-a" "1.0.0" "Plugin A" "someone".

Definition plugin_B : RegisteredPlugin :=
  new_plugin "/plugins/b/package.json" "matterbridge-b" "1.0.0" "Plugin B" "someone".

Definition package_A : PackageJson :=
  {| pkg_name := "matterbridge-a"; pkg_version := "1.0.0";
     pkg_description := "Plugin A"; pkg_author := "someone" |}.

Definition import_A (type : string) : LoadEnv :=
  {| import := ImportDefault package_A type "{}" "{}"; persist_ok := true |}.

Definition basic_1 : BasicInformation :=
  {| nodeLabel := "Switch"; vendorId := 0xfff1; vendorName := "Matterbridge";
     productId := 0x8000; productName := "Switch";
     serialNumber := Some "SN1"; uniqueId := Some "UID1";
     softwareVersion := 1; softwareVersionString := "1.0.0";
     hardwareVersion := 1; hardwareVersionString := "1.0.0" |}.

Definition device_n (n : N) : MatterbridgeDevice :=
  {| deviceId := n; deviceName := "Switch"; deviceType := 0x0103;
     basicInformation := Some basic_1; serializable := true |}.

Definition all_ok : CleanupEnv :=
  {| stopMatter_ok := true; stopStorage_ok := true; saveDevices_ok := true |}.

Definition start_env : StartEnv := {| start_ok := true; cleanup_env := all_ok |}.

Definition add_env : AddEnv :=
  {| context_random := "0011223344556677"; aggregator_random := "8899aabbccddeeff" |}.

(** The run of the scenario "plugin A loads, starts and is configured". *)
Definition ops_A : list Op :=
  [ CallLoad 0 true "Matterbridge is starting";
    ResumeLoad 0 (import_A "DynamicPlatform") HookPending;
    SettleStart 0 Fulfilled HookPending;
    CallConfigure 0 HookPending;
    SettleConfigure 0 Fulfilled ].

(** The bridge at the end of that run. *)
Definition configured_A : Matterbridge :=
  mbridge (run ops_A {| mbridge := initialized bridge [plugin_A]; pending := [] |}).

(** A childbridge bridge whose storage already holds the identity of
    plugin A from an earlier run. *)
Definition stored_identity : StorageManager :=
  ctx_set "matterbridge-a" "uniqueId" (Some (SString "CS0123456789abcdef"))
    (ctx_set "matterbridge-a" "serialNumber" (Some (SString "CS0123456789abcdef")) ∅).

Definition restarted_A : Matterbridge :=
  set_storageManager (Some stored_identity) (initialized childbridge [plugin_A]).

(** Childbridge mode with two plugins whose identities are in the
    storage. *)
Definition two_identities : Matterbridge :=
  final (createCommissioningServerContext "1111111111111111" "matterbridge-b"
           "Matterbridge" AGGREGATOR_code 0xfff1 "Matterbridge" 0x8000 "Plugin B"
           (final (createCommissioningServerContext "0000000000000000" "matterbridge-a"
                     "Matterbridge" AGGREGATOR_code 0xfff1 "Matterbridge" 0x8000
                     "Plugin A" (initialized childbridge [plugin_A; plugin_B])))).

Definition three_calls : list (StorageContext * string) :=
  [("matterbridge-a", "matterbridge-a"); ("matterbridge-c", "matterbridge-c");
   ("matterbridge-b", "matterbridge-b")]%string.

(** Childbridge mode, plugin A loaded as an accessory platform, after its
    first device has been added. *)
Definition accessory_A : Matterbridge :=
  final (addBridgedDevice add_env "matterbridge-a" (device_n 1)
           (initialized childbridge [loaded_as "AccessoryPlatform" plugin_A])).

(** Plugin A loaded as a dynamic platform, in the given mode. *)
Definition dynamic_A (mode : BridgeMode) : Matterbridge :=
  initialized mode [loaded_as "DynamicPlatform" plugin_A].

(** The same in bridge mode with the aggregator of the bridge created. *)
Definition bridge_A : Matterbridge :=
  set_matterAggregator
    (Some {| Aggregator.serialNumber := SString "AG0";
             Aggregator.uniqueId := SString "AG0";
             Aggregator.softwareVersion := SNumber 1;
             Aggregator.softwareVersionString := SString "1.2.3";
             Aggregator.hardwareVersion := SNumber 6;
             Aggregator.hardwareVersionString := SString "6.1.0";
             Aggregator.bridged := [] |})
    (dynamic_A bridge).

(** ** Conditions used in the statements *)

(** The event that [cleanup] announces at its end. *)
Definition final_event (message : string) (restart : bool) : string :=
  if restart then
    if String.eqb message "updating..." then "update" else "restart"
  else "shutdown".

(** The messages for which a [cleanup] with [restart] set has a branch. *)
Definition restart_message (message : string) : bool :=
  String.eqb message "updating..." || String.eqb message "restarting...".

(** The paths that the reset asked for by [message] deletes exist. *)
Definition reset_paths_exist (message : string) (f : Files) : bool :=
  (if String.eqb message "shutting down with reset..."
   then matterbridge_json f else true)
  && (if String.eqb message "shutting down with factory reset..."
      then matterbridge_json f && defined (storage f) else true).

(** The collaborators answer the first timeout of [cleanup] without
    rejecting. *)
Definition closes (env : CleanupEnv) (mb : Matterbridge) : bool :=
  stopMatter_ok env && stopStorage_ok env
  && (saveDevices_ok env || negb (defined (nodeStorage mb) && defined (nodeContext mb))).

(** What [addBridgedDevice] leaves alone in a plugin before it counts the
    device: the name, the type, the connection flag and the two counters. *)
Definition kept (p : RegisteredPlugin)
  : string * string * option bool * option Z * option Z :=
  (Plugin.name p, Plugin.type p, Plugin.connected p,
   Plugin.registeredDevices p, Plugin.addedDevices p).

Definition same_plugins (mb0 mb : Matterbridge) : Prop :=
  bridgeMode mb = bridgeMode mb0
  ∧ defined (matterAggregator mb) = defined (matterAggregator mb0)
  ∧ kept <$> registeredPlugins mb = kept <$> registeredPlugins mb0.

(** A method keeps a property of the bridge, however it ends. *)
Definition keeps {A} (I : Matterbridge → Prop) (m : M A) : Prop :=
  ∀ mb, I mb → I (final (m mb)).

(** [removeBridgedDevice] gets past its guards for the plugin [p]. *)
Definition removable (mode : BridgeMode) (p : RegisteredPlugin) : bool :=
  match mode with
  | bridge => true
  | childbridge => defined (Plugin.aggregator p) && truthy (Plugin.connected p)
  | _ => false
  end.

(** C5 as it is stated: for a registered plugin with both counters
    defined, adding a device and then removing it brings both counters back
    to their values before the add. *)
Definition add_then_remove_restores_counters : Prop :=
  ∀ env pluginName device mb i p r a,
    findPlugin pluginName mb = Some (i, p) →
    Plugin.registeredDevices p = Some r →
    Plugin.addedDevices p = Some a →
    counters i
      (final (removeBridgedDevice pluginName device
                (final (addBridgedDevice env pluginName device mb))))
    = Some (Some r, Some a).

(** ** The order of the lifecycle flags *)
Definition all_lifecycle_ok (mb : Matterbridge) : Prop :=
  ∀ j p, registeredPlugins mb !! j = Some p → lifecycle_ok p = true.

(** The flags [loaded] and [started] of every plugin can only have been
    raised between [mb] and [mb']. *)
Definition raised (mb mb' : Matterbridge) : Prop :=
  ∀ j p', registeredPlugins mb' !! j = Some p' →
    ∃ p, registeredPlugins mb !! j = Some p
         ∧ (truthy (Plugin.loaded p) = true → truthy (Plugin.loaded p') = true)
         ∧ (truthy (Plugin.started p) = true → truthy (Plugin.started p') = true).

(** What a pending promise relies on when it settles. *)
Definition promise_ok (mb : Matterbridge) (pr : Promise) : Prop :=
  match pr with
  | PLoad _ _ _ => True
  | PStart i _ =>
      ∀ p, registeredPlugins mb !! i = Some p → truthy (Plugin.loaded p) = true
  | PConfigure i =>
      ∀ p, registeredPlugins mb !! i = Some p →
           truthy (Plugin.loaded p) = true ∧ truthy (Plugin.started p) = true
  end.

Definition sched_ok (s : Sched) : Prop :=
  all_lifecycle_ok (mbridge s) ∧ Forall (promise_ok (mbridge s)) (pending s).

(** The error flag of the plugin at position [i]. *)
Definition error_at (i : nat) (mb : Matterbridge) : option (option bool) :=
  Plugin.error <$> registeredPlugins mb !! i.

(** C6 as it is stated: whenever [loadPlugin] fails, and a disabled plugin
    or an existing platform make it fail, [error] is set and no platform is
    returned. *)
Definition loadPlugin_fails_with_error : Prop :=
  ∀ i start message env answer mb p,
    registeredPlugins mb !! i = Some p →
    truthy (Plugin.enabled p) = false ∨ defined (Plugin.platform p) = true →
    error_at i (loadPlugin i start message env answer mb).1.1 = Some (Some true)
    ∧ (loadPlugin i start message env answer mb).1.2 = None.

(** The snapshot that a successful [loadPlugin] saves. *)
Definition loaded_registry (i : nat) (pkg : PackageJson) (pf : MatterbridgePlatform)
    (config : PlatformConfig) (schema : PlatformSchema) (mb : Matterbridge)
  : list RegisteredPlugin :=
  alter (λ p, Plugin.set_schemaJson (Some schema) (loaded_plugin pkg pf config p)) i
    (registeredPlugins mb).

(** C3 as it is stated: in both modes a poll that finds an enabled plugin
    in error clears the interval and does not call [startMatterServer]. *)
Definition poll_with_error_clears_interval : Prop :=
  ∀ env iv mb,
    cleared iv = false →
    bridgeMode mb = bridge ∨ bridgeMode mb = childbridge →
    existsb in_error (registeredPlugins mb) = true →
    cleared (startMatterInterval env iv mb).1.2 = true
    ∧ calls_startMatterServer (startMatterInterval env iv mb).1.1 = false.

(** What one call of [createCommisioningServer] does to the three
    counters: it throws and changes nothing, or it returns a server with the
    current port, passcode and discriminator and steps the three. *)
Definition stepped (mb : Matterbridge) : Matterbridge :=
  set_discriminator (incr (discriminator mb))
    (set_passcode (incr (passcode mb)) (set_port (port mb + 1) mb)).

(** The eight keys that [createCommisioningServer] reads without a
    default. *)
Definition identity_keys : list string :=
  ["deviceName"; "deviceType"; "vendorId"; "vendorName"; "productId"; "productName";
   "serialNumber"; "uniqueId"]%string.

Definition has_identity (context : StorageContext) (mb : Matterbridge) : bool :=
  match storageManager mb with
  | None => false
  | Some sm => forallb (λ key, defined (ctx_get context key sm)) identity_keys
  end.

(** C1 as it is stated: in childbridge mode a further [addBridgedDevice]
    for an accessory platform that is locked fails and leaves the device
    registry and the two counters of the plugin as they were. *)
Definition second_accessory_device_is_refused : Prop :=
  ∀ env pluginName device mb i p,
    bridgeMode mb = childbridge →
    findPlugin pluginName mb = Some (i, p) →
    Plugin.type p = "AccessoryPlatform"%string →
    Plugin.locked p = Some true →
    (∀ mb', addBridgedDevice env pluginName device mb ≠ Returned tt mb')
    ∧ registeredDevices (final (addBridgedDevice env pluginName device mb))
      = registeredDevices mb
    ∧ counters i (final (addBridgedDevice env pluginName device mb)) = counters i mb.

(** C8 as it is stated: whatever the message and the restart flag, a
    [cleanup] that passes its guard and is not failed by a collaborator ends
    with exactly one of the three events emitted and the instance handle
    cleared. *)
Definition cleanup_always_announces : Prop :=
  ∀ message restart mb,
    hasCleanupStarted mb = false →
    (∃ event, event ∈ ["update"; "restart"; "shutdown"]%string
              ∧ emitted (final (cleanup all_ok message restart mb))
                = emitted mb ++ [event])
    ∧ instance (final (cleanup all_ok message restart mb)) = false.

(** ** Further operations of the bridge *)

(** The loop of [removeAllBridgedDevices] over the devices it has
    collected. The calls of [removeBridgedDevice] are not awaited, and the
    loop goes on however a call ends. *)
Fixpoint remove_each (pluginName : string) (ds : list RegisteredDevice)
    (mb : Matterbridge) : Matterbridge :=
  match ds with
  | [] => mb
  | rd :: ds' =>
      remove_each pluginName ds'
        (final (removeBridgedDevice pluginName (device rd) mb))
  end.

(** The devices registered for a plugin, in registry order. *)
Definition devices_of (pluginName : string) (rds : list RegisteredDevice)
  : list RegisteredDevice :=
  filter (λ rd, plugin rd = pluginName) rds.

(** [removeAllBridgedDevices(pluginName)] *)
Definition removeAllBridgedDevices (pluginName : string) : M unit :=
  λ mb,
    if BridgeMode_eqb (bridgeMode mb) childbridge
       && match findPlugin pluginName mb with
          | Some (_, p) => String.eqb (Plugin.type p) "AccessoryPlatform"
          | None => false
          end
    then Returned tt mb
    else Returned tt
           (remove_each pluginName (devices_of pluginName (registeredDevices mb)) mb).

(** The wrappers of [cleanup]. *)
Definition updateProcess (env : CleanupEnv) : M unit :=
  cleanup env "updating..." false.

Definition restartProcess (env : CleanupEnv) : M unit :=
  cleanup env "restarting..." true.

Definition shutdownProcess (env : CleanupEnv) : M unit :=
  cleanup env "shutting down..." false.

Definition shutdownProcessAndReset (env : CleanupEnv) : M unit :=
  cleanup env "shutting down with reset..." false.

Definition shutdownProcessAndFactoryReset (env : CleanupEnv) : M unit :=
  cleanup env "shutting down with factory reset..." false.

(** [destroyInstance()] *)
Definition destroyInstance (env : CleanupEnv) : M unit := shutdownProcess env.

(** The loop of [unregisterAndShutdownProcess] over the names of the
    plugins that were enabled and without error when it started. *)
Fixpoint unregister_plugins (names : list string) : M unit :=
  match names with
  | [] => ret tt
  | n :: names' => (removeAllBridgedDevices n ;ᴶ unregister_plugins names')%js
  end.

Definition running_plugin (p : RegisteredPlugin) : bool :=
  truthy (Plugin.enabled p) && negb (truthy (Plugin.error p)).

Definition unregisterAndShutdownProcess (env : CleanupEnv) : M unit :=
  (mb ←ᴶ get_state ;
   unregister_plugins
     (Plugin.name <$> filter (λ p, running_plugin p = true) (registeredPlugins mb)) ;ᴶ
   cleanup env "unregistered all devices and shutting down..." false)%js.

(** The interval of [startMatterbridge] firing [n] times with nothing else
    happening in between; the result lists what each run of the callback
    did, oldest first. *)
Fixpoint polls (n : nat) (env : StartEnv) (iv : Interval) (mb : Matterbridge)
  : list Poll * Interval * Matterbridge :=
  match n with
  | O => ([], iv, mb)
  | S n' =>
      let '(p, iv', mb') := startMatterInterval env iv mb in
      let '(ps, iv'', mb'') := polls n' env iv' mb' in
      (p :: ps, iv'', mb'')
  end.

(** ** More conditions used in the statements *)

(** No flag among [error], [loaded], [started] and [configured] that is
    true in [p] is anything else in [p']. *)
Definition risen (p p' : RegisteredPlugin) : Prop :=
  (Plugin.error p = Some true → Plugin.error p' = Some true)
  ∧ (Plugin.loaded p = Some true → Plugin.loaded p' = Some true)
  ∧ (Plugin.started p = Some true → Plugin.started p' = Some true)
  ∧ (Plugin.configured p = Some true → Plugin.configured p' = Some true).

(** The plugins whose shutdown hook [cleanup] calls. *)
Definition shuts_down (p : RegisteredPlugin) : bool :=
  running_plugin p && defined (Plugin.platform p).

(** None of the devices occurs twice in a row. *)
Fixpoint no_repeat (d : DeviceId) (rds : list RegisteredDevice) : bool :=
  match rds with
  | rd1 :: ((rd2 :: _) as rest) =>
      negb (N.eqb (deviceId (device rd1)) d && N.eqb (deviceId (device rd2)) d)
      && no_repeat d rest
  | _ => true
  end.

Definition holds (d : DeviceId) (rd : RegisteredDevice) : bool :=
  N.eqb (deviceId (device rd)) d.

(** The calls of shutdown hooks that [cleanup(message)] makes. *)
Definition shutdown_calls (message : string) (ps : list RegisteredPlugin)
  : list HookCall :=
  (λ p, OnShutdown (Plugin.name p) (shutdown_message message))
    <$> filter (λ p, shuts_down p = true) ps.

(** The node storage is open. *)
Definition node_open (mb : Matterbridge) : bool :=
  defined (nodeStorage mb) && defined (nodeContext mb).

(** What the node storage holds once [cleanup] has saved the devices. *)
Definition saved_devices (mb : Matterbridge) : NodeStorage :=
  {| plugins := plugins (node_storage (files mb));
     devices := Some (serializeRegisteredDevices mb) |}.

(** The files after the deletions that [message] asks for. *)
Definition after_reset (message : string) (f : Files) : Files :=
  if String.eqb message "shutting down with factory reset..."
  then {| matterbridge_json := false; storage := None |}
  else if String.eqb message "shutting down with reset..."
  then {| matterbridge_json := false; storage := storage f |}
  else f.

(** The files once [cleanup] has saved the devices, if the node storage is
    open. *)
Definition after_save (mb : Matterbridge) : Files :=
  if node_open mb
  then {| matterbridge_json := matterbridge_json (files mb);
          storage := Some (saved_devices mb) |}
  else files mb.

Definition failing_engine : CleanupEnv :=
  {| stopMatter_ok := false; stopStorage_ok := true; saveDevices_ok := true |}.

(** A bridge on which [createMatterServer] was never called. *)
Definition without_matter_server (mb : Matterbridge) : Matterbridge :=
  set_matterServer None mb.

(** [p'] is [p], or [p] with the error flag set. *)
Definition same_or_in_error (p p' : RegisteredPlugin) : Prop :=
  p' = p ∨ p' = Plugin.set_error (Some true) p.

Definition fresh_interval : Interval := {| failCount := 0; cleared := false |}.

(** The device object that an entry of the registry holds. *)
Definition device_of (rd : RegisteredDevice) : DeviceId := deviceId (device rd).

(** Bridge mode with plugin A loaded, after the same device has been added
    twice. *)
Definition added_twice : Matterbridge :=
  final (addBridgedDevice add_env "matterbridge-a" (device_n 1)
           (final (addBridgedDevice add_env "matterbridge-a" (device_n 1) bridge_A))).

(** Bridge mode with the plugins A and B loaded, after A has added the
    devices 1 and 3 and B the device 2. *)
Definition bridge_AB : Matterbridge :=
  set_registeredPlugins
    [loaded_as "DynamicPlatform" plugin_A; loaded_as "DynamicPlatform" plugin_B]
    bridge_A.

Definition three_devices : Matterbridge :=
  final (addBridgedDevice add_env "matterbridge-a" (device_n 3)
    (final (addBridgedDevice add_env "matterbridge-b" (device_n 2)
      (final (addBridgedDevice add_env "matterbridge-a" (device_n 1) bridge_AB))))).

(** The reachability of the devices after [ds] have been set unreachable
    one after the other. *)
Definition all_unreachable (ds : list RegisteredDevice) (r : gmap DeviceId bool)
  : gmap DeviceId bool :=
  foldl (λ r rd, <[device_of rd := false]> r) r ds.

(** An optional counter after [k] decrements. *)
Definition lowered (k : nat) (x : option Z) : option Z :=
  (λ n, n - Z.of_nat k) <$> x.

(** ** The registry of plugins on disk and the command line *)

(** An object read back from the node storage, taken as a
    [RegisteredPlugin]: what [getBaseRegisteredPlugins] does not save is
    undefined. *)
Definition stored_plugin (b : BaseRegisteredPlugin) : RegisteredPlugin :=
  {| Plugin.path := Base.path b; Plugin.type := Base.type b;
     Plugin.name := Base.name b; Plugin.version := Base.version b;
     Plugin.description := Base.description b; Plugin.author := Base.author b;
     Plugin.locked := Base.locked b; Plugin.error := Base.error b;
     Plugin.enabled := Base.enabled b; Plugin.loaded := Base.loaded b;
     Plugin.started := Base.started b; Plugin.configured := Base.configured b;
     Plugin.paired := Base.paired b; Plugin.connected := Base.connected b;
     Plugin.registeredDevices := Base.registeredDevices b;
     Plugin.addedDevices := Base.addedDevices b;
     Plugin.configJson := Base.configJson b; Plugin.schemaJson := Base.schemaJson b;
     Plugin.storageContext := None; Plugin.commissioningServer := None;
     Plugin.aggregator := None; Plugin.device := None; Plugin.platform := None |}.

(** [await this.nodeContext?.set('plugins', await this.getBaseRegisteredPlugins())];
    [ok] tells whether the write succeeds. When it rejects nothing is
    written. *)
Definition save_registry (ok : bool) : M unit :=
  λ mb, if defined (nodeContext mb) && negb ok then Threw mb
        else Returned tt (persist_plugins (getBaseRegisteredPlugins mb) mb).

(** [loadPluginsFromStorage()] *)
Definition loadPluginsFromStorage : M unit :=
  λ mb, match nodeContext mb with
        | None => Returned tt mb
        | Some _ =>
            Returned tt
              (set_registeredPlugins
                 (stored_plugin <$> default [] (plugins (node_storage (files mb)))) mb)
        end.

(** [loadPlugin(plugin)] on a plugin object that is not in the registry,
    as [executeCommandLine] calls it: without start. The result is the
    object after the call, what the call returns, and the bridge. *)
Definition loadPlugin_new (env : LoadEnv) (p : RegisteredPlugin) (mb : Matterbridge)
  : RegisteredPlugin * option MatterbridgePlatform * Matterbridge :=
  match loadPlugin_guard p with
  | Some r => (p, r, mb)
  | None =>
      match import env with
      | ImportThrows | ImportNoDefault _ => (Plugin.set_error (Some true) p, None, mb)
      | ImportDefault pkg platformType config schema =>
          let pf := {| Platform.name := pkg_name pkg; Platform.type := platformType;
                       Platform.version := pkg_version pkg;
                       Platform.config := config |} in
          let p := Plugin.set_schemaJson (Some schema) (loaded_plugin pkg pf config p) in
          if defined (nodeContext mb) && negb (persist_ok env)
          then (Plugin.set_error (Some true) p, None, mb)
          else (p, Some pf, persist_plugins (getBaseRegisteredPlugins mb) mb)
      end
  end.

(** What a run of [executeCommandLine] meets outside the bridge: the
    [package.json] it parses, if reading and parsing succeed; what
    [loadPlugin] meets; and whether the write of the registry succeeds. *)
Record CommandEnv := {
  package : option PackageJson;
  load : LoadEnv;
  save_ok : bool
}.

(** [plugin.loaded = undefined; plugin.started = undefined;
     plugin.configured = undefined; plugin.connected = undefined] *)
Definition forget_lifecycle (p : RegisteredPlugin) : RegisteredPlugin :=
  Plugin.set_connected None
    (Plugin.set_configured None (Plugin.set_started None (Plugin.set_loaded None p))).

(** [context?.clearAll()] on the context of the plugin. *)
Definition clearAll (context : StorageContext) (mb : Matterbridge) : Matterbridge :=
  set_storageManager (delete context <$> storageManager mb) mb.

(** [executeCommandLine(packageJsonPath, mode)], with the path already
    resolved. Whatever is thrown inside is caught and logged, so the method
    always returns; the result is the bridge after it. *)
Definition executeCommandLine (env : CommandEnv) (packageJsonPath mode : string)
    (mb : Matterbridge) : Matterbridge :=
  match package env with
  | None => mb
  | Some packageJson =>
      let found := findPlugin (pkg_name packageJson) mb in
      if String.eqb mode "add" then
        match found with
        | Some _ => mb
        | None =>
            let plugin :=
              new_plugin packageJsonPath (pkg_name packageJson)
                (pkg_version packageJson) (pkg_description packageJson)
                (pkg_author packageJson) in
            let '(plugin, platform, mb) := loadPlugin_new (load env) plugin mb in
            match platform with
            | Some _ =>
                final (save_registry (save_ok env)
                         (set_registeredPlugins (registeredPlugins mb ++ [plugin]) mb))
            | None => mb
            end
        end
      else if String.eqb mode "remove" then
        match found with
        | Some (i, _) =>
            final (save_registry (save_ok env)
                     (set_registeredPlugins (delete i (registeredPlugins mb)) mb))
        | None => mb
        end
      else if String.eqb mode "enable" then
        match found with
        | Some (i, _) =>
            final (save_registry (save_ok env)
                     (update_plugin i
                        (λ p, forget_lifecycle (Plugin.set_enabled (Some true) p)) mb))
        | None => mb
        end
      else if String.eqb mode "disable" then
        match found with
        | Some (i, _) =>
            final (save_registry (save_ok env)
                     (update_plugin i
                        (λ p, forget_lifecycle (Plugin.set_enabled (Some false) p)) mb))
        | None => mb
        end
      else if String.eqb mode "reset" then
        match found with
        | Some (i, plugin) =>
            final (save_registry (save_ok env)
                     (clearAll (Plugin.name plugin)
                        (update_plugin i
                           (λ p, Plugin.set_paired None (forget_lifecycle p)) mb)))
        | None => mb
        end
      else mb
  end.

(** The two reads of [package.json] that mode [add] makes, the one of
    [executeCommandLine] and the one of [loadPlugin], give the same name. *)
Definition same_package_name (env : CommandEnv) : Prop :=
  match package env, import (load env) with
  | Some packageJson, ImportDefault pkg _ _ _ => pkg_name pkg = pkg_name packageJson
  | _, _ => True
  end.

Definition command_env_A : CommandEnv :=
  {| package := Some package_A; load := import_A "DynamicPlatform"; save_ok := true |}.

(** ** The frontend's command [disableplugin] *)

(** What a run of the handler meets outside the bridge: whether the
    promise of the plugin's [onShutdown] is fulfilled, and whether the write
    of the saved plugins succeeds. *)
Record DisableEnv := {
  onShutdown_ok : bool;
  disable_save_ok : bool
}.

(** The ten assignments on the plugin object:
    [enabled = false; locked = undefined; error = undefined;
     loaded = undefined; started = undefined; configured = undefined;
     connected = undefined; platform = undefined;
     registeredDevices = undefined; addedDevices = undefined]. *)
Definition disabled (p : RegisteredPlugin) : RegisteredPlugin :=
  Plugin.set_addedDevices None
    (Plugin.set_registeredDevices None
       (Plugin.set_platform None
          (Plugin.set_connected None
             (Plugin.set_configured None
                (Plugin.set_started None
                   (Plugin.set_loaded None
                      (Plugin.set_error None
                         (Plugin.set_locked None
                            (Plugin.set_enabled (Some false) p))))))))).

(** The same assignments on the object read from the node storage, which
    has no platform. *)
Definition disabled_stored (b : BaseRegisteredPlugin) : BaseRegisteredPlugin :=
  {| Base.path := Base.path b; Base.type := Base.type b; Base.name := Base.name b;
     Base.version := Base.version b; Base.description := Base.description b;
     Base.author := Base.author b;
     Base.locked := None; Base.error := None; Base.enabled := Some false;
     Base.loaded := None; Base.started := None; Base.configured := None;
     Base.paired := Base.paired b; Base.connected := None;
     Base.registeredDevices := None; Base.addedDevices := None;
     Base.configJson := Base.configJson b; Base.schemaJson := Base.schemaJson b |}.

(** [plugins.find((plugin) => plugin.name === param)] on the saved
    plugins, as a position. *)
Fixpoint findStored (param : string) (bs : list BaseRegisteredPlugin) : option nat :=
  match bs with
  | [] => None
  | b :: bs' =>
      if String.eqb (Base.name b) param then Some 0%nat
      else S <$> findStored param bs'
  end.

(** The branch [command === 'disableplugin'] of the handler of
    [/api/command/:command/:param], run to its end. A promise that rejects
    ends the handler there. *)
Definition disableplugin (env : DisableEnv) (param : string) : M unit :=
  (mb ←ᴶ get_state ;
   match findPlugin param mb with
   | None => ret tt
   | Some (i, pluginToDisable) =>
       when (defined (Plugin.platform pluginToDisable))
         (modify (call_hook (OnShutdown (Plugin.name pluginToDisable)
                               "The plugin has been disabled.")) ;ᴶ
          if onShutdown_ok env then ret tt else throw) ;ᴶ
       removeAllBridgedDevices (Plugin.name pluginToDisable) ;ᴶ
       modify (update_plugin i disabled) ;ᴶ
       mb ←ᴶ get_state ;
       match nodeContext mb, plugins (node_storage (files mb)) with
       | Some _, Some stored =>
           match findStored param stored with
           | Some k =>
               if disable_save_ok env
               then modify (set_files
                              {| matterbridge_json := matterbridge_json (files mb);
                                 storage :=
                                   Some {| plugins :=
                                             Some (alter disabled_stored k stored);
                                           devices :=
                                             devices (node_storage (files mb)) |} |})
               else throw
           | None => ret tt
           end
       | _, _ => ret tt
       end
   end)%js.

(** *** The orchestrator next to the frontend

    What can happen to the registry between two turns of the event loop: a
    step of the orchestrator, or a run of [disableplugin]. The run of
    [disableplugin] is one step: the promises it awaits ([onShutdown], the
    removal of the devices, the node storage) settle before another callback
    runs. The promises of the orchestrator stay pending across it. *)
Inductive Event : Type :=
| Orchestrator (op : Op)
| DisablePlugin (env : DisableEnv) (param : string).

Definition step_event (e : Event) (s : Sched) : Sched :=
  match e with
  | Orchestrator op => step op s
  | DisablePlugin env param =>
      {| mbridge := final (disableplugin env param (mbridge s));
         pending := pending s |}
  end.

Definition run_events (events : list Event) (s : Sched) : Sched :=
  foldl (λ s e, step_event e s) s events.

(** The promise is one of [onStart] or [onConfigure] of the plugin at
    position [i]. *)
Definition awaits_hook (i : nat) (pr : Promise) : bool :=
  match pr with
  | PStart k _ | PConfigure k => Nat.eqb k i
  | PLoad _ _ _ => false
  end.

(** No promise of [onStart] or [onConfigure] of the plugin named [param]
    is pending. *)
Definition quiet (param : string) (s : Sched) : bool :=
  match findPlugin param (mbridge s) with
  | Some (i, _) => negb (existsb (awaits_hook i) (pending s))
  | None => true
  end.

(** Every [disableplugin] of the run comes when the plugin it names is
    quiet. *)
Fixpoint undisturbed (events : list Event) (s : Sched) : bool :=
  match events with
  | [] => true
  | e :: events' =>
      match e with
      | Orchestrator _ => true
      | DisablePlugin _ param => quiet param s
      end
      && undisturbed events' (step_event e s)
  end.

(** The three lifecycle flags of a plugin. *)
Definition lifecycle_flags (p : RegisteredPlugin)
  : option bool * option bool * option bool :=
  (Plugin.loaded p, Plugin.started p, Plugin.configured p).

(** C2 as it is stated: after every operation of the orchestrator, whatever
    has happened before, the flags of every plugin are ordered. *)
Definition lifecycle_flags_always_ordered : Prop :=
  ∀ events op mb j p,
    forallb lifecycle_ok (registeredPlugins mb) = true →
    registeredPlugins
      (mbridge (run_events (events ++ [Orchestrator op])
                  {| mbridge := mb; pending := [] |})) !! j = Some p →
    (Plugin.configured p = Some true → Plugin.started p = Some true)
    ∧ (Plugin.started p = Some true → Plugin.loaded p = Some true).

Definition disable_env : DisableEnv :=
  {| onShutdown_ok := true; disable_save_ok := true |}.

(** Plugin A is disabled from the frontend while its [onStart] is
    pending. *)
Definition disabled_while_starting : list Event :=
  [ Orchestrator (CallLoad 0 true "Matterbridge is starting");
    Orchestrator (ResumeLoad 0 (import_A "DynamicPlatform") HookPending);
    DisablePlugin disable_env "matterbridge-a" ].

(** Plugin A is disabled from the frontend after it has been configured. *)
Definition disabled_when_configured : list Event :=
  (Orchestrator <$> ops_A) ++ [DisablePlugin disable_env "matterbridge-a"].

(** * Properties *)

(** ** Registry lemmas *)

Lemma plugins_update_plugin i f mb :
  registeredPlugins (update_plugin i f mb) = alter f i (registeredPlugins mb).
Proof. reflexivity. Qed.

Lemma lookup_update_plugin i f mb :
  registeredPlugins (update_plugin i f mb) !! i = f <$> registeredPlugins mb !! i.
Proof. rewrite plugins_update_plugin. apply list_lookup_alter_eq. Qed.

Lemma lookup_update_plugin_ne i j f mb :
  i ≠ j →
  registeredPlugins (update_plugin i f mb) !! j = registeredPlugins mb !! j.
Proof. intros. rewrite plugins_update_plugin. by apply list_lookup_alter_ne. Qed.

Lemma plugins_call_hook c mb :
  registeredPlugins (call_hook c mb) = registeredPlugins mb.
Proof. reflexivity. Qed.

Lemma plugins_persist_plugins v mb :
  registeredPlugins (persist_plugins v mb) = registeredPlugins mb.
Proof. unfold persist_plugins. by destruct (nodeContext mb). Qed.





Lemma raised_refl mb : raised mb mb.
Proof. intros j p Hp. eauto. Qed.

Lemma raised_trans mb1 mb2 mb3 : raised mb1 mb2 → raised mb2 mb3 → raised mb1 mb3.
Proof.
  intros H12 H23 j p3 Hp3.
  destruct (H23 j p3 Hp3) as (p2 & Hp2 & Hl2 & Hs2).
  destruct (H12 j p2 Hp2) as (p1 & Hp1 & Hl1 & Hs1).
  exists p1. split_and!; auto.
Qed.

Lemma raised_same mb mb' :
  registeredPlugins mb' = registeredPlugins mb → raised mb mb'.
Proof. intros E j p Hp. rewrite E in Hp. eauto. Qed.

Lemma raised_update i f mb :
  (∀ p, registeredPlugins mb !! i = Some p →
        (truthy (Plugin.loaded p) = true → truthy (Plugin.loaded (f p)) = true)
        ∧ (truthy (Plugin.started p) = true → truthy (Plugin.started (f p)) = true)) →
  raised mb (update_plugin i f mb).
Proof.
  intros Hf j p' Hp'. destruct (decide (i = j)) as [->|Hne].
  - rewrite lookup_update_plugin in Hp'.
    destruct (registeredPlugins mb !! j) as [p|] eqn:E; simplify_eq/=.
    exists p. destruct (Hf p eq_refl). auto.
  - rewrite lookup_update_plugin_ne in Hp' by done. eauto.
Qed.

Lemma promise_ok_raised mb mb' pr :
  raised mb mb' → promise_ok mb pr → promise_ok mb' pr.
Proof.
  intros Hr. destruct pr as [| i c | i]; simpl; [done | |].
  - intros H p' Hp'. destruct (Hr _ _ Hp') as (p & Hp & Hl & _). eauto.
  - intros H p' Hp'. destruct (Hr _ _ Hp') as (p & Hp & Hl & Hs).
    destruct (H p Hp). auto.
Qed.

Lemma pending_ok_raised mb mb' ps :
  raised mb mb' → Forall (promise_ok mb) ps → Forall (promise_ok mb') ps.
Proof.
  intros Hr Hps. eapply Forall_impl; [exact Hps|].
  intros pr. by apply promise_ok_raised.
Qed.

Lemma all_ok_update i f mb :
  all_lifecycle_ok mb →
  (∀ p, registeredPlugins mb !! i = Some p → lifecycle_ok p = true →
        lifecycle_ok (f p) = true) →
  all_lifecycle_ok (update_plugin i f mb).
Proof.
  intros Hall Hf j p' Hp'. destruct (decide (i = j)) as [->|Hne].
  - rewrite lookup_update_plugin in Hp'.
    destruct (registeredPlugins mb !! j) as [p|] eqn:E; simplify_eq/=. eauto.
  - rewrite lookup_update_plugin_ne in Hp' by done. eauto.
Qed.

Lemma all_ok_same mb mb' :
  registeredPlugins mb' = registeredPlugins mb →
  all_lifecycle_ok mb → all_lifecycle_ok mb'.
Proof. intros E H j p. rewrite E. apply H. Qed.

(** Setting [error] touches no lifecycle flag. *)
Lemma set_error_ok v mb i :
  all_lifecycle_ok mb → all_lifecycle_ok (update_plugin i (Plugin.set_error v) mb).
Proof. intros H. apply all_ok_update; auto. Qed.

Lemma set_error_raised v mb i : raised mb (update_plugin i (Plugin.set_error v) mb).
Proof. apply raised_update. auto. Qed.

Lemma lifecycle_ok_started p :
  lifecycle_ok p = true → truthy (Plugin.loaded p) = true →
  lifecycle_ok (Plugin.set_started (Some true) p) = true.
Proof.
  unfold lifecycle_ok. simpl. intros _ ->.
  by destruct (truthy (Plugin.configured p)).
Qed.

Lemma lifecycle_ok_configured p :
  lifecycle_ok p = true → truthy (Plugin.started p) = true →
  lifecycle_ok (Plugin.set_configured (Some true) p) = true.
Proof.
  unfold lifecycle_ok. simpl. intros H Hs.
  apply andb_true_iff in H as [_ H]. rewrite Hs in *. done.
Qed.

Lemma lifecycle_ok_loaded pkg pf config p :
  lifecycle_ok p = true → lifecycle_ok (loaded_plugin pkg pf config p) = true.
Proof.
  unfold lifecycle_ok. simpl. intros H.
  apply andb_true_iff in H as [-> _]. by destruct (truthy (Plugin.started p)).
Qed.

(** [configurePlugin] keeps the order, and what it leaves pending is
    well-founded. *)
Lemma configurePlugin_ok i answer mb :
  all_lifecycle_ok mb →
  all_lifecycle_ok (configurePlugin i answer mb).1
  ∧ raised mb (configurePlugin i answer mb).1
  ∧ Forall (promise_ok (configurePlugin i answer mb).1) (configurePlugin i answer mb).2.
Proof.
  intros Hall. unfold configurePlugin.
  destruct (registeredPlugins mb !! i) as [p|] eqn:Hp; simpl;
    [|split_and!; [done | apply raised_refl | constructor]].
  destruct (truthy (Plugin.loaded p)) eqn:Hl; simpl;
    [|split_and!; [done | apply raised_refl | constructor]].
  destruct (truthy (Plugin.started p)) eqn:Hs; simpl;
    [|split_and!; [done | apply raised_refl | constructor]].
  destruct (defined (Plugin.platform p)); simpl;
    [|split_and!; [done | apply raised_refl | constructor]].
  destruct (truthy (Plugin.configured p)); simpl;
    [split_and!; [done | apply raised_refl | constructor]|].
  destruct answer; simpl.
  - split_and!; [| |constructor].
    + apply set_error_ok. by eapply all_ok_same.
    + eapply raised_trans; [|apply set_error_raised]. by apply raised_same.
  - split_and!; [by eapply all_ok_same | by apply raised_same |].
    constructor; [|constructor]. simpl. intros p'. rewrite Hp. by intros [= <-].
Qed.

Lemma startPlugin_ok i message configure answer mb :
  all_lifecycle_ok mb →
  all_lifecycle_ok (startPlugin i message configure answer mb).1
  ∧ raised mb (startPlugin i message configure answer mb).1
  ∧ Forall (promise_ok (startPlugin i message configure answer mb).1)
      (startPlugin i message configure answer mb).2.
Proof.
  intros Hall. unfold startPlugin.
  destruct (registeredPlugins mb !! i) as [p|] eqn:Hp; simpl;
    [|split_and!; [done | apply raised_refl | constructor]].
  destruct (truthy (Plugin.loaded p)) eqn:Hl; simpl;
    [|split_and!; [done | apply raised_refl | constructor]].
  destruct (defined (Plugin.platform p)); simpl;
    [|split_and!; [done | apply raised_refl | constructor]].
  destruct (truthy (Plugin.started p)); simpl;
    [split_and!; [done | apply raised_refl | constructor]|].
  destruct answer; simpl.
  - split_and!; [| |constructor].
    + apply set_error_ok. by eapply all_ok_same.
    + eapply raised_trans; [|apply set_error_raised]. by apply raised_same.
  - split_and!; [by eapply all_ok_same | by apply raised_same |].
    constructor; [|constructor]. simpl. intros p'. rewrite Hp. by intros [= <-].
Qed.

Lemma startPlugin_settled_ok i configure st answer mb :
  all_lifecycle_ok mb → promise_ok mb (PStart i configure) →
  all_lifecycle_ok (startPlugin_settled i configure st answer mb).1
  ∧ raised mb (startPlugin_settled i configure st answer mb).1
  ∧ Forall (promise_ok (startPlugin_settled i configure st answer mb).1)
      (startPlugin_settled i configure st answer mb).2.
Proof.
  intros Hall Hpr. unfold startPlugin_settled. destruct st.
  - assert (all_lifecycle_ok (update_plugin i (Plugin.set_started (Some true)) mb)) as H1.
    { apply all_ok_update; [done|]. intros p Hp Hok.
      apply lifecycle_ok_started; [done|]. by apply Hpr. }
    assert (raised mb (update_plugin i (Plugin.set_started (Some true)) mb)) as H2.
    { apply raised_update. auto. }
    destruct configure; [|split_and!; [done | done | constructor]].
    destruct (configurePlugin_ok i answer _ H1) as (? & ? & ?).
    split_and!; [done | by eapply raised_trans | done].
  - simpl. split_and!; [by apply set_error_ok | apply set_error_raised | constructor].
Qed.

Lemma configurePlugin_settled_ok i st mb :
  all_lifecycle_ok mb → promise_ok mb (PConfigure i) →
  all_lifecycle_ok (configurePlugin_settled i st mb)
  ∧ raised mb (configurePlugin_settled i st mb).
Proof.
  intros Hall Hpr. unfold configurePlugin_settled. destruct st.
  - split.
    + apply all_ok_update; [done|]. intros p Hp Hok.
      apply lifecycle_ok_configured; [done|]. by apply Hpr.
    + apply raised_update. auto.
  - split; [by apply set_error_ok | apply set_error_raised].
Qed.

Lemma loadPlugin_body_ok i start message env answer mb :
  all_lifecycle_ok mb →
  all_lifecycle_ok (loadPlugin_body i start message env answer mb).1.1
  ∧ raised mb (loadPlugin_body i start message env answer mb).1.1
  ∧ Forall (promise_ok (loadPlugin_body i start message env answer mb).1.1)
      (loadPlugin_body i start message env answer mb).2.
Proof.
  intros Hall. unfold loadPlugin_body.
  destruct (import env) as [|pkg|pkg ty config schema]; simpl;
    try (split_and!; [by apply set_error_ok | apply set_error_raised | constructor]).
  set (pf := Platform.Build _ _ _ _).
  set (mb1 := update_plugin i (Plugin.set_schemaJson (Some schema))
                (update_plugin i (loaded_plugin pkg pf config) mb)).
  assert (all_lifecycle_ok mb1) as H1.
  { apply all_ok_update; [|auto]. apply all_ok_update; [done|].
    intros p _. apply lifecycle_ok_loaded. }
  assert (raised mb mb1) as H2.
  { eapply raised_trans; apply raised_update; auto. }
  destruct (defined (nodeContext _) && negb (persist_ok env)); simpl.
  { split_and!; [by apply set_error_ok | | constructor].
    eapply raised_trans; [done | apply set_error_raised]. }
  set (mb2 := persist_plugins _ mb1).
  assert (all_lifecycle_ok mb2) as H3.
  { eapply all_ok_same; [apply plugins_persist_plugins | done]. }
  assert (raised mb mb2) as H4.
  { eapply raised_trans; [done|]. apply raised_same, plugins_persist_plugins. }
  destruct start; simpl; [|split_and!; [done | done | constructor]].
  destruct (startPlugin_ok i (Some message) false answer mb2 H3) as (? & ? & ?).
  destruct (startPlugin i (Some message) false answer mb2) as [mb3 ps]; simpl in *.
  split_and!; [done | by eapply raised_trans | done].
Qed.

(** Every step of the scheduler keeps the scheduler well-formed. *)
Lemma step_ok op s : sched_ok s → sched_ok (step op s).
Proof.
  intros [Hall Hpend]. destruct op as [i start m | i m c a | i a | k env a | k st a | k st];
    simpl.
  - destruct (registeredPlugins (mbridge s) !! i) as [p|]; [|done].
    destruct (loadPlugin_guard p); [done|].
    split; [done|]. simpl. apply Forall_app. split; [done|]. by repeat constructor.
  - destruct (startPlugin_ok i m c a _ Hall) as (H1 & H2 & H3).
    destruct (startPlugin i m c a (mbridge s)) as [mb ps]; simpl in *.
    split; [done|]. simpl. apply Forall_app. split; [|done].
    by eapply pending_ok_raised.
  - destruct (configurePlugin_ok i a _ Hall) as (H1 & H2 & H3).
    destruct (configurePlugin i a (mbridge s)) as [mb ps]; simpl in *.
    split; [done|]. simpl. apply Forall_app. split; [|done].
    by eapply pending_ok_raised.
  - destruct (pending s !! k) as [[i start m| |]|] eqn:Hk; try done.
    destruct (loadPlugin_body_ok i start m env a _ Hall) as (H1 & H2 & H3).
    destruct (loadPlugin_body i start m env a (mbridge s)) as [[mb r] ps]; simpl in *.
    split; [done|]. simpl. apply Forall_app. split; [|done].
    eapply pending_ok_raised; [done|]. by apply Forall_delete.
  - destruct (pending s !! k) as [[|i c|]|] eqn:Hk; try done.
    assert (promise_ok (mbridge s) (PStart i c)) as Hpr.
    { eapply Forall_lookup_1 in Hpend; eauto. }
    destruct (startPlugin_settled_ok i c st a _ Hall Hpr) as (H1 & H2 & H3).
    destruct (startPlugin_settled i c st a (mbridge s)) as [mb ps]; simpl in *.
    split; [done|]. simpl. apply Forall_app. split; [|done].
    eapply pending_ok_raised; [done|]. by apply Forall_delete.
  - destruct (pending s !! k) as [[| |i]|] eqn:Hk; try done.
    assert (promise_ok (mbridge s) (PConfigure i)) as Hpr.
    { eapply Forall_lookup_1 in Hpend; eauto. }
    destruct (configurePlugin_settled_ok i st _ Hall Hpr) as (H1 & H2).
    split; [done|]. simpl.
    eapply pending_ok_raised; [done|]. by apply Forall_delete.
Qed.

Lemma run_ok ops : ∀ s, sched_ok s → sched_ok (run ops s).
Proof.
  induction ops as [|op ops IH]; intros s Hs; [done|].
  simpl. apply IH. by apply step_ok.
Qed.

Lemma truthy_true b : truthy b = true ↔ b = Some true.
Proof. destruct b as [[]|]; simpl; split; congruence. Qed.

Lemma lifecycle_ok_spec p :
  lifecycle_ok p = true ↔
  (Plugin.configured p = Some true → Plugin.started p = Some true)
  ∧ (Plugin.started p = Some true → Plugin.loaded p = Some true).
Proof.
  unfold lifecycle_ok. rewrite andb_true_iff, <- !truthy_true.
  destruct (truthy (Plugin.configured p)), (truthy (Plugin.started p)),
    (truthy (Plugin.loaded p)); simpl; intuition congruence.
Qed.

(** C7. [startPlugin] on a plugin whose [started] flag is true, and
    [configurePlugin] on a plugin whose [configured] flag is true, return
    the bridge as it was: no flag of any plugin changes, no hook is called
    (the list of hook calls is the same) and no promise is left pending. *)
Theorem start_configure_again_is_noop (i : nat) (p : RegisteredPlugin)
    (message : option string) (configure : bool) (answer : HookAnswer)
    (mb : Matterbridge) :
  registeredPlugins mb !! i = Some p →
  (Plugin.started p = Some true →
   startPlugin i message configure answer mb = (mb, []))
  ∧ (Plugin.configured p = Some true →
     configurePlugin i answer mb = (mb, [])).
Proof.
  intros Hp. split; intros Hf.
  - unfold startPlugin. rewrite Hp.
    destruct (negb (truthy (Plugin.loaded p)) || negb (defined (Plugin.platform p)));
      [done|]. by rewrite Hf.
  - unfold configurePlugin. rewrite Hp.
    destruct (negb (truthy (Plugin.loaded p)) || negb (truthy (Plugin.started p))
              || negb (defined (Plugin.platform p))); [done|]. by rewrite Hf.
Qed.

Lemma start_configure_again_is_noop_witness :
  ∃ p, registeredPlugins configured_A !! 0%nat = Some p
       ∧ Plugin.started p = Some true ∧ Plugin.configured p = Some true
       ∧ startPlugin 0 None true HookPending configured_A = (configured_A, [])
       ∧ configurePlugin 0 HookPending configured_A = (configured_A, []).
Proof.
  eexists. split; [vm_compute; reflexivity|].
  split; [reflexivity|]. split; [reflexivity|].
  split;
    eapply (start_configure_again_is_noop 0 _ None true HookPending configured_A);
    vm_compute; reflexivity.
Defined.

(** *** [loadPlugin] *)



(** A disabled plugin: [loadPlugin] returns without setting [error]. *)
Lemma loadPlugin_disabled_keeps_error_unset : ¬ loadPlugin_fails_with_error.
Proof.
  intros H.
  destruct (H 0%nat false ""%string (import_A "DynamicPlatform") HookPending
              (initialized bridge [Plugin.set_enabled (Some false) plugin_A])
              (Plugin.set_enabled (Some false) plugin_A) eq_refl (or_introl eq_refl))
    as [He _].
  vm_compute in He. discriminate.
Qed.


Lemma startPlugin_result i message configure answer mb :
  files (startPlugin i message configure answer mb).1 = files mb
  ∧ ∀ j p', registeredPlugins (startPlugin i message configure answer mb).1 !! j = Some p' →
      ∃ p, registeredPlugins mb !! j = Some p
           ∧ Plugin.platform p' = Plugin.platform p
           ∧ Plugin.loaded p' = Plugin.loaded p
           ∧ Plugin.registeredDevices p' = Plugin.registeredDevices p
           ∧ Plugin.addedDevices p' = Plugin.addedDevices p.
Proof.
  unfold startPlugin.
  destruct (registeredPlugins mb !! i) as [p|] eqn:Hp; [|by eauto 10].
  destruct (_ || _); [by eauto 10|].
  destruct (truthy (Plugin.started p)); [by eauto 10|].
  destruct answer; simpl; [|by eauto 10].
  split; [done|]. intros j p'.
  destruct (decide (i = j)) as [->|Hne].
  - rewrite list_lookup_alter_eq, Hp. intros [= <-]. eauto 10.
  - rewrite list_lookup_alter_ne by done. eauto 10.
Qed.

(** C6, amended. [loadPlugin] on a disabled plugin returns no platform and
    changes nothing ([error] is not set); on a plugin that has a platform it
    returns that platform and changes nothing. Otherwise, when the import
    throws, the module has no default export, or saving the registry fails,
    it sets [error = true] and returns no platform; and when it succeeds it
    returns the new platform, the plugin holds that platform, has
    [loaded = true] and both counters at zero, and, if the bridge has a node
    storage context, the snapshot of the updated registry is what the node
    storage holds under [plugins]. *)
Theorem loadPlugin_outcomes (i : nat) (p : RegisteredPlugin) (start : bool)
    (message : string) (env : LoadEnv) (answer : HookAnswer) (mb : Matterbridge) :
  registeredPlugins mb !! i = Some p →
  let mb' := (loadPlugin i start message env answer mb).1.1 in
  let r := (loadPlugin i start message env answer mb).1.2 in
  (truthy (Plugin.enabled p) = false → mb' = mb ∧ r = None)
  ∧ (∀ pf, truthy (Plugin.enabled p) = true → Plugin.platform p = Some pf →
       mb' = mb ∧ r = Some pf)
  ∧ (truthy (Plugin.enabled p) = true → Plugin.platform p = None →
     match import env with
     | ImportThrows | ImportNoDefault _ =>
         error_at i mb' = Some (Some true) ∧ r = None
     | ImportDefault pkg platformType config schema =>
         if defined (nodeContext mb) && negb (persist_ok env)
         then error_at i mb' = Some (Some true) ∧ r = None
         else
           ∃ pf p',
             r = Some pf
             ∧ registeredPlugins mb' !! i = Some p'
             ∧ Plugin.platform p' = Some pf
             ∧ Plugin.loaded p' = Some true
             ∧ Plugin.registeredDevices p' = Some 0
             ∧ Plugin.addedDevices p' = Some 0
             ∧ (defined (nodeContext mb) = true →
                plugins (node_storage (files mb'))
                = Some (toBase <$> loaded_registry i pkg pf config schema mb))
     end).
Proof.
  intros Hp mb' r. subst mb' r. unfold loadPlugin, loadPlugin_guard. rewrite Hp.
  split_and!.
  - by intros ->.
  - intros pf -> ->. done.
  - intros -> ->. simpl. unfold loadPlugin_body, error_at.
    destruct (import env) as [|pkg|pkg ty config schema]; simpl.
    + rewrite list_lookup_alter_eq, Hp. done.
    + rewrite list_lookup_alter_eq, Hp. done.
    + destruct (defined (nodeContext mb) && negb (persist_ok env)) eqn:Hpersist; simpl.
      { rewrite !list_lookup_alter_eq, Hp. done. }
      set (pf := Platform.Build _ _ _ _).
      set (mb1 := update_plugin i (Plugin.set_schemaJson (Some schema))
                    (update_plugin i (loaded_plugin pkg pf config) mb)).
      set (mb2 := persist_plugins (getBaseRegisteredPlugins mb1) mb1).
      assert (registeredPlugins mb2 !! i
              = Some (Plugin.set_schemaJson (Some schema) (loaded_plugin pkg pf config p)))
        as Hp2.
      { unfold mb2. rewrite plugins_persist_plugins. unfold mb1.
        rewrite !lookup_update_plugin, Hp. done. }
      assert (defined (nodeContext mb) = true →
              plugins (node_storage (files mb2))
              = Some (toBase <$> loaded_registry i pkg pf config schema mb)) as Hsnap.
      { intros Hn. unfold mb2, persist_plugins.
        change (nodeContext mb1) with (nodeContext mb).
        destruct (nodeContext mb); [|done]. simpl.
        unfold getBaseRegisteredPlugins, loaded_registry.
        unfold mb1. rewrite !plugins_update_plugin. by rewrite list_alter_alter_eq. }
      exists pf. destruct start.
      * destruct (startPlugin_result i (Some message) false answer mb2) as [Hf Hq].
        destruct (startPlugin i (Some message) false answer mb2) as [mb3 ps] eqn:E.
        simpl in *.
        destruct (registeredPlugins mb3 !! i) as [p3|] eqn:Hp3.
        -- destruct (Hq _ _ Hp3) as (q & Hq2 & H1 & H2 & H3 & H4).
           rewrite Hp2 in Hq2. injection Hq2 as <-.
           exists p3. rewrite H1, H2, H3, H4, Hf. split_and!; done.
        -- exfalso. apply lookup_ge_None in Hp3.
           assert (length (registeredPlugins mb3) = length (registeredPlugins mb2)) as El.
           { revert E. unfold startPlugin. rewrite Hp2.
             repeat case_match; intros [= <- _]; try done.
             by rewrite plugins_update_plugin, length_alter. }
           apply lookup_lt_Some in Hp2. lia.
      * simpl. eexists. split_and!; try done.
Qed.

Lemma loadPlugin_outcomes_witness :
  registeredPlugins (initialized bridge [plugin_A]) !! 0%nat = Some plugin_A
  ∧ ∃ pf p',
      (loadPlugin 0 false "" (import_A "DynamicPlatform") HookPending
         (initialized bridge [plugin_A])).1.2 = Some pf
      ∧ registeredPlugins
          (loadPlugin 0 false "" (import_A "DynamicPlatform") HookPending
             (initialized bridge [plugin_A])).1.1 !! 0%nat = Some p'
      ∧ Plugin.platform p' = Some pf
      ∧ Plugin.loaded p' = Some true
      ∧ Plugin.registeredDevices p' = Some 0
      ∧ Plugin.addedDevices p' = Some 0
      ∧ (defined (nodeContext (initialized bridge [plugin_A])) = true →
         plugins (node_storage (files
           (loadPlugin 0 false "" (import_A "DynamicPlatform") HookPending
              (initialized bridge [plugin_A])).1.1))
         = Some (toBase <$> loaded_registry 0 package_A pf "{}" "{}"
                              (initialized bridge [plugin_A]))).
Proof.
  split; [reflexivity|].
  exact (proj2 (proj2 (loadPlugin_outcomes 0 plugin_A false ""
                         (import_A "DynamicPlatform") HookPending
                         (initialized bridge [plugin_A]) eq_refl))
           eq_refl eq_refl).
Defined.

(** ** Startup supervisor *)

Lemma in_error_not_ready p : in_error p = true → ready p = false.
Proof.
  unfold in_error, ready. intros [-> ->]%andb_true_iff. done.
Qed.

(** The loop of bridge mode runs to its end exactly when every plugin is
    ready, and then it has changed nothing. *)
Lemma scan_bridge_ready ps : ∀ k fc mb,
  (scan_bridge k ps fc mb).1.1 = ScanReady ↔ forallb ready ps = true.
Proof.
  induction ps as [|p ps IH]; intros k fc mb; simpl; [done|].
  unfold ready at 1, not_ready.
  destruct (truthy (Plugin.enabled p)); simpl; [|apply IH].
  destruct (truthy (Plugin.error p)); simpl; [done|].
  destruct (truthy (Plugin.loaded p)); simpl; [|done].
  destruct (truthy (Plugin.started p)); simpl; [apply IH | done].
Qed.

Lemma scan_bridge_ready_same ps : ∀ k fc mb,
  forallb ready ps = true → scan_bridge k ps fc mb = (ScanReady, fc, mb).
Proof.
  induction ps as [|p ps IH]; intros k fc mb; simpl; [done|].
  unfold ready at 1, not_ready.
  destruct (truthy (Plugin.enabled p)); simpl; [|apply IH].
  destruct (truthy (Plugin.error p)); simpl; [done|].
  destruct (truthy (Plugin.loaded p)); simpl; [|done].
  destruct (truthy (Plugin.started p)); simpl; [apply IH | done].
Qed.

(** In bridge mode the loop stops at the first plugin that is not ready: in
    error if that plugin is in error, waiting otherwise. *)
Lemma scan_bridge_first l1 p l2 : ∀ k fc mb,
  forallb ready l1 = true → ready p = false →
  (scan_bridge k (l1 ++ p :: l2) fc mb).1.1
  = if in_error p then ScanError else ScanWait.
Proof.
  induction l1 as [|q l1 IH]; intros k fc mb; simpl.
  - intros _. unfold ready, in_error, not_ready.
    destruct (truthy (Plugin.enabled p)); simpl; [|done].
    destruct (truthy (Plugin.error p)); simpl; [done|].
    destruct (truthy (Plugin.loaded p)); simpl; [|done].
    destruct (truthy (Plugin.started p)); simpl; done.
  - intros [Hq Hl]%andb_true_iff Hp. revert Hq. unfold ready at 1, not_ready.
    destruct (truthy (Plugin.enabled q)); simpl; [|intros _; by apply IH].
    destruct (truthy (Plugin.error q)); simpl; [done|].
    destruct (truthy (Plugin.loaded q)); simpl; [|done].
    destruct (truthy (Plugin.started q)); simpl; [intros _; by apply IH | done].
Qed.

(** The same, with the counter and the bridge the loop leaves: nothing has
    changed when it stops in error, one failure has been counted for the
    plugin it stops at when it stops waiting. *)
Lemma scan_bridge_first_result l1 p l2 : ∀ k fc mb,
  forallb ready l1 = true → ready p = false →
  scan_bridge k (l1 ++ p :: l2) fc mb
  = if in_error p then (ScanError, fc, mb)
    else (ScanWait, (count_failure (k + length l1) fc mb).1,
          (count_failure (k + length l1) fc mb).2).
Proof.
  induction l1 as [|q l1 IH]; intros k fc mb.
  - intros _. cbn [app length scan_bridge]. rewrite Nat.add_0_r.
    unfold ready, in_error.
    destruct (truthy (Plugin.enabled p)); cbn [negb implb andb]; [|done].
    destruct (truthy (Plugin.error p)); cbn [negb andb]; [done|].
    intros Hn.
    assert (not_ready p = true) as ->.
    { unfold not_ready.
      destruct (truthy (Plugin.loaded p)), (truthy (Plugin.started p)); done. }
    by destruct (count_failure k fc mb).
  - intros [Hq Hl]%andb_true_iff Hp.
    change ((q :: l1) ++ p :: l2) with (q :: (l1 ++ p :: l2)).
    cbn [scan_bridge length]. rewrite (IH (S k) fc mb Hl Hp).
    replace (S k + length l1)%nat with (k + S (length l1))%nat by lia.
    revert Hq. unfold ready at 1.
    destruct (truthy (Plugin.enabled q)); cbn [negb implb]; [|done].
    destruct (truthy (Plugin.error q)); cbn [negb andb]; [done|].
    intros Hq.
    assert (not_ready q = false) as ->.
    { unfold not_ready.
      destruct (truthy (Plugin.loaded q)), (truthy (Plugin.started q)); done. }
    done.
Qed.

(** The loop of bridge mode never ends as ready when a plugin is in error. *)
Lemma scan_bridge_error ps k fc mb :
  existsb in_error ps = true →
  (scan_bridge k ps fc mb).1.1 = ScanError ∨ (scan_bridge k ps fc mb).1.1 = ScanWait.
Proof.
  intros He.
  destruct ((scan_bridge k ps fc mb).1.1) eqn:E; auto.
  apply scan_bridge_ready in E.
  apply existsb_exists in He as (p & Hin & Hp).
  rewrite forallb_forall in E. apply E in Hin.
  apply in_error_not_ready in Hp. congruence.
Qed.

Lemma scan_childbridge_ready ps : ∀ k fc all mb,
  (scan_childbridge k ps fc all mb).1.1 = ScanReady
  ↔ all = true ∧ forallb ready ps = true.
Proof.
  induction ps as [|p ps IH]; intros k fc all mb; simpl.
  { destruct all; simpl; intuition congruence. }
  unfold ready at 1, not_ready.
  destruct (truthy (Plugin.enabled p)); simpl; [|apply IH].
  destruct (truthy (Plugin.error p)); simpl; [intuition congruence|].
  destruct (truthy (Plugin.loaded p)); simpl.
  - destruct (truthy (Plugin.started p)); simpl; [apply IH|].
    rewrite IH. intuition congruence.
  - rewrite IH. intuition congruence.
Qed.

Lemma scan_childbridge_ready_same ps : ∀ k fc mb,
  forallb ready ps = true → scan_childbridge k ps fc true mb = (ScanReady, fc, mb).
Proof.
  induction ps as [|p ps IH]; intros k fc mb; simpl; [done|].
  unfold ready at 1, not_ready.
  destruct (truthy (Plugin.enabled p)); simpl; [|apply IH].
  destruct (truthy (Plugin.error p)); simpl; [done|].
  destruct (truthy (Plugin.loaded p)); simpl; [|done].
  destruct (truthy (Plugin.started p)); simpl; [apply IH | done].
Qed.

(** In childbridge mode the loop goes on past the plugins it waits for,
    so it meets every plugin in error. *)
Lemma scan_childbridge_error ps : ∀ k fc all mb,
  existsb in_error ps = true →
  (scan_childbridge k ps fc all mb).1.1 = ScanError.
Proof.
  induction ps as [|p ps IH]; intros k fc all mb; simpl; [done|].
  unfold in_error at 1, not_ready.
  destruct (truthy (Plugin.enabled p)); simpl; [|apply IH].
  destruct (truthy (Plugin.error p)); simpl; [done|].
  intros He.
  destruct (negb (truthy (Plugin.loaded p)) || negb (truthy (Plugin.started p)));
    by apply IH.
Qed.


(** Bridge mode, plugin A enabled and not loaded yet, plugin B enabled and
    in error: the poll counts a failed attempt for A and returns; the
    interval is not cleared. *)
Lemma bridge_poll_waits_before_error : ¬ poll_with_error_clears_interval.
Proof.
  intros H.
  destruct (H start_env {| failCount := 0; cleared := false |}
              (initialized bridge [plugin_A; Plugin.set_error (Some true) plugin_B])
              eq_refl (or_introl eq_refl) eq_refl) as [Hc _].
  vm_compute in Hc. discriminate.
Qed.

(** C3, amended. On a poll of the interval, in bridge and in childbridge
    mode: [startMatterServer] is called only if every enabled plugin is
    without error, loaded and started, and then the interval is cleared and
    the call is made on the bridge as the poll found it; if some enabled
    plugin is in error, [startMatterServer] is not called; in childbridge
    mode the poll then clears the interval; in bridge mode it clears the
    interval when every plugin before the first one that is not ready is
    ready and that one is in error, and otherwise it leaves the interval
    running. In bridge mode the poll is decided by the first plugin that is
    not ready, whatever comes after it: if that plugin is in error the poll
    clears the interval and changes nothing else; otherwise it counts one
    failed attempt ([failCount] is one more, and the plugin is put in error
    once the count is above 30) and leaves the interval running. *)
Theorem supervisor_never_starts_with_error (env : StartEnv) (iv : Interval)
    (mb : Matterbridge) :
  cleared iv = false →
  let poll := (startMatterInterval env iv mb).1.1 in
  let iv' := (startMatterInterval env iv mb).1.2 in
  (calls_startMatterServer poll = true →
     forallb ready (registeredPlugins mb) = true
     ∧ cleared iv' = true
     ∧ poll = CalledStartMatterServer (startMatterServer env mb))
  ∧ (existsb in_error (registeredPlugins mb) = true →
       calls_startMatterServer poll = false
       ∧ (bridgeMode mb = childbridge → poll = Aborted ∧ cleared iv' = true)
       ∧ (bridgeMode mb = bridge →
            (poll = Aborted ∧ cleared iv' = true)
            ∨ (poll = Waiting ∧ cleared iv' = false))
       ∧ (bridgeMode mb = bridge →
            ∀ l1 p l2, registeredPlugins mb = l1 ++ p :: l2 →
                       forallb ready l1 = true → in_error p = true →
                       poll = Aborted ∧ cleared iv' = true))
  ∧ (bridgeMode mb = bridge →
       ∀ l1 p l2, registeredPlugins mb = l1 ++ p :: l2 →
                  forallb ready l1 = true → ready p = false →
                  startMatterInterval env iv mb
                  = if in_error p
                    then (Aborted, {| failCount := failCount iv; cleared := true |}, mb)
                    else (Waiting,
                          {| failCount := failCount iv + 1; cleared := false |},
                          if 30 <? failCount iv + 1
                          then update_plugin (length l1) (Plugin.set_error (Some true)) mb
                          else mb)).
Proof.
  intros Hc poll iv'.
  assert (bridgeMode mb = bridge →
          ∀ l1 p l2, registeredPlugins mb = l1 ++ p :: l2 →
                     forallb ready l1 = true → ready p = false →
                     startMatterInterval env iv mb
                     = if in_error p
                       then (Aborted, {| failCount := failCount iv; cleared := true |}, mb)
                       else (Waiting,
                             {| failCount := failCount iv + 1; cleared := false |},
                             if 30 <? failCount iv + 1
                             then update_plugin (length l1)
                                    (Plugin.set_error (Some true)) mb
                             else mb)) as Hfirst.
  { intros Hmode l1 p l2 El Hl Hp.
    unfold startMatterInterval, scan. rewrite Hc, Hmode, El.
    rewrite (scan_bridge_first_result l1 p l2 0%nat (failCount iv) mb Hl Hp).
    destruct (in_error p); reflexivity. }
  cut ((calls_startMatterServer poll = true →
          forallb ready (registeredPlugins mb) = true
          ∧ cleared iv' = true
          ∧ poll = CalledStartMatterServer (startMatterServer env mb))
       ∧ (existsb in_error (registeredPlugins mb) = true →
            calls_startMatterServer poll = false
            ∧ (bridgeMode mb = childbridge → poll = Aborted ∧ cleared iv' = true)
            ∧ (bridgeMode mb = bridge →
                 (poll = Aborted ∧ cleared iv' = true)
                 ∨ (poll = Waiting ∧ cleared iv' = false))
            ∧ (bridgeMode mb = bridge →
                 ∀ l1 p l2, registeredPlugins mb = l1 ++ p :: l2 →
                            forallb ready l1 = true → in_error p = true →
                            poll = Aborted ∧ cleared iv' = true))).
  { intros [HA HB]. split; [exact HA|]. split; [exact HB | exact Hfirst]. }
  clear Hfirst.
  subst poll iv'. unfold startMatterInterval, scan. rewrite Hc.
  destruct (bridgeMode mb) eqn:Hmode; simpl; try (split; [done | intuition congruence]).
  - (* bridge *)
    split.
    + destruct (forallb ready (registeredPlugins mb)) eqn:Hr.
      * rewrite (scan_bridge_ready_same _ 0%nat (failCount iv) mb Hr). simpl. done.
      * assert ((scan_bridge 0 (registeredPlugins mb) (failCount iv) mb).1.1 ≠ ScanReady)
          as Hn by (rewrite scan_bridge_ready; congruence).
        destruct (scan_bridge 0 (registeredPlugins mb) (failCount iv) mb)
          as [[[] fc] mb']; simpl in *; done.
    + intros He.
      pose proof (scan_bridge_error _ 0%nat (failCount iv) mb He) as Hs.
      split_and!; [| done | |].
      * destruct (scan_bridge 0 (registeredPlugins mb) (failCount iv) mb)
          as [[[] fc] mb']; simpl in *; intuition congruence.
      * intros _.
        destruct (scan_bridge 0 (registeredPlugins mb) (failCount iv) mb)
          as [[[] fc] mb']; simpl in *; intuition congruence.
      * intros _ l1 p l2 El Hl Hp.
        pose proof (scan_bridge_first l1 p l2 0%nat (failCount iv) mb Hl
                      (in_error_not_ready _ Hp)) as Hf.
        rewrite Hp, <- El in Hf.
        destruct (scan_bridge 0 (registeredPlugins mb) (failCount iv) mb)
          as [[[] fc] mb']; simpl in *; done.
  - (* childbridge *)
    split.
    + destruct (forallb ready (registeredPlugins mb)) eqn:Hr.
      * rewrite (scan_childbridge_ready_same _ 0%nat (failCount iv) mb Hr). simpl. done.
      * assert ((scan_childbridge 0 (registeredPlugins mb) (failCount iv) true mb).1.1
                ≠ ScanReady) as Hn.
        { rewrite scan_childbridge_ready. intros [_ ?]. congruence. }
        destruct (scan_childbridge 0 (registeredPlugins mb) (failCount iv) true mb)
          as [[[] fc] mb']; simpl in *; done.
    + intros He.
      pose proof (scan_childbridge_error _ 0%nat (failCount iv) true mb He) as Hs.
      destruct (scan_childbridge 0 (registeredPlugins mb) (failCount iv) true mb)
        as [[[] fc] mb']; simpl in *; try done.
Qed.

(** The bridge of the scenario "plugin A loaded and started", in
    childbridge mode and with its interval still running; and a bridge in
    bridge mode whose first plugin is not loaded yet and whose second plugin
    is in error. *)
Lemma supervisor_never_starts_with_error_witness :
  cleared {| failCount := 0; cleared := false |} = false
  ∧ (forallb ready (registeredPlugins configured_A) = true
     ∧ cleared (startMatterInterval start_env {| failCount := 0; cleared := false |}
                  configured_A).1.2 = true
     ∧ (startMatterInterval start_env {| failCount := 0; cleared := false |}
          configured_A).1.1
       = CalledStartMatterServer (startMatterServer start_env configured_A))
  ∧ startMatterInterval start_env {| failCount := 0; cleared := false |}
      (initialized bridge [plugin_A; Plugin.set_error (Some true) plugin_B])
    = (Waiting, {| failCount := 1; cleared := false |},
       initialized bridge [plugin_A; Plugin.set_error (Some true) plugin_B]).
Proof.
  split; [reflexivity|]. split.
  - exact (proj1 (supervisor_never_starts_with_error start_env
                    {| failCount := 0; cleared := false |} configured_A eq_refl)
             eq_refl).
  - exact (proj2 (proj2 (supervisor_never_starts_with_error start_env
                           {| failCount := 0; cleared := false |}
                           (initialized bridge
                              [plugin_A; Plugin.set_error (Some true) plugin_B])
                           eq_refl))
             eq_refl [] plugin_A [Plugin.set_error (Some true) plugin_B]
             eq_refl eq_refl eq_refl).
Defined.

(** ** Commissioning contexts *)

Lemma ctx_get_set ctx key v sm :
  ctx_get ctx key (ctx_set ctx key (Some v) sm) = Some v.
Proof.
  unfold ctx_get, ctx_set. rewrite lookup_insert_eq. simpl.
  by rewrite lookup_insert_eq.
Qed.

Lemma ctx_get_set_ne ctx key key' v sm :
  key ≠ key' →
  ctx_get ctx key (ctx_set ctx key' v sm) = ctx_get ctx key sm.
Proof.
  intros Hne. unfold ctx_get, ctx_set. rewrite lookup_insert_eq. simpl.
  destruct v as [v|].
  - rewrite lookup_insert_ne by done. by destruct (sm !! ctx).
  - rewrite lookup_delete_ne by done. by destruct (sm !! ctx).
Qed.

Lemma ctx_get_set_other ctx ctx' key key' v sm :
  ctx ≠ ctx' →
  ctx_get ctx key (ctx_set ctx' key' v sm) = ctx_get ctx key sm.
Proof.
  intros Hne. unfold ctx_get, ctx_set. by rewrite lookup_insert_ne.
Qed.

(** Stepping through a method body, one storage access at a time. *)
Lemma bind_get_state {A} (k : Matterbridge → M A) mb :
  bind get_state k mb = k mb mb.
Proof. reflexivity. Qed.

Lemma bind_modify {A} f (k : unit → M A) mb :
  bind (modify f) k mb = k tt (f mb).
Proof. reflexivity. Qed.

Lemma bind_ret {A B} (a : A) (k : A → M B) mb :
  bind (ret a) k mb = k a mb.
Proof. reflexivity. Qed.

Lemma bind_assoc {A B C} (m : M A) (k : A → M B) (k' : B → M C) mb :
  bind (bind m k) k' mb = bind m (λ a, bind (k a) k') mb.
Proof. unfold bind. by destruct (m mb). Qed.

Lemma bind_storage_set {A} ctx key v (k : unit → M A) mb sm :
  storageManager mb = Some sm →
  bind (storage_set ctx key v) k mb
  = k tt (set_storageManager (Some (ctx_set ctx key v sm)) mb).
Proof. intros H. unfold bind, storage_set. by rewrite H. Qed.

Lemma bind_storage_get_default {A} ctx key d (k : StorageValue → M A) mb sm :
  storageManager mb = Some sm →
  bind (storage_get ctx key (Some d)) k mb
  = k (default d (ctx_get ctx key sm)) mb.
Proof.
  intros H. unfold bind, storage_get. rewrite H. by destruct (ctx_get ctx key sm).
Qed.

Lemma bind_storage_get_present {A} ctx key d v (k : StorageValue → M A) mb sm :
  storageManager mb = Some sm → ctx_get ctx key sm = Some v →
  bind (storage_get ctx key d) k mb = k v mb.
Proof. intros H Hv. unfold bind, storage_get. by rewrite H, Hv. Qed.

Lemma set_storageManager_twice a b mb :
  set_storageManager a (set_storageManager b mb) = set_storageManager a mb.
Proof. reflexivity. Qed.

Lemma storageManager_set a mb : storageManager (set_storageManager a mb) = a.
Proof. reflexivity. Qed.

Ltac storage_step H :=
  first
    [ erewrite bind_storage_set by (first [exact H | apply storageManager_set])
    | erewrite bind_storage_get_default by (first [exact H | apply storageManager_set]) ];
  rewrite ?set_storageManager_twice.

(** C4. With the storage manager open, [createCommissioningServerContext]
    returns the context of the plugin, and in it: the serial number and the
    unique id are the values the context held before the call, and the
    random default only where it held none; the software and hardware
    versions and version strings are those of the running bridge and
    system, whatever the context held before. *)
Theorem commissioning_identity_is_stable (randomHex pluginName deviceName : string)
    (deviceType vendorId : Z) (vendorName : string) (productId : Z)
    (productName : string) (mb : Matterbridge) (sm : StorageManager) :
  storageManager mb = Some sm →
  ∃ sm',
    createCommissioningServerContext randomHex pluginName deviceName deviceType
      vendorId vendorName productId productName mb
    = Returned pluginName (set_storageManager (Some sm') mb)
    ∧ (∀ sn, ctx_get pluginName "serialNumber" sm = Some sn →
             ctx_get pluginName "serialNumber" sm' = Some sn)
    ∧ (∀ uid, ctx_get pluginName "uniqueId" sm = Some uid →
              ctx_get pluginName "uniqueId" sm' = Some uid)
    ∧ (ctx_get pluginName "serialNumber" sm = None →
       ctx_get pluginName "serialNumber" sm' = Some (SString ("CS" ++ randomHex)))
    ∧ (ctx_get pluginName "uniqueId" sm = None →
       ctx_get pluginName "uniqueId" sm' = Some (SString ("CS" ++ randomHex)))
    ∧ ctx_get pluginName "softwareVersion" sm'
      = Some (major_version (matterbridgeVersion mb))
    ∧ ctx_get pluginName "softwareVersionString" sm'
      = Some (SString (matterbridgeVersion mb))
    ∧ ctx_get pluginName "hardwareVersion" sm' = Some (major_version (osRelease mb))
    ∧ ctx_get pluginName "hardwareVersionString" sm' = Some (SString (osRelease mb)).
Proof.
  intros Hsm. unfold createCommissioningServerContext, set_value.
  rewrite bind_get_state, Hsm. cbn [defined negb].
  repeat storage_step Hsm.
  unfold ret. eexists. split; [reflexivity|].
  repeat (rewrite ?ctx_get_set; rewrite ?ctx_get_set_ne by done).
  split_and!; try done.
  - by intros sn ->.
  - by intros uid ->.
  - by intros ->.
  - by intros ->.
Qed.

Lemma commissioning_identity_is_stable_witness :
  storageManager restarted_A = Some stored_identity
  ∧ ∃ sm',
      createCommissioningServerContext "ffffffffffffffff" "matterbridge-a"
        "Matterbridge" AGGREGATOR_code 0xfff1 "Matterbridge" 0x8000 "Plugin A"
        restarted_A
      = Returned "matterbridge-a"%string (set_storageManager (Some sm') restarted_A)
      ∧ (∀ sn, ctx_get "matterbridge-a" "serialNumber" stored_identity = Some sn →
               ctx_get "matterbridge-a" "serialNumber" sm' = Some sn)
      ∧ (∀ uid, ctx_get "matterbridge-a" "uniqueId" stored_identity = Some uid →
                ctx_get "matterbridge-a" "uniqueId" sm' = Some uid)
      ∧ (ctx_get "matterbridge-a" "serialNumber" stored_identity = None →
         ctx_get "matterbridge-a" "serialNumber" sm'
         = Some (SString ("CS" ++ "ffffffffffffffff")))
      ∧ (ctx_get "matterbridge-a" "uniqueId" stored_identity = None →
         ctx_get "matterbridge-a" "uniqueId" sm'
         = Some (SString ("CS" ++ "ffffffffffffffff")))
      ∧ ctx_get "matterbridge-a" "softwareVersion" sm'
        = Some (major_version (matterbridgeVersion restarted_A))
      ∧ ctx_get "matterbridge-a" "softwareVersionString" sm'
        = Some (SString (matterbridgeVersion restarted_A))
      ∧ ctx_get "matterbridge-a" "hardwareVersion" sm'
        = Some (major_version (osRelease restarted_A))
      ∧ ctx_get "matterbridge-a" "hardwareVersionString" sm'
        = Some (SString (osRelease restarted_A)).
Proof.
  split; [reflexivity|].
  apply (commissioning_identity_is_stable "ffffffffffffffff" "matterbridge-a"
           "Matterbridge" AGGREGATOR_code 0xfff1 "Matterbridge" 0x8000 "Plugin A"
           restarted_A stored_identity).
  reflexivity.
Defined.

(** *** Commissioning servers and their ports *)

(** A read of the storage returns a value and leaves the bridge as it is,
    or throws and leaves the bridge as it is. *)
Lemma bind_storage_get_cases {A} ctx key d (k : StorageValue → M A) mb :
  (∃ v, bind (storage_get ctx key d) k mb = k v mb)
  ∨ bind (storage_get ctx key d) k mb = Threw mb.
Proof.
  unfold bind, storage_get.
  destruct (storageManager mb) as [sm|]; [|by right].
  destruct (ctx_get ctx key sm) as [v|]; [left; eauto|].
  destruct d as [d|]; [left; eauto | by right].
Qed.


Lemma createCommisioningServer_cases context pluginName mb :
  createCommisioningServer context pluginName mb = Threw mb
  ∨ ∃ cs, createCommisioningServer context pluginName mb = Returned cs (stepped mb)
          ∧ CS.port cs = port mb
          ∧ CS.passcode cs = passcode mb
          ∧ CS.discriminator cs = discriminator mb.
Proof.
  unfold createCommisioningServer.
  repeat
    match goal with
    | |- context [bind (storage_get ?c ?k ?d) ?f mb] =>
        destruct (bind_storage_get_cases c k d f mb) as [[? ->] | ->];
        [|by left]
    end.
  right. eexists. split; [reflexivity|]. done.
Qed.



Lemma createCommisioningServer_returns context pluginName mb :
  has_identity context mb = true →
  ∃ cs, createCommisioningServer context pluginName mb = Returned cs (stepped mb).
Proof.
  unfold has_identity. destruct (storageManager mb) as [sm|] eqn:Hsm; [|done].
  simpl. rewrite !andb_true_iff.
  intros (H1 & H2 & H3 & H4 & H5 & H6 & H7 & H8 & _).
  unfold createCommisioningServer.
  repeat
    match goal with
    | H : defined (ctx_get context ?k sm) = true |- _ =>
        destruct (ctx_get context k sm) as [?v|] eqn:?E; [clear H | done]
    end.
  repeat (erewrite bind_storage_get_present by eauto).
  repeat (erewrite bind_storage_get_default by eauto).
  eexists. reflexivity.
Qed.

Lemma bind_storage_get_absent {A} ctx key (k : StorageValue → M A) mb sm :
  storageManager mb = Some sm → ctx_get ctx key sm = None →
  bind (storage_get ctx key None) k mb = Threw mb.
Proof. intros H Hv. unfold bind, storage_get. by rewrite H, Hv. Qed.

Lemma createCommisioningServer_throws context pluginName mb :
  has_identity context mb = false →
  createCommisioningServer context pluginName mb = Threw mb.
Proof.
  unfold has_identity, createCommisioningServer.
  destruct (storageManager mb) as [sm|] eqn:Hsm;
    [|intros _; unfold bind, storage_get; by rewrite Hsm].
  simpl.
  repeat
    match goal with
    | |- context [defined (ctx_get context ?k sm)] =>
        destruct (ctx_get context k sm) as [?v|] eqn:?E; simpl;
        [ erewrite bind_storage_get_present by eauto
        | intros _; by erewrite bind_storage_get_absent by eauto ]
    end.
  done.
Qed.

Lemma ports_of_run calls : ∀ mb,
  port (createCommisioningServers calls mb).2
  = port mb + Z.of_nat (length (createCommisioningServers calls mb).1)
  ∧ ∀ k cs, (createCommisioningServers calls mb).1 !! k = Some cs →
            CS.port cs = port mb + Z.of_nat k.
Proof.
  induction calls as [|[context pluginName] calls IH]; intros mb; simpl.
  { split; [lia | done]. }
  destruct (createCommisioningServer_cases context pluginName mb)
    as [-> | (cs & -> & Hport & _)].
  - apply IH.
  - destruct (IH (stepped mb)) as [IH1 IH2].
    destruct (createCommisioningServers calls (stepped mb)) as [css mb'']. simpl in *.
    split; [lia|]. intros [|k] cs'; simpl.
    + intros [= <-]. lia.
    + intros Hk. rewrite (IH2 _ _ Hk). lia.
Qed.

(** C10. A call of [createCommisioningServer] on a context that holds an
    identity returns a server with the current port, passcode and
    discriminator, and adds one to the port, and to the passcode and the
    discriminator where they are defined; on a context without an identity it
    throws and changes nothing. So the servers created by any run of calls
    have the ports [port], [port + 1], ... in the order of creation: strictly
    increasing and pairwise distinct. *)
Theorem commissioning_ports_increase (calls : list (StorageContext * string))
    (mb : Matterbridge) :
  (∀ context pluginName,
     if has_identity context mb
     then ∃ cs mb',
            createCommisioningServer context pluginName mb = Returned cs mb'
            ∧ CS.port cs = port mb ∧ port mb' = port mb + 1
            ∧ CS.passcode cs = passcode mb
            ∧ passcode mb' = (λ n, n + 1) <$> passcode mb
            ∧ CS.discriminator cs = discriminator mb
            ∧ discriminator mb' = (λ n, n + 1) <$> discriminator mb
     else createCommisioningServer context pluginName mb = Threw mb)
  ∧ (∀ k cs, (createCommisioningServers calls mb).1 !! k = Some cs →
             CS.port cs = port mb + Z.of_nat k)
  ∧ (∀ j k cs1 cs2,
       (createCommisioningServers calls mb).1 !! j = Some cs1 →
       (createCommisioningServers calls mb).1 !! k = Some cs2 →
       ((j < k)%nat → CS.port cs1 < CS.port cs2)
       ∧ (j ≠ k → CS.port cs1 ≠ CS.port cs2)).
Proof.
  split_and!.
  - intros context pluginName.
    destruct (has_identity context mb) eqn:Hid.
    + destruct (createCommisioningServer_returns context pluginName mb Hid) as [cs Hcs].
      destruct (createCommisioningServer_cases context pluginName mb)
        as [Ht | (cs' & Hcs' & Hp & Hpc & Hd)]; [congruence|].
      exists cs', (stepped mb). split_and!; done.
    + by apply createCommisioningServer_throws.
  - apply ports_of_run.
  - intros j k cs1 cs2 H1 H2.
    apply (proj2 (ports_of_run calls mb)) in H1, H2. split; lia.
Qed.

Lemma commissioning_ports_increase_witness :
  ∃ cs1 cs2,
    (createCommisioningServers three_calls two_identities).1 = [cs1; cs2]
    ∧ CS.port cs1 = 5540 ∧ CS.port cs2 = 5541
    ∧ CS.port cs1 < CS.port cs2.
Proof.
  eexists _, _. split; [vm_compute; reflexivity|].
  split; [reflexivity|]. split; [reflexivity|].
  eapply (proj1 (proj2 (proj2 (commissioning_ports_increase three_calls two_identities))
                  0%nat 1%nat _ _ _ _)).
  lia.
  Unshelve. all: vm_compute; reflexivity.
Defined.

(** ** Device registry and bridge topology *)

Lemma findIndex_Some pluginName ps i :
  findIndex pluginName ps = Some i →
  ∃ p, ps !! i = Some p ∧ Plugin.name p = pluginName.
Proof.
  revert i. induction ps as [|q ps IH]; intros i; simpl; [done|].
  destruct (String.eqb (Plugin.name q) pluginName) eqn:E.
  - intros [= <-]. exists q. split; [done|]. by apply String.eqb_eq.
  - destruct (findIndex pluginName ps) as [k|]; simpl; [|done].
    intros [= <-]. by apply IH.
Qed.

Lemma findPlugin_Some pluginName mb i p :
  findPlugin pluginName mb = Some (i, p) →
  findIndex pluginName (registeredPlugins mb) = Some i
  ∧ registeredPlugins mb !! i = Some p
  ∧ Plugin.name p = pluginName.
Proof.
  unfold findPlugin.
  destruct (findIndex pluginName (registeredPlugins mb)) as [k|] eqn:Hk; simpl; [|done].
  destruct (findIndex_Some _ _ _ Hk) as (q & Hq & Hn). rewrite Hq. simpl.
  intros [= <- <-]. done.
Qed.

Lemma truthy_false b : b ≠ Some true → truthy b = false.
Proof. destruct b as [[]|]; simpl; congruence. Qed.

(** C9. In childbridge mode [removeBridgedDevice] for a plugin whose
    [connected] flag is not true returns with the bridge exactly as it was:
    the device registry, the counters of every plugin, the aggregators and
    the reachability of every device are the same. *)
Theorem remove_without_connection_changes_nothing (pluginName : string)
    (device : MatterbridgeDevice) (mb : Matterbridge) (i : nat) (p : RegisteredPlugin) :
  bridgeMode mb = childbridge →
  findPlugin pluginName mb = Some (i, p) →
  Plugin.connected p ≠ Some true →
  removeBridgedDevice pluginName device mb = Returned tt mb.
Proof.
  intros Hmode Hfind Hc. unfold removeBridgedDevice.
  rewrite bind_get_state, Hmode, Hfind. simpl.
  destruct (defined (Plugin.aggregator p)); simpl; [|done].
  by rewrite (truthy_false _ Hc).
Qed.

Lemma remove_without_connection_changes_nothing_witness :
  bridgeMode accessory_A = childbridge
  ∧ (∃ p, findPlugin "matterbridge-a" accessory_A = Some (0%nat, p)
          ∧ Plugin.connected p ≠ Some true)
  ∧ removeBridgedDevice "matterbridge-a" (device_n 1) accessory_A
    = Returned tt accessory_A.
Proof.
  split; [reflexivity|].
  split.
  - eexists. split; [vm_compute; reflexivity | discriminate].
  - eapply (remove_without_connection_changes_nothing "matterbridge-a" (device_n 1)
              accessory_A 0%nat);
      [reflexivity | vm_compute; reflexivity | discriminate].
Defined.


(** The second device of accessory plugin A is registered and counted. *)
Lemma second_accessory_device_is_registered : ¬ second_accessory_device_is_refused.
Proof.
  intros H.
  destruct (H add_env "matterbridge-a"%string (device_n 2) accessory_A 0%nat
              (default plugin_A (registeredPlugins accessory_A !! 0%nat)))
    as (_ & Hr & _); try (vm_compute; reflexivity).
  vm_compute in Hr. discriminate.
Qed.

(** C1, amended. In childbridge mode a further [addBridgedDevice] for an
    accessory platform that is locked returns without error; it creates no
    storage context and no commissioning server and attaches the device to
    nothing, but it appends the device to the device registry and adds one
    to each of the plugin's two counters that is defined. Nothing else in the
    bridge changes. *)
Theorem second_accessory_device_is_counted (env : AddEnv) (pluginName : string)
    (device : MatterbridgeDevice) (mb : Matterbridge) (i : nat) (p : RegisteredPlugin) :
  bridgeMode mb = childbridge →
  findPlugin pluginName mb = Some (i, p) →
  Plugin.type p = "AccessoryPlatform"%string →
  Plugin.locked p = Some true →
  addBridgedDevice env pluginName device mb
  = Returned tt (update_plugin i count_up (push_device pluginName device mb)).
Proof.
  intros Hmode Hfind Hty Hl. unfold addBridgedDevice.
  rewrite bind_get_state, Hmode, Hfind. simpl.
  destruct (findPlugin_Some _ _ _ _ Hfind) as (_ & Hp & _).
  unfold bind at 1 2 3. unfold when at 1. unfold ret at 1. cbv beta iota.
  unfold bind at 1 2. unfold plugin_at at 1. rewrite Hp. cbv beta iota.
  rewrite Hty, Hl. simpl.
  unfold bind. unfold plugin_at. rewrite Hp. simpl. rewrite Hty. simpl.
  reflexivity.
Qed.

Lemma second_accessory_device_is_counted_witness :
  bridgeMode accessory_A = childbridge
  ∧ (∃ p, findPlugin "matterbridge-a" accessory_A = Some (0%nat, p)
          ∧ Plugin.type p = "AccessoryPlatform"%string
          ∧ Plugin.locked p = Some true)
  ∧ addBridgedDevice add_env "matterbridge-a" (device_n 2) accessory_A
    = Returned tt (update_plugin 0 count_up
                     (push_device "matterbridge-a" (device_n 2) accessory_A))
  ∧ counters 0 accessory_A = Some (Some 1, Some 1)
  ∧ counters 0 (update_plugin 0 count_up
                  (push_device "matterbridge-a" (device_n 2) accessory_A))
    = Some (Some 2, Some 2).
Proof.
  split; [reflexivity|].
  split; [eexists; split; [vm_compute; reflexivity | split; reflexivity]|].
  split; [|split; vm_compute; reflexivity].
  eapply (second_accessory_device_is_counted add_env "matterbridge-a" (device_n 2)
            accessory_A 0%nat);
    [reflexivity | vm_compute; reflexivity | reflexivity | reflexivity].
Defined.

(** ** Shutdown and restart coordinator *)

Lemma shutdown_plugins_frame message ps : ∀ mb,
  emitted (shutdown_plugins message ps mb) = emitted mb
  ∧ instance (shutdown_plugins message ps mb) = instance mb
  ∧ files (shutdown_plugins message ps mb) = files mb
  ∧ nodeStorage (shutdown_plugins message ps mb) = nodeStorage mb
  ∧ nodeContext (shutdown_plugins message ps mb) = nodeContext mb.
Proof.
  induction ps as [|p ps IH]; intros mb; simpl; [done|].
  destruct (negb (truthy (Plugin.enabled p)) || truthy (Plugin.error p)); [apply IH|].
  destruct (defined (Plugin.platform p)); [|apply IH].
  destruct (IH (call_hook (OnShutdown (Plugin.name p) (shutdown_message message)) mb))
    as (-> & -> & -> & -> & ->). done.
Qed.


(** [cleanup('shutting down...', true)]: neither branch of the restart case
    is taken, no event is emitted and the instance handle stays. *)
Lemma cleanup_restart_with_other_message : ¬ cleanup_always_announces.
Proof.
  intros H.
  destruct (H "shutting down..."%string true (initialized bridge []) eq_refl)
    as [_ Hi].
  vm_compute in Hi. discriminate.
Qed.

(** The second timeout, when the paths to delete exist. *)
Lemma cleanupTimeout2_announces (message : string) (restart : bool) (mb : Matterbridge) :
  (if restart then restart_message message else reset_paths_exist message (files mb))
  = true →
  ∃ mb', cleanupTimeout2 message restart mb = Returned tt mb'
         ∧ emitted mb' = emitted mb ++ [final_event message restart]
         ∧ instance mb' = false
         ∧ hasCleanupStarted mb' = false.
Proof.
  unfold cleanupTimeout2, final_event, restart_message, reset_paths_exist.
  destruct restart.
  - destruct (String.eqb message "updating..."); cbn [orb].
    + intros _. eexists. split; [reflexivity|]. done.
    + intros E. rewrite E. eexists. split; [reflexivity|]. done.
  - destruct (String.eqb message "shutting down with reset...") eqn:E1;
      destruct (String.eqb message "shutting down with factory reset...") eqn:E2.
    + apply String.eqb_eq in E1, E2. congruence.
    + rewrite andb_true_r. intros Hj. unfold when, bind, unlink_matterbridge_json.
      rewrite Hj. simpl. eexists. split; [reflexivity|]. done.
    + simpl. intros [Hj Hs]%andb_true_iff.
      unfold when, bind, unlink_matterbridge_json, rm_storage, ret.
      rewrite Hj. simpl. destruct (storage (files mb)); [|done].
      simpl. eexists. split; [reflexivity|]. done.
    + intros _. eexists. split; [reflexivity|]. done.
Qed.

(** C8, amended. A [cleanup(message, restart)] that passes its guard,
    whose collaborators close without rejecting, ends (after its second
    timeout) with exactly one event emitted and the instance handle cleared,
    provided that: with [restart] set the message is ['updating...'] (event
    [update]) or ['restarting...'] (event [restart]); without it (event
    [shutdown]) the paths that a reset message asks to delete exist. *)
Theorem cleanup_announces_once (env : CleanupEnv) (message : string) (restart : bool)
    (mb : Matterbridge) :
  hasCleanupStarted mb = false →
  closes env mb = true →
  (if restart then restart_message message else reset_paths_exist message (files mb))
  = true →
  ∃ mb', cleanup env message restart mb = Returned tt mb'
         ∧ final_event message restart ∈ ["update"; "restart"; "shutdown"]%string
         ∧ emitted mb' = emitted mb ++ [final_event message restart]
         ∧ instance mb' = false
         ∧ hasCleanupStarted mb' = false.
Proof.
  intros Hg Hc Hm. unfold cleanup. rewrite Hg.
  unfold closes in Hc. apply andb_true_iff in Hc as [[Hc1 Hc2]%andb_true_iff Hc3].
  unfold cleanupTimeout1. rewrite Hc1, Hc2. unfold stopMatter, stopStorage.
  cbv beta iota. rewrite !bind_modify, bind_get_state.
  destruct (shutdown_plugins_frame message (registeredPlugins mb)
              (set_checkUpdateInterval None
                 (set_processListeners false (set_hasCleanupStarted true mb))))
    as (He & Hi & Hf & Hns & Hnc).
  unfold cleanup_now. cbn [nodeStorage nodeContext set_mattercontrollerContext
    set_matterbridgeContext set_storageManager set_matterServer set_matterAggregator
    set_commissioningServer set_commissioningController set_webSocketServer
    set_expressApp set_httpsServer set_httpServer].
  set (mb0 := shutdown_plugins _ _ _) in *.
  simpl in Hns, Hnc, He, Hf. rewrite Hns, Hnc.
  assert (final_event message restart ∈ ["update"; "restart"; "shutdown"]%string) as Hev.
  { unfold final_event. destruct restart; [|set_solver].
    destruct (String.eqb message "updating..."); set_solver. }
  destruct (defined (nodeStorage mb) && defined (nodeContext mb)) eqn:Hn.
  - rewrite orb_false_r in Hc3. rewrite Hc3. cbv beta iota.
    repeat (first [rewrite bind_assoc | rewrite bind_modify]; cbv beta).
    match goal with |- ∃ _, cleanupTimeout2 _ _ ?m = _ ∧ _ =>
      destruct (cleanupTimeout2_announces message restart m) as (mb' & E & H1 & H2 & H3)
    end.
    { destruct restart; [done|]. revert Hm. unfold reset_paths_exist. simpl.
      rewrite Hf. clear.
      destruct (String.eqb message "shutting down with factory reset...");
        [|done].
      rewrite !andb_true_iff. intuition. }
    exists mb'. split_and!; try done. rewrite H1. simpl. by rewrite He.
  - cbv beta iota. rewrite bind_ret, !bind_modify. cbv beta.
    match goal with |- ∃ _, cleanupTimeout2 _ _ ?m = _ ∧ _ =>
      destruct (cleanupTimeout2_announces message restart m) as (mb' & E & H1 & H2 & H3)
    end.
    { destruct restart; [done|]. simpl. by rewrite Hf. }
    exists mb'. split_and!; try done. rewrite H1. simpl. by rewrite He.
Qed.

Lemma cleanup_announces_once_witness :
  hasCleanupStarted configured_A = false
  ∧ closes all_ok configured_A = true
  ∧ reset_paths_exist "shutting down with factory reset..." (files configured_A) = true
  ∧ ∃ mb', cleanup all_ok "shutting down with factory reset..." false configured_A
           = Returned tt mb'
           ∧ final_event "shutting down with factory reset..." false
             ∈ ["update"; "restart"; "shutdown"]%string
           ∧ emitted mb'
             = emitted configured_A
               ++ [final_event "shutting down with factory reset..." false]
           ∧ instance mb' = false
           ∧ hasCleanupStarted mb' = false.
Proof.
  split; [vm_compute; reflexivity|].
  split; [vm_compute; reflexivity|].
  split; [vm_compute; reflexivity|].
  apply (cleanup_announces_once all_ok "shutting down with factory reset..." false
           configured_A); vm_compute; reflexivity.
Defined.

(** ** The device counters *)

Section Keeps.
Context {I : Matterbridge → Prop}.

Lemma keeps_ret {A} (a : A) : keeps I (ret a).
Proof. by intros mb. Qed.

Lemma keeps_throw {A} : keeps I (@throw A).
Proof. by intros mb. Qed.

Lemma keeps_exit {A} code : keeps I (@process_exit A code).
Proof. by intros mb. Qed.

Lemma keeps_get_state : keeps I get_state.
Proof. by intros mb. Qed.

Lemma keeps_plugin_at i : keeps I (plugin_at i).
Proof. intros mb. unfold plugin_at. by destruct (registeredPlugins mb !! i). Qed.

Lemma keeps_modify f : (∀ mb, I mb → I (f mb)) → keeps I (modify f).
Proof. intros H mb. apply H. Qed.

Lemma keeps_bind {A B} (m : M A) (k : A → M B) :
  keeps I m → (∀ a, keeps I (k a)) → keeps I (bind m k).
Proof.
  intros Hm Hk mb Hmb. specialize (Hm mb Hmb). unfold bind.
  destruct (m mb) as [a mb'| |]; simpl in *; [by apply Hk | done | done].
Qed.

Lemma keeps_when b m : keeps I m → keeps I (when b m).
Proof. destruct b; [done|]. intros _. apply keeps_ret. Qed.

Lemma keeps_storage_get ctx key d : keeps I (storage_get ctx key d).
Proof.
  intros mb. unfold storage_get. destruct (storageManager mb); [|done].
  destruct (ctx_get ctx key _); [done|]. by destruct d.
Qed.

Lemma keeps_storage_set ctx key v :
  (∀ mb sm, I mb → I (set_storageManager sm mb)) →
  keeps I (storage_set ctx key v).
Proof.
  intros H mb Hmb. unfold storage_set. destruct (storageManager mb); [|done].
  by apply H.
Qed.
End Keeps.

Lemma fmap_alter_same {A B} (g : A → B) (f : A → A) i (l : list A) :
  (∀ x, g (f x) = g x) → g <$> alter f i l = g <$> l.
Proof.
  intros Hf. revert i. induction l as [|x l IH]; intros [|i]; simpl; [done..| |].
  - by rewrite Hf.
  - f_equal. apply IH.
Qed.

Lemma kept_alter f i (ps : list RegisteredPlugin) :
  (∀ p, kept (f p) = kept p) → kept <$> alter f i ps = kept <$> ps.
Proof. apply fmap_alter_same. Qed.

Lemma same_plugins_refl mb : same_plugins mb mb.
Proof. done. Qed.

Lemma same_plugins_update mb0 i f mb :
  (∀ p, kept (f p) = kept p) →
  same_plugins mb0 mb → same_plugins mb0 (update_plugin i f mb).
Proof.
  intros Hf (H1 & H2 & H3). split_and!; [done | done |].
  rewrite plugins_update_plugin, kept_alter; done.
Qed.

Lemma same_plugins_server mb0 key mb :
  same_plugins mb0 mb → same_plugins mb0 (addCommissioningServer key mb).
Proof. unfold addCommissioningServer. by destruct (matterServer mb). Qed.

Ltac keeps_same :=
  repeat
    first
      [ assumption
      | match goal with H : ∀ mb0 : Matterbridge, _ |- _ => apply H end
      | apply keeps_ret | apply keeps_throw | apply keeps_exit | apply keeps_get_state
      | apply keeps_plugin_at | apply keeps_storage_get
      | apply keeps_storage_set; intros ? ? H; exact H
      | apply keeps_bind; [|intros ?]
      | apply keeps_when
      | apply keeps_modify; intros ? ?;
        first [ by apply same_plugins_update | by apply same_plugins_server | done ]
      | match goal with
        | |- keeps _ (if ?b then _ else _) => destruct b
        | |- keeps _ (match ?x with _ => _ end) => destruct x
        end ].

Lemma createCommissioningServerContext_keeps mb0 r n dn dt vi vn pi pn :
  keeps (same_plugins mb0) (createCommissioningServerContext r n dn dt vi vn pi pn).
Proof. unfold createCommissioningServerContext, set_value. keeps_same. Qed.

Lemma importCommissioningServerContext_keeps mb0 n d :
  keeps (same_plugins mb0) (importCommissioningServerContext n d).
Proof. unfold importCommissioningServerContext, set_value. keeps_same. Qed.

Lemma createCommisioningServer_keeps mb0 c n :
  keeps (same_plugins mb0) (createCommisioningServer c n).
Proof. unfold createCommisioningServer. keeps_same. Qed.

Lemma createMatterAggregator_keeps mb0 r c n :
  keeps (same_plugins mb0) (createMatterAggregator r c n).
Proof. unfold createMatterAggregator, set_value. keeps_same. Qed.

Lemma add_first_accessory_keeps mb0 i d :
  keeps (same_plugins mb0) (add_first_accessory i d).
Proof.
  unfold add_first_accessory.
  pose proof importCommissioningServerContext_keeps.
  pose proof createCommisioningServer_keeps.
  keeps_same.
Qed.

Lemma add_first_dynamic_keeps mb0 env i :
  keeps (same_plugins mb0) (add_first_dynamic env i).
Proof.
  unfold add_first_dynamic.
  pose proof createCommissioningServerContext_keeps.
  pose proof createCommisioningServer_keeps.
  pose proof createMatterAggregator_keeps.
  keeps_same.
Qed.

Lemma findPlugin_intro pluginName mb i p :
  findIndex pluginName (registeredPlugins mb) = Some i →
  registeredPlugins mb !! i = Some p →
  findPlugin pluginName mb = Some (i, p).
Proof. unfold findPlugin. intros -> Hp. simpl. by rewrite Hp. Qed.

Lemma kept_lookup (ps ps' : list RegisteredPlugin) j q :
  kept <$> ps' = kept <$> ps → ps !! j = Some q →
  ∃ q', ps' !! j = Some q' ∧ kept q' = kept q.
Proof.
  intros E Hq.
  assert ((kept <$> ps') !! j = Some (kept q)) as H.
  { rewrite E, list_lookup_fmap, Hq. done. }
  rewrite list_lookup_fmap in H.
  destruct (ps' !! j) as [q'|]; [|done]. simpl in H.
  exists q'. split; [done|]. congruence.
Qed.

Lemma findIndex_names pluginName : ∀ ps ps' : list RegisteredPlugin,
  Plugin.name <$> ps' = Plugin.name <$> ps →
  findIndex pluginName ps' = findIndex pluginName ps.
Proof.
  induction ps as [|p ps IH]; intros [|p' ps']; simpl; try done.
  intros [= Hn E]. rewrite Hn. by rewrite (IH ps' E).
Qed.

Lemma names_of_kept (ps ps' : list RegisteredPlugin) :
  kept <$> ps' = kept <$> ps → Plugin.name <$> ps' = Plugin.name <$> ps.
Proof.
  intros E. apply (f_equal (fmap (λ k, k.1.1.1.1))) in E.
  by rewrite <- !list_fmap_compose in E.
Qed.

(** The part of [addBridgedDevice] between the lookup of the plugin and
    the registration of the device keeps the plugins' names, types,
    connection flags and counters. *)
Lemma attach_keeps mb0 env i (device : MatterbridgeDevice) mode :
  keeps (same_plugins mb0)
    (when (BridgeMode_eqb mode childbridge)
       (plugin ←ᴶ plugin_at i ;
        when (String.eqb (Plugin.type plugin) "AccessoryPlatform"
              && negb (truthy (Plugin.locked plugin)))
          (add_first_accessory i device) ;ᴶ
        plugin ←ᴶ plugin_at i ;
        when (String.eqb (Plugin.type plugin) "DynamicPlatform")
          (when (negb (truthy (Plugin.locked plugin))) (add_first_dynamic env i) ;ᴶ
           modify (update_plugin i (aggregator_add (deviceId device)))))%js).
Proof.
  pose proof add_first_accessory_keeps.
  pose proof add_first_dynamic_keeps.
  keeps_same.
Qed.

Lemma aggregator_keeps mb0 (device : MatterbridgeDevice) mode :
  keeps (same_plugins mb0)
    (when (BridgeMode_eqb mode bridge)
       (modify (λ mb, set_matterAggregator
                        (Aggregator.addBridgedDevice (deviceId device)
                           <$> matterAggregator mb) mb))).
Proof.
  apply keeps_when, keeps_modify. intros mb (H1 & H2 & H3).
  split_and!; [done | | done]. simpl. rewrite <- H2.
  by destruct (matterAggregator mb).
Qed.

(** Two steps that keep a property, followed by two updates. *)
Lemma two_steps_then_modify {A B} (I : Matterbridge → Prop) (m1 : M A) (m2 : M B)
    (f g : Matterbridge → Matterbridge) mb :
  keeps I m1 → keeps I m2 → I mb →
  let m := (m1 ;ᴶ m2 ;ᴶ modify f ;ᴶ modify g)%js in
  ∃ mb1, I mb1
    ∧ (m mb = Returned tt (g (f mb1))
       ∨ ((∀ x, m mb ≠ Returned tt x) ∧ final (m mb) = mb1)).
Proof.
  intros H1 H2 Hmb m. subst m. specialize (H1 mb Hmb). unfold bind.
  destruct (m1 mb) as [a mb1| mb1 | c mb1]; simpl in H1;
    [|exists mb1; split; [done|]; right; split; [by intros x|done]..].
  specialize (H2 mb1 H1).
  destruct (m2 mb1) as [b mb2| mb2 | c mb2]; simpl in H2;
    [|exists mb2; split; [done|]; right; split; [by intros x|done]..].
  exists mb2. split; [done|]. by left.
Qed.

(** [addBridgedDevice] for a registered plugin, past its first guard:
    either it returns, and then the device is registered and counted on a
    bridge whose plugins are otherwise as before, or it ends early with the
    plugins as before. *)
Lemma addBridgedDevice_outcome env pluginName device mb i p :
  findPlugin pluginName mb = Some (i, p) →
  BridgeMode_eqb (bridgeMode mb) bridge && negb (defined (matterAggregator mb)) = false →
  ∃ mb1, same_plugins mb mb1
    ∧ (addBridgedDevice env pluginName device mb
       = Returned tt (update_plugin i count_up (push_device pluginName device mb1))
       ∨ ((∀ x, addBridgedDevice env pluginName device mb ≠ Returned tt x)
          ∧ final (addBridgedDevice env pluginName device mb) = mb1)).
Proof.
  intros Hfind Hguard. unfold addBridgedDevice.
  rewrite bind_get_state, Hguard, Hfind.
  apply (two_steps_then_modify (same_plugins mb)).
  - apply aggregator_keeps.
  - apply attach_keeps.
  - apply same_plugins_refl.
Qed.

Lemma counters_kept mb0 mb i p :
  same_plugins mb0 mb → registeredPlugins mb0 !! i = Some p →
  ∃ q, registeredPlugins mb !! i = Some q ∧ kept q = kept p.
Proof. intros (_ & _ & E) Hp. by eapply kept_lookup. Qed.

Lemma counters_count_up i mb q :
  registeredPlugins mb !! i = Some q →
  counters i (update_plugin i count_up mb)
  = Some (incr (Plugin.registeredDevices q), incr (Plugin.addedDevices q)).
Proof. intros Hq. unfold counters. by rewrite lookup_update_plugin, Hq. Qed.

Lemma counters_count_down i mb q :
  registeredPlugins mb !! i = Some q →
  counters i (update_plugin i count_down mb)
  = Some (decr (Plugin.registeredDevices q), decr (Plugin.addedDevices q)).
Proof. intros Hq. unfold counters. by rewrite lookup_update_plugin, Hq. Qed.

(** [removeBridgedDevice] for a registered plugin: it returns, and the two
    counters of the plugin have gone down by one if the call got past its
    guards, and are untouched otherwise. *)
Lemma removeBridgedDevice_counters pluginName device mb i p :
  findPlugin pluginName mb = Some (i, p) →
  ∃ mb', removeBridgedDevice pluginName device mb = Returned tt mb'
    ∧ counters i mb'
      = if removable (bridgeMode mb) p
           && negb (BridgeMode_eqb (bridgeMode mb) bridge
                    && negb (defined (matterAggregator mb)))
        then Some (decr (Plugin.registeredDevices p), decr (Plugin.addedDevices p))
        else counters i mb.
Proof.
  intros Hfind. destruct (findPlugin_Some _ _ _ _ Hfind) as (_ & Hp & _).
  unfold removeBridgedDevice. rewrite bind_get_state, Hfind.
  destruct (bridgeMode mb) eqn:Hmode; simpl.
  - destruct (defined (matterAggregator mb)); simpl; [|eauto].
    eexists. split; [reflexivity|]. simpl.
    unfold counters. simpl. by rewrite list_lookup_alter_eq, Hp.
  - destruct (defined (Plugin.aggregator p)); simpl; [|eauto].
    destruct (truthy (Plugin.connected p)); simpl; [|eauto].
    destruct (negb (String.eqb (Plugin.type p) "AccessoryPlatform")
              && String.eqb (Plugin.type p) "DynamicPlatform");
      (eexists; split; [reflexivity|]); unfold counters; simpl.
    + by rewrite !list_lookup_alter_eq, Hp.
    + by rewrite !list_lookup_alter_eq, Hp.
  - eauto.
  - eauto.
Qed.

Lemma decr_incr x : decr (incr x) = x.
Proof. destruct x as [n|]; simpl; [f_equal; lia | done]. Qed.

(** C5, amended. For a registered plugin whose two counters are defined:
    every [addBridgedDevice] and every [removeBridgedDevice] changes both
    counters by the same amount (by one, or not at all); and after an
    [addBridgedDevice] that returns, [removeBridgedDevice] of the same
    device returns, with both counters back at their values before the add if
    the bridge is in bridge mode, or is in childbridge mode and the plugin has
    an aggregator and is connected; otherwise the remove returns at one of
    its guards and leaves both counters as the add left them. *)
Theorem counters_after_add_and_remove (env : AddEnv) (pluginName : string)
    (device : MatterbridgeDevice) (mb : Matterbridge) (i : nat) (p : RegisteredPlugin)
    (r a : Z) :
  findPlugin pluginName mb = Some (i, p) →
  Plugin.registeredDevices p = Some r →
  Plugin.addedDevices p = Some a →
  (∃ δ, (δ = 0 ∨ δ = 1)
        ∧ counters i (final (addBridgedDevice env pluginName device mb))
          = Some (Some (r + δ), Some (a + δ)))
  ∧ (∃ δ, (δ = 0 ∨ δ = -1)
          ∧ counters i (final (removeBridgedDevice pluginName device mb))
            = Some (Some (r + δ), Some (a + δ)))
  ∧ (∀ mb1, addBridgedDevice env pluginName device mb = Returned tt mb1 →
       ∃ mb2 p1,
         removeBridgedDevice pluginName device mb1 = Returned tt mb2
         ∧ registeredPlugins mb1 !! i = Some p1
         ∧ counters i mb2
           = if removable (bridgeMode mb) p1
             then Some (Some r, Some a)
             else counters i mb1).
Proof.
  intros Hfind Hr Ha.
  destruct (findPlugin_Some _ _ _ _ Hfind) as (Hidx & Hp & Hname).
  assert (counters i mb = Some (Some r, Some a)) as Hc0.
  { unfold counters. by rewrite Hp, <- Hr, <- Ha. }
  split_and!.
  - (* add *)
    destruct (BridgeMode_eqb (bridgeMode mb) bridge
              && negb (defined (matterAggregator mb))) eqn:Hguard.
    { exists 0. split; [auto|]. unfold addBridgedDevice.
      rewrite bind_get_state, Hguard. simpl. rewrite Hc0. repeat f_equal; lia. }
    destruct (addBridgedDevice_outcome env _ device _ _ _ Hfind Hguard)
      as (mb1 & Hsame & [E | [_ E]]).
    + destruct (counters_kept _ _ _ _ Hsame Hp) as (q & Hq & [= _ _ _ Hqr Hqa]).
      exists 1. split; [auto|]. rewrite E. simpl.
      rewrite (counters_count_up i _ q) by done.
      by rewrite Hqr, Hqa, Hr, Ha.
    + destruct (counters_kept _ _ _ _ Hsame Hp) as (q & Hq & [= _ _ _ Hqr Hqa]).
      exists 0. split; [auto|]. rewrite E. unfold counters. rewrite Hq. simpl.
      rewrite Hqr, Hqa, Hr, Ha. repeat f_equal; lia.
  - (* remove *)
    destruct (removeBridgedDevice_counters pluginName device mb i p Hfind)
      as (mb' & -> & Hc). simpl. rewrite Hc.
    destruct (removable (bridgeMode mb) p && _).
    + exists (-1). split; [auto|]. rewrite Hr, Ha. simpl. repeat f_equal; lia.
    + exists 0. split; [auto|]. rewrite Hc0. repeat f_equal; lia.
  - (* add, then remove *)
    intros mb1 Hadd.
    destruct (BridgeMode_eqb (bridgeMode mb) bridge
              && negb (defined (matterAggregator mb))) eqn:Hguard.
    { revert Hadd. unfold addBridgedDevice.
      rewrite bind_get_state, Hguard. intros [= <-].
      destruct (removeBridgedDevice_counters pluginName device mb i p Hfind)
        as (mb' & Hrem & Hc).
      exists mb', p. split_and!; [done | done |]. rewrite Hc, Hguard, andb_false_r.
      rewrite Hc0. apply andb_true_iff in Hguard as [Hb _].
      destruct (bridgeMode mb); try done. }
    destruct (addBridgedDevice_outcome env _ device _ _ _ Hfind Hguard)
      as (mb' & Hsame & [E | [E _]]); [|by destruct (E mb1)].
    rewrite E in Hadd. injection Hadd as <-.
    destruct (counters_kept _ _ _ _ Hsame Hp) as (q & Hq & Hkept).
    pose proof Hkept as [= Hqn Hqt Hqc Hqr Hqa].
    destruct Hsame as (Hmode & Hagg & Hk).
    set (mb1 := update_plugin i count_up (push_device pluginName device mb')).
    assert (registeredPlugins mb1 !! i = Some (count_up q)) as Hp1.
    { unfold mb1. rewrite lookup_update_plugin. simpl. by rewrite Hq. }
    assert (findPlugin pluginName mb1 = Some (i, count_up q)) as Hfind1.
    { apply findPlugin_intro; [|done].
      rewrite (findIndex_names pluginName (registeredPlugins mb)); [done|].
      unfold mb1. rewrite plugins_update_plugin, fmap_alter_same; [|done].
      by apply names_of_kept. }
    destruct (removeBridgedDevice_counters pluginName device mb1 i _ Hfind1)
      as (mb2 & Hrem & Hc).
    exists mb2, (count_up q). split_and!; [done | done |].
    rewrite Hc. change (bridgeMode mb1) with (bridgeMode mb').
    change (matterAggregator mb1) with (matterAggregator mb').
    rewrite Hmode, Hagg.
    replace (negb (BridgeMode_eqb (bridgeMode mb) bridge
                   && negb (defined (matterAggregator mb)))) with true
      by (by rewrite Hguard).
    rewrite andb_true_r.
    destruct (removable (bridgeMode mb) (count_up q)); [|done].
    simpl. rewrite !decr_incr. by rewrite Hqr, Hqa, Hr, Ha.
Qed.

(** Childbridge mode, a dynamic platform that no controller is connected
    to: the add counts the device, the remove returns at its guard. *)
Lemma remove_without_connection_keeps_count : ¬ add_then_remove_restores_counters.
Proof.
  intros H.
  assert (findPlugin "matterbridge-a" (dynamic_A childbridge)
          = Some (0%nat, loaded_as "DynamicPlatform" plugin_A)) as Hfind
    by (vm_compute; reflexivity).
  specialize (H add_env "matterbridge-a"%string (device_n 1) (dynamic_A childbridge)
                0%nat (loaded_as "DynamicPlatform" plugin_A) 0 0
                Hfind eq_refl eq_refl).
  vm_compute in H. discriminate.
Qed.

Lemma counters_after_add_and_remove_witness :
  findPlugin "matterbridge-a" bridge_A
  = Some (0%nat, loaded_as "DynamicPlatform" plugin_A)
  ∧ Plugin.registeredDevices (loaded_as "DynamicPlatform" plugin_A) = Some 0
  ∧ Plugin.addedDevices (loaded_as "DynamicPlatform" plugin_A) = Some 0
  ∧ ∃ mb2 p1,
      removeBridgedDevice "matterbridge-a" (device_n 1)
        (final (addBridgedDevice add_env "matterbridge-a" (device_n 1) bridge_A))
      = Returned tt mb2
      ∧ registeredPlugins
          (final (addBridgedDevice add_env "matterbridge-a" (device_n 1) bridge_A))
        !! 0%nat = Some p1
      ∧ counters 0 mb2
        = if removable (bridgeMode bridge_A) p1
          then Some (Some 0, Some 0)
          else counters 0
                 (final (addBridgedDevice add_env "matterbridge-a" (device_n 1)
                           bridge_A)).
Proof.
  assert (findPlugin "matterbridge-a" bridge_A
          = Some (0%nat, loaded_as "DynamicPlatform" plugin_A)) as Hfind
    by (vm_compute; reflexivity).
  split; [exact Hfind|]. split; [reflexivity|]. split; [reflexivity|].
  apply (proj2 (proj2 (counters_after_add_and_remove add_env "matterbridge-a"
                         (device_n 1) bridge_A 0%nat
                         (loaded_as "DynamicPlatform" plugin_A) 0 0
                         Hfind eq_refl eq_refl))).
  vm_compute. reflexivity.
Defined.

(** * Further properties *)

(** ** Lifecycle flags only rise *)

Lemma risen_refl p : risen p p.
Proof. by repeat split. Qed.

Lemma risen_trans p1 p2 p3 : risen p1 p2 → risen p2 p3 → risen p1 p3.
Proof. unfold risen. intuition. Qed.

Lemma Forall2_risen_refl ps : Forall2 risen ps ps.
Proof. apply Forall2_same_length_lookup. split; [done|]. intros i p q -> [= <-]. apply risen_refl. Qed.

Lemma Forall2_risen_trans ps1 ps2 ps3 :
  Forall2 risen ps1 ps2 → Forall2 risen ps2 ps3 → Forall2 risen ps1 ps3.
Proof.
  intros H. revert ps3. induction H as [|p q ps qs Hpq _ IH]; intros ps3 H3.
  - by inversion H3.
  - inversion H3; subst. constructor; [by eapply risen_trans | by apply IH].
Qed.

Lemma risen_alter f i ps :
  (∀ p, risen p (f p)) → Forall2 risen ps (alter f i ps).
Proof.
  intros Hf. revert i. induction ps as [|p ps IH]; intros [|i]; simpl.
  - constructor.
  - constructor.
  - constructor; [apply Hf | apply Forall2_risen_refl].
  - constructor; [apply risen_refl | apply IH].
Qed.

Lemma risen_set_error p : risen p (Plugin.set_error (Some true) p).
Proof. by repeat split. Qed.

Lemma risen_set_started p : risen p (Plugin.set_started (Some true) p).
Proof. by repeat split. Qed.

Lemma risen_set_configured p : risen p (Plugin.set_configured (Some true) p).
Proof. by repeat split. Qed.

Lemma risen_loaded pkg pf config schema p :
  risen p (Plugin.set_schemaJson (Some schema) (loaded_plugin pkg pf config p)).
Proof. by repeat split. Qed.

Lemma configurePlugin_rises i answer mb :
  Forall2 risen (registeredPlugins mb) (registeredPlugins (configurePlugin i answer mb).1).
Proof.
  unfold configurePlugin.
  destruct (registeredPlugins mb !! i) as [p|]; [|apply Forall2_risen_refl].
  destruct (_ || _); [apply Forall2_risen_refl|].
  destruct (truthy (Plugin.configured p)); [apply Forall2_risen_refl|].
  destruct answer; simpl; [|apply Forall2_risen_refl].
  apply risen_alter, risen_set_error.
Qed.

Lemma startPlugin_rises i message configure answer mb :
  Forall2 risen (registeredPlugins mb)
    (registeredPlugins (startPlugin i message configure answer mb).1).
Proof.
  unfold startPlugin.
  destruct (registeredPlugins mb !! i) as [p|]; [|apply Forall2_risen_refl].
  destruct (_ || _); [apply Forall2_risen_refl|].
  destruct (truthy (Plugin.started p)); [apply Forall2_risen_refl|].
  destruct answer; simpl; [|apply Forall2_risen_refl].
  apply risen_alter, risen_set_error.
Qed.

Lemma startPlugin_settled_rises i configure st answer mb :
  Forall2 risen (registeredPlugins mb)
    (registeredPlugins (startPlugin_settled i configure st answer mb).1).
Proof.
  unfold startPlugin_settled. destruct st.
  - destruct configure; simpl; [|apply risen_alter, risen_set_started].
    eapply Forall2_risen_trans; [|apply configurePlugin_rises].
    apply risen_alter, risen_set_started.
  - apply risen_alter, risen_set_error.
Qed.

Lemma configurePlugin_settled_rises i st mb :
  Forall2 risen (registeredPlugins mb)
    (registeredPlugins (configurePlugin_settled i st mb)).
Proof.
  unfold configurePlugin_settled.
  destruct st; apply risen_alter; [apply risen_set_configured | apply risen_set_error].
Qed.

Lemma loadPlugin_body_rises i start message env answer mb :
  Forall2 risen (registeredPlugins mb)
    (registeredPlugins (loadPlugin_body i start message env answer mb).1.1).
Proof.
  unfold loadPlugin_body.
  destruct (import env) as [|pkg|pkg ty config schema]; simpl;
    try (apply risen_alter, risen_set_error).
  set (pf := Platform.Build _ _ _ _).
  assert (Forall2 risen (registeredPlugins mb)
            (alter (Plugin.set_schemaJson (Some schema))
               i (alter (loaded_plugin pkg pf config) i (registeredPlugins mb)))) as H1.
  { rewrite list_alter_alter_eq. apply risen_alter. intros p. apply risen_loaded. }
  destruct (defined (nodeContext mb) && negb (persist_ok env)); simpl.
  { eapply Forall2_risen_trans; [exact H1|]. apply risen_alter, risen_set_error. }
  destruct start; simpl.
  - match goal with
    | |- context [startPlugin i ?m false answer ?s] =>
        pose proof (startPlugin_rises i m false answer s) as H2;
        destruct (startPlugin i m false answer s) as [mb3 ps]
    end.
    simpl in *. rewrite plugins_persist_plugins in H2.
    eapply Forall2_risen_trans; [exact H1 | exact H2].
  - by rewrite plugins_persist_plugins.
Qed.

Lemma step_rises op s :
  Forall2 risen (registeredPlugins (mbridge s)) (registeredPlugins (mbridge (step op s))).
Proof.
  destruct op as [i start m | i m c a | i a | k env a | k st a | k st]; simpl.
  - destruct (registeredPlugins (mbridge s) !! i) as [p|]; [|apply Forall2_risen_refl].
    destruct (loadPlugin_guard p); apply Forall2_risen_refl.
  - pose proof (startPlugin_rises i m c a (mbridge s)).
    by destruct (startPlugin i m c a (mbridge s)).
  - pose proof (configurePlugin_rises i a (mbridge s)).
    by destruct (configurePlugin i a (mbridge s)).
  - destruct (pending s !! k) as [[i start m| |]|]; try apply Forall2_risen_refl.
    pose proof (loadPlugin_body_rises i start m env a (mbridge s)).
    by destruct (loadPlugin_body i start m env a (mbridge s)) as [[] ?].
  - destruct (pending s !! k) as [[|i c|]|]; try apply Forall2_risen_refl.
    pose proof (startPlugin_settled_rises i c st a (mbridge s)).
    by destruct (startPlugin_settled i c st a (mbridge s)).
  - destruct (pending s !! k) as [[| |i]|]; try apply Forall2_risen_refl.
    apply configurePlugin_settled_rises.
Qed.

(** X1. Whatever calls of [loadPlugin], [startPlugin], [configurePlugin]
    and settlements of their promises happen, in whatever order, the registry
    keeps its length and no plugin loses a flag: [error], [loaded], [started]
    and [configured] stay true once they are true. In particular a plugin in
    error stays in error. *)
Theorem flags_only_rise (ops : list Op) (s : Sched) :
  Forall2 risen (registeredPlugins (mbridge s))
    (registeredPlugins (mbridge (run ops s))).
Proof.
  revert s. induction ops as [|op ops IH]; intros s; simpl.
  - apply Forall2_risen_refl.
  - eapply Forall2_risen_trans; [apply step_rises | apply IH].
Qed.

(** ** More on the shutdown coordinator *)

Lemma set_hookCalls_id mb : set_hookCalls (hookCalls mb) mb = mb.
Proof. by destruct mb. Qed.

(** The loop over the plugins only adds to the list of hook calls. *)
Lemma shutdown_plugins_calls message ps : ∀ mb,
  shutdown_plugins message ps mb
  = set_hookCalls (hookCalls mb ++ shutdown_calls message ps) mb.
Proof.
  unfold shutdown_calls.
  induction ps as [|p ps IH]; intros mb; simpl.
  { by rewrite app_nil_r, set_hookCalls_id. }
  destruct (shuts_down p) eqn:Hs.
  - rewrite filter_cons_True by done.
    unfold shuts_down, running_plugin in Hs.
    apply andb_true_iff in Hs as [[He Hr]%andb_true_iff Hp].
    apply negb_true_iff in Hr. rewrite He, Hr, Hp. simpl.
    rewrite IH. simpl. by rewrite <- app_assoc.
  - rewrite filter_cons_False by (by rewrite Hs).
    unfold shuts_down, running_plugin in Hs.
    destruct (truthy (Plugin.enabled p)); simpl in *; [|apply IH].
    destruct (truthy (Plugin.error p)); simpl in *; [apply IH|].
    rewrite Hs. apply IH.
Qed.

(** A [cleanup] that passes its guard and whose collaborators close hands
    this bridge over to its second timeout. *)
Lemma cleanup_hands_over env message restart mb :
  hasCleanupStarted mb = false →
  closes env mb = true →
  ∃ mb1,
    cleanup env message restart mb = cleanupTimeout2 message restart mb1
    ∧ registeredPlugins mb1 = [] ∧ registeredDevices mb1 = []
    ∧ matterServer mb1 = None ∧ matterAggregator mb1 = None
    ∧ commissioningServer mb1 = None ∧ commissioningController mb1 = None
    ∧ storageManager mb1 = None
    ∧ matterbridgeContext mb1 = None ∧ mattercontrollerContext mb1 = None
    ∧ httpServer mb1 = None ∧ httpsServer mb1 = None
    ∧ expressApp mb1 = None ∧ webSocketServer mb1 = None
    ∧ checkUpdateInterval mb1 = None ∧ processListeners mb1 = false
    ∧ hookCalls mb1 = hookCalls mb ++ shutdown_calls message (registeredPlugins mb)
    ∧ emitted mb1 = emitted mb ∧ instance mb1 = instance mb
    ∧ hasCleanupStarted mb1 = true
    ∧ nodeStorage mb1 = (if node_open mb then None else nodeStorage mb)
    ∧ nodeContext mb1 = (if node_open mb then None else nodeContext mb)
    ∧ files mb1
      = (if node_open mb
         then {| matterbridge_json := matterbridge_json (files mb);
                 storage := Some (saved_devices mb) |}
         else files mb).
Proof.
  intros Hg Hc. unfold cleanup. rewrite Hg.
  unfold closes in Hc. apply andb_true_iff in Hc as [[Hc1 Hc2]%andb_true_iff Hc3].
  unfold cleanupTimeout1. rewrite Hc1, Hc2. unfold stopMatter, stopStorage.
  cbv beta iota. rewrite !bind_modify, bind_get_state.
  unfold cleanup_now. rewrite shutdown_plugins_calls.
  cbn [nodeStorage nodeContext set_mattercontrollerContext
    set_matterbridgeContext set_storageManager set_matterServer set_matterAggregator
    set_commissioningServer set_commissioningController set_webSocketServer
    set_expressApp set_httpsServer set_httpServer set_hookCalls set_checkUpdateInterval
    set_processListeners set_hasCleanupStarted].
  fold (node_open mb). fold (node_open mb) in Hc3.
  destruct (node_open mb) eqn:Hn.
  - rewrite orb_false_r in Hc3. rewrite Hc3. cbv beta iota.
    repeat (first [rewrite bind_assoc | rewrite bind_modify]; cbv beta).
    eexists. split; [reflexivity|]. simpl. split_and!; done.
  - cbv beta iota. rewrite bind_ret, !bind_modify. cbv beta.
    eexists. split; [reflexivity|]. simpl. split_and!; done.
Qed.

(** The second timeout touches nothing but the files, the emitted events,
    the instance handle and the guard. *)
Lemma cleanupTimeout2_frame message restart mb :
  let mb' := final (cleanupTimeout2 message restart mb) in
  registeredPlugins mb' = registeredPlugins mb
  ∧ registeredDevices mb' = registeredDevices mb
  ∧ matterServer mb' = matterServer mb ∧ matterAggregator mb' = matterAggregator mb
  ∧ commissioningServer mb' = commissioningServer mb
  ∧ commissioningController mb' = commissioningController mb
  ∧ storageManager mb' = storageManager mb
  ∧ matterbridgeContext mb' = matterbridgeContext mb
  ∧ mattercontrollerContext mb' = mattercontrollerContext mb
  ∧ httpServer mb' = httpServer mb ∧ httpsServer mb' = httpsServer mb
  ∧ expressApp mb' = expressApp mb ∧ webSocketServer mb' = webSocketServer mb
  ∧ checkUpdateInterval mb' = checkUpdateInterval mb
  ∧ processListeners mb' = processListeners mb
  ∧ hookCalls mb' = hookCalls mb
  ∧ nodeStorage mb' = nodeStorage mb ∧ nodeContext mb' = nodeContext mb.
Proof.
  unfold cleanupTimeout2, when, bind, unlink_matterbridge_json, rm_storage, modify, ret.
  destruct restart.
  - destruct (String.eqb message "updating..."); simpl; [done|].
    destruct (String.eqb message "restarting..."); simpl; done.
  - destruct (String.eqb message "shutting down with reset...");
      destruct (String.eqb message "shutting down with factory reset...");
      destruct (matterbridge_json (files mb)); simpl;
      try destruct (storage (files mb)); simpl; done.
Qed.

Lemma cleanupTimeout2_shutdown message mb :
  reset_paths_exist message (files mb) = true →
  ∃ mb', cleanupTimeout2 message false mb = Returned tt mb'
         ∧ emitted mb' = emitted mb ++ ["shutdown"%string]
         ∧ instance mb' = false
         ∧ hasCleanupStarted mb' = false
         ∧ files mb' = after_reset message (files mb).
Proof.
  unfold cleanupTimeout2, reset_paths_exist, after_reset.
  unfold when, bind, unlink_matterbridge_json, rm_storage, modify, ret.
  destruct (String.eqb message "shutting down with reset...") eqn:E1;
    destruct (String.eqb message "shutting down with factory reset...") eqn:E2.
  - apply String.eqb_eq in E1, E2. congruence.
  - rewrite andb_true_r. intros ->. simpl. eexists. split; [reflexivity|]. done.
  - simpl. intros [-> Hs]%andb_true_iff. simpl.
    destruct (storage (files mb)); [|done]. simpl.
    eexists. split; [reflexivity|]. done.
  - intros _. simpl. eexists. split; [reflexivity|]. done.
Qed.

(** X2. A [cleanup] that passes its guard and whose collaborators close
    leaves nothing running: both registries are empty, the protocol engine,
    its storage, the administration listeners and the update timer are gone,
    the signal handlers are detached; and on the way the shutdown hook has
    been called, with the message prefixed by ['Matterbridge is closing: '],
    for exactly the enabled plugins without error that have a platform, in
    registry order. This holds whether or not the second timeout gets to
    emit its event. *)
Theorem cleanup_tears_down (env : CleanupEnv) (message : string) (restart : bool)
    (mb : Matterbridge) :
  hasCleanupStarted mb = false →
  closes env mb = true →
  let mb' := final (cleanup env message restart mb) in
  registeredPlugins mb' = [] ∧ registeredDevices mb' = []
  ∧ matterServer mb' = None ∧ matterAggregator mb' = None
  ∧ commissioningServer mb' = None ∧ commissioningController mb' = None
  ∧ storageManager mb' = None
  ∧ httpServer mb' = None ∧ httpsServer mb' = None
  ∧ expressApp mb' = None ∧ webSocketServer mb' = None
  ∧ checkUpdateInterval mb' = None ∧ processListeners mb' = false
  ∧ hookCalls mb' = hookCalls mb ++ shutdown_calls message (registeredPlugins mb).
Proof.
  intros Hg Hc mb'. subst mb'.
  destruct (cleanup_hands_over env message restart mb Hg Hc)
    as (mb1 & -> & H1 & H2 & H3 & H4 & H5 & H6 & H7 & H8 & H9 & H10 & H11 & H12 & H13
        & H14 & H15 & H16 & _).
  destruct (cleanupTimeout2_frame message restart mb1)
    as (-> & -> & -> & -> & -> & -> & -> & _ & _ & -> & -> & -> & -> & -> & -> & -> & _).
  split_and!; done.
Qed.

Lemma cleanup_tears_down_witness :
  hasCleanupStarted configured_A = false
  ∧ closes all_ok configured_A = true
  ∧ registeredPlugins (final (cleanup all_ok "restarting..." true configured_A)) = []
  ∧ hookCalls (final (cleanup all_ok "restarting..." true configured_A))
    = hookCalls configured_A
      ++ shutdown_calls "restarting..." (registeredPlugins configured_A).
Proof.
  assert (hasCleanupStarted configured_A = false) as Hg by (vm_compute; reflexivity).
  assert (closes all_ok configured_A = true) as Hc by (vm_compute; reflexivity).
  pose proof (cleanup_tears_down all_ok "restarting..." true configured_A Hg Hc) as H.
  split; [exact Hg|]. split; [exact Hc|].
  split; [apply H | apply H].
Defined.

(** X3. A [cleanup] without restart that passes its guard, whose
    collaborators close and whose paths to delete exist, returns with the
    node storage closed and the files as follows: if the node storage was
    open, the serializable registered devices have been saved in registry
    order under [devices], with the saved plugins untouched; then a reset has
    deleted [matterbridge.json], and a factory reset has deleted the storage
    directory as well. *)
Theorem cleanup_saves_then_resets (env : CleanupEnv) (message : string)
    (mb : Matterbridge) :
  hasCleanupStarted mb = false →
  closes env mb = true →
  reset_paths_exist message (after_save mb) = true →
  ∃ mb', cleanup env message false mb = Returned tt mb'
         ∧ files mb' = after_reset message (after_save mb)
         ∧ (node_open mb = true → nodeContext mb' = None ∧ nodeStorage mb' = None).
Proof.
  intros Hg Hc Hp.
  destruct (cleanup_hands_over env message false mb Hg Hc)
    as (mb1 & -> & H). do 19 destruct H as [_ H]. destruct H as (Hns & Hnc & Hf).
  fold (after_save mb) in Hf.
  destruct (cleanupTimeout2_shutdown message mb1) as (mb' & E & _ & _ & _ & Hf').
  { by rewrite Hf. }
  exists mb'. split; [done|]. split; [by rewrite Hf', Hf|].
  intros Hn. rewrite Hn in Hns, Hnc.
  pose proof (cleanupTimeout2_frame message false mb1) as Hfr.
  rewrite E in Hfr. simpl in Hfr.
  do 16 destruct Hfr as [_ Hfr]. destruct Hfr as [-> ->]. done.
Qed.

Lemma cleanup_saves_then_resets_witness :
  hasCleanupStarted configured_A = false
  ∧ closes all_ok configured_A = true
  ∧ reset_paths_exist "shutting down with factory reset..." (after_save configured_A)
    = true
  ∧ ∃ mb', cleanup all_ok "shutting down with factory reset..." false configured_A
           = Returned tt mb'
           ∧ files mb'
             = after_reset "shutting down with factory reset..."
                 (after_save configured_A)
           ∧ (node_open configured_A = true →
              nodeContext mb' = None ∧ nodeStorage mb' = None).
Proof.
  assert (hasCleanupStarted configured_A = false) as Hg by (vm_compute; reflexivity).
  assert (closes all_ok configured_A = true) as Hc by (vm_compute; reflexivity).
  assert (reset_paths_exist "shutting down with factory reset..."
            (after_save configured_A) = true) as Hp by (vm_compute; reflexivity).
  split; [exact Hg|]. split; [exact Hc|]. split; [exact Hp|].
  exact (cleanup_saves_then_resets all_ok "shutting down with factory reset..."
           configured_A Hg Hc Hp).
Defined.

(** *** What the process wrappers announce *)

Lemma keeps_then {A B} (I Q : Matterbridge → Prop) (m : M A) (k : A → M B) :
  keeps I m → (∀ s, I s → Q s) → (∀ a s, I s → Q (final (k a s))) →
  ∀ mb, I mb → Q (final (bind m k mb)).
Proof.
  intros Hm HQ Hk mb Hmb. specialize (Hm mb Hmb). unfold bind.
  destruct (m mb) as [a s| s | c s]; simpl in *; auto.
Qed.

Ltac keeps_by tac :=
  repeat
    first
      [ assumption
      | apply keeps_ret | apply keeps_throw | apply keeps_exit | apply keeps_get_state
      | apply keeps_plugin_at | apply keeps_storage_get
      | apply keeps_storage_set; intros ? ? ?; tac
      | apply keeps_bind; [|intros ?]
      | apply keeps_when
      | apply keeps_modify; intros ? ?; tac
      | match goal with
        | |- keeps _ (if ?b then _ else _) => destruct b
        | |- keeps _ (match ?x with _ => _ end) => destruct x
        end ].

Lemma removeBridgedDevice_keeps_events E pluginName d :
  keeps (λ s, emitted s = E ∧ hasCleanupStarted s = false)
    (removeBridgedDevice pluginName d).
Proof. unfold removeBridgedDevice. keeps_by assumption. Qed.

Lemma remove_each_keeps (I : Matterbridge → Prop) pluginName ds :
  (∀ d, keeps I (removeBridgedDevice pluginName d)) →
  ∀ mb, I mb → I (remove_each pluginName ds mb).
Proof.
  intros H. induction ds as [|rd ds IH]; intros mb Hmb; simpl; [done|].
  apply IH. by apply H.
Qed.

Lemma removeAllBridgedDevices_keeps (I : Matterbridge → Prop) pluginName :
  (∀ d, keeps I (removeBridgedDevice pluginName d)) →
  keeps I (removeAllBridgedDevices pluginName).
Proof.
  intros H mb Hmb. unfold removeAllBridgedDevices.
  destruct (_ && _); simpl; [done|]. by apply remove_each_keeps.
Qed.

Lemma unregister_plugins_keeps (I : Matterbridge → Prop) names :
  (∀ n d, keeps I (removeBridgedDevice n d)) →
  keeps I (unregister_plugins names).
Proof.
  intros H. induction names as [|n names IH]; simpl; [apply keeps_ret|].
  apply keeps_bind; [|done]. by apply removeAllBridgedDevices_keeps.
Qed.

(** The events after the second timeout, however it ends. *)
Lemma cleanupTimeout2_emitted message restart mb :
  emitted (final (cleanupTimeout2 message restart mb)) = emitted mb
  ∨ (emitted (final (cleanupTimeout2 message restart mb))
     = emitted mb ++ [final_event message restart]
     ∧ (restart = true → restart_message message = true)).
Proof.
  unfold cleanupTimeout2, final_event, restart_message.
  unfold when, bind, unlink_matterbridge_json, rm_storage, modify, ret.
  destruct restart.
  - destruct (String.eqb message "updating..."); simpl; [by right|].
    destruct (String.eqb message "restarting..."); simpl; [by right | by left].
  - destruct (String.eqb message "shutting down with reset...");
      destruct (String.eqb message "shutting down with factory reset...");
      destruct (matterbridge_json (files mb)); simpl;
      try destruct (storage (files mb)); simpl;
      first [by left | right; split; [done | intros [=]]].
Qed.

(** The events after a [cleanup], however it ends. *)
Lemma cleanup_emitted env message restart mb :
  emitted (final (cleanup env message restart mb)) = emitted mb
  ∨ (emitted (final (cleanup env message restart mb))
     = emitted mb ++ [final_event message restart]
     ∧ (restart = true → restart_message message = true)).
Proof.
  unfold cleanup. destruct (hasCleanupStarted mb); [by left|].
  assert (emitted (cleanup_now message mb) = emitted mb) as E0.
  { unfold cleanup_now. rewrite shutdown_plugins_calls. done. }
  rewrite <- E0. generalize (cleanup_now message mb). clear E0. intros s0.
  set (Q := λ s, emitted s = emitted s0
                 ∨ (emitted s = emitted s0 ++ [final_event message restart]
                    ∧ (restart = true → restart_message message = true))).
  change (Q (final (cleanupTimeout1 env message restart s0))).
  unfold cleanupTimeout1.
  do 6
    (apply (keeps_then (λ s, emitted s = emitted s0) Q);
     [ unfold stopMatter, stopStorage; keeps_by assumption;
       try (intros ? <-; unfold persist_devices; reflexivity)
     | by left
     | intros ? ? ?
     | first [reflexivity | assumption] ]).
  unfold Q. match goal with H : emitted _ = emitted s0 |- _ => rewrite <- H end.
  apply cleanupTimeout2_emitted.
Qed.

(** X4. However they end, [updateProcess], [shutdownProcess],
    [destroyInstance], [shutdownProcessAndReset],
    [shutdownProcessAndFactoryReset] and [unregisterAndShutdownProcess] emit
    nothing or the one event [shutdown],
    and [restartProcess] emits nothing or the one event [restart]: none of
    them emits [update], not even [updateProcess], which calls [cleanup]
    without the restart flag. *)
Theorem wrappers_never_emit_update (env : CleanupEnv) (mb : Matterbridge) :
  let ends_with (m : M unit) (event : string) :=
    emitted (final (m mb)) = emitted mb
    ∨ emitted (final (m mb)) = emitted mb ++ [event] in
  ends_with (updateProcess env) "shutdown"
  ∧ ends_with (shutdownProcess env) "shutdown"
  ∧ ends_with (destroyInstance env) "shutdown"
  ∧ ends_with (shutdownProcessAndReset env) "shutdown"
  ∧ ends_with (shutdownProcessAndFactoryReset env) "shutdown"
  ∧ ends_with (unregisterAndShutdownProcess env) "shutdown"
  ∧ ends_with (restartProcess env) "restart".
Proof.
  simpl. split_and!.
  - destruct (cleanup_emitted env "updating..." false mb) as [H | [H _]]; auto.
  - destruct (cleanup_emitted env "shutting down..." false mb) as [H | [H _]]; auto.
  - destruct (cleanup_emitted env "shutting down..." false mb) as [H | [H _]]; auto.
  - destruct (cleanup_emitted env "shutting down with reset..." false mb)
      as [H | [H _]]; auto.
  - destruct (cleanup_emitted env "shutting down with factory reset..." false mb)
      as [H | [H _]]; auto.
  - unfold unregisterAndShutdownProcess. rewrite bind_get_state.
    apply (keeps_then (λ s, emitted s = emitted mb)
             (λ s, emitted s = emitted mb ∨ emitted s = emitted mb ++ ["shutdown"%string]));
      [| by left | | done].
    + apply unregister_plugins_keeps. intros n d.
      unfold removeBridgedDevice. keeps_by assumption.
    + intros [] s <-.
      destruct (cleanup_emitted env "unregistered all devices and shutting down..."
                  false s) as [H | [H _]]; auto.
  - destruct (cleanup_emitted env "restarting..." true mb) as [H | [H _]]; auto.
Qed.

(** X5. [updateProcess] on a bridge that is not cleaning up and whose
    collaborators close announces [shutdown]: the event [update] that
    [cleanup] has a branch for is out of reach of its only caller. *)
Theorem updateProcess_announces_shutdown (env : CleanupEnv) (mb : Matterbridge) :
  hasCleanupStarted mb = false →
  closes env mb = true →
  ∃ mb', updateProcess env mb = Returned tt mb'
         ∧ emitted mb' = emitted mb ++ ["shutdown"%string]
         ∧ instance mb' = false
         ∧ files mb' = after_save mb.
Proof.
  intros Hg Hc. unfold updateProcess.
  destruct (cleanup_hands_over env "updating..." false mb Hg Hc)
    as (mb1 & -> & H). do 16 destruct H as [_ H].
  destruct H as (He & _ & _ & _ & _ & Hf). fold (after_save mb) in Hf.
  destruct (cleanupTimeout2_shutdown "updating..." mb1 eq_refl)
    as (mb' & E & H1 & H2 & _ & H3).
  exists mb'. split_and!; [done | by rewrite H1, He | done | by rewrite H3, Hf].
Qed.

Lemma updateProcess_announces_shutdown_witness :
  hasCleanupStarted configured_A = false
  ∧ closes all_ok configured_A = true
  ∧ ∃ mb', updateProcess all_ok configured_A = Returned tt mb'
           ∧ emitted mb' = emitted configured_A ++ ["shutdown"%string]
           ∧ instance mb' = false
           ∧ files mb' = after_save configured_A.
Proof.
  assert (hasCleanupStarted configured_A = false) as Hg by (vm_compute; reflexivity).
  assert (closes all_ok configured_A = true) as Hc by (vm_compute; reflexivity).
  split; [exact Hg|]. split; [exact Hc|].
  exact (updateProcess_announces_shutdown all_ok configured_A Hg Hc).
Defined.

Lemma cleanup_guarded env message restart mb :
  hasCleanupStarted mb = true → cleanup env message restart mb = Returned tt mb.
Proof. intros H. unfold cleanup. by rewrite H. Qed.

(** X6. If the protocol engine, its storage or the save of the devices
    rejects during the first timeout, [cleanup] ends there: no event is
    emitted, the instance handle stays, and the guard stays set, so that
    every later [cleanup] returns at once without doing anything. *)
Theorem cleanup_stuck_after_failed_close (env : CleanupEnv) (message : string)
    (restart : bool) (mb : Matterbridge) :
  hasCleanupStarted mb = false →
  closes env mb = false →
  ∃ mb', cleanup env message restart mb = Threw mb'
         ∧ emitted mb' = emitted mb
         ∧ instance mb' = instance mb
         ∧ hasCleanupStarted mb' = true
         ∧ ∀ env' message' restart',
             cleanup env' message' restart' mb' = Returned tt mb'.
Proof.
  intros Hg Hc. unfold cleanup at 1. rewrite Hg.
  unfold cleanupTimeout1, cleanup_now. rewrite shutdown_plugins_calls.
  unfold closes in Hc. unfold stopMatter, stopStorage.
  destruct (stopMatter_ok env).
  2:{ eexists. split; [reflexivity|]. split_and!; [done | done | done |].
      intros. by apply cleanup_guarded. }
  rewrite bind_modify.
  destruct (stopStorage_ok env).
  2:{ eexists. split; [reflexivity|]. split_and!; [done | done | done |].
      intros. by apply cleanup_guarded. }
  rewrite bind_modify, bind_get_state. simpl in Hc.
  cbn [nodeStorage nodeContext set_mattercontrollerContext
    set_matterbridgeContext set_storageManager set_matterServer set_matterAggregator
    set_commissioningServer set_commissioningController set_webSocketServer
    set_expressApp set_httpsServer set_httpServer set_hookCalls set_checkUpdateInterval
    set_processListeners set_hasCleanupStarted].
  apply orb_false_iff in Hc as [Hs Hn]. apply negb_false_iff in Hn.
  rewrite Hn, Hs. cbv beta iota. rewrite !bind_assoc.
  eexists. split; [reflexivity|]. split_and!; [done | done | done |].
  intros. by apply cleanup_guarded.
Qed.

Lemma cleanup_stuck_after_failed_close_witness :
  hasCleanupStarted configured_A = false
  ∧ closes failing_engine configured_A = false
  ∧ ∃ mb', cleanup failing_engine "shutting down..." false configured_A = Threw mb'
           ∧ emitted mb' = emitted configured_A
           ∧ instance mb' = instance configured_A
           ∧ hasCleanupStarted mb' = true
           ∧ ∀ env' message' restart',
               cleanup env' message' restart' mb' = Returned tt mb'.
Proof.
  assert (hasCleanupStarted configured_A = false) as Hg by (vm_compute; reflexivity).
  assert (closes failing_engine configured_A = false) as Hc by (vm_compute; reflexivity).
  split; [exact Hg|]. split; [exact Hc|].
  exact (cleanup_stuck_after_failed_close failing_engine "shutting down..." false
           configured_A Hg Hc).
Defined.

(** ** More on the startup supervisor *)

(** X7. A poll of the interval, in bridge or childbridge mode, calls
    [startMatterServer] exactly when every enabled plugin is without error,
    loaded and started. It has then cleared the interval without counting a
    failure, and it makes the call on the bridge as it found it; if the
    matter server exists and starts, the call returns with the server
    running and nothing else changed. *)
Theorem poll_starts_exactly_when_ready (env : StartEnv) (iv : Interval)
    (mb : Matterbridge) :
  cleared iv = false →
  bridgeMode mb = bridge ∨ bridgeMode mb = childbridge →
  (calls_startMatterServer (startMatterInterval env iv mb).1.1 = true
   ↔ forallb ready (registeredPlugins mb) = true)
  ∧ (forallb ready (registeredPlugins mb) = true →
     (startMatterInterval env iv mb).1.2
     = {| failCount := failCount iv; cleared := true |}
     ∧ (startMatterInterval env iv mb).1.1
       = CalledStartMatterServer (startMatterServer env mb)
     ∧ ∀ ms, matterServer mb = Some ms → start_ok env = true →
         startMatterServer env mb
         = Returned tt
             (set_matterServer
                (Some {| commissioningServers := commissioningServers ms;
                         running := true |}) mb)).
Proof.
  intros Hc Hmode.
  assert (forallb ready (registeredPlugins mb) = true →
          scan mb (failCount iv) = Some (ScanReady, failCount iv, mb)) as Hready.
  { intros Hr. unfold scan. destruct Hmode as [-> | ->].
    - by rewrite scan_bridge_ready_same.
    - by rewrite scan_childbridge_ready_same. }
  split.
  - split.
    + intros Hcall.
      destruct (forallb ready (registeredPlugins mb)) eqn:Hr; [done|].
      exfalso. revert Hcall. unfold startMatterInterval, scan. rewrite Hc.
      destruct Hmode as [-> | ->].
      * assert ((scan_bridge 0 (registeredPlugins mb) (failCount iv) mb).1.1 ≠ ScanReady)
          as Hn by (rewrite scan_bridge_ready; congruence).
        destruct (scan_bridge 0 (registeredPlugins mb) (failCount iv) mb)
          as [[[] fc] mb']; simpl in *; done.
      * assert ((scan_childbridge 0 (registeredPlugins mb) (failCount iv) true mb).1.1
                ≠ ScanReady) as Hn.
        { rewrite scan_childbridge_ready. intros [_ ?]. congruence. }
        destruct (scan_childbridge 0 (registeredPlugins mb) (failCount iv) true mb)
          as [[[] fc] mb']; simpl in *; done.
    + intros Hr. unfold startMatterInterval. rewrite Hc, (Hready Hr). done.
  - intros Hr. unfold startMatterInterval. rewrite Hc, (Hready Hr).
    split_and!; [done | done |].
    intros ms Hms Hs. unfold startMatterServer. rewrite Hms, Hs. done.
Qed.

Lemma poll_starts_exactly_when_ready_witness :
  cleared fresh_interval = false
  ∧ (bridgeMode configured_A = bridge ∨ bridgeMode configured_A = childbridge)
  ∧ (calls_startMatterServer
       (startMatterInterval start_env fresh_interval configured_A).1.1 = true
     ↔ forallb ready (registeredPlugins configured_A) = true).
Proof.
  split; [reflexivity|]. split; [left; reflexivity|].
  exact (proj1 (poll_starts_exactly_when_ready start_env fresh_interval configured_A
                  eq_refl (or_introl eq_refl))).
Defined.

(** X8. If every enabled plugin is ready but the bridge has no matter
    server, the poll that would start the server shuts the bridge down
    instead: it runs [cleanup], at the end of which the event [shutdown] is
    emitted, the instance handle is cleared and the registries are empty. *)
Theorem poll_without_matter_server_shuts_down (env : StartEnv) (iv : Interval)
    (mb : Matterbridge) :
  cleared iv = false →
  bridgeMode mb = bridge ∨ bridgeMode mb = childbridge →
  forallb ready (registeredPlugins mb) = true →
  matterServer mb = None →
  hasCleanupStarted mb = false →
  closes (cleanup_env env) mb = true →
  ∃ mb',
    startMatterInterval env iv mb
    = (CalledStartMatterServer (Returned tt mb'),
       {| failCount := failCount iv; cleared := true |}, mb')
    ∧ emitted mb' = emitted mb ++ ["shutdown"%string]
    ∧ instance mb' = false
    ∧ registeredPlugins mb' = [] ∧ registeredDevices mb' = [].
Proof.
  intros Hc Hmode Hr Hms Hg Hcl.
  assert (scan mb (failCount iv) = Some (ScanReady, failCount iv, mb)) as Hready.
  { unfold scan. destruct Hmode as [-> | ->].
    - by rewrite scan_bridge_ready_same.
    - by rewrite scan_childbridge_ready_same. }
  unfold startMatterInterval. rewrite Hc, Hready.
  unfold startMatterServer. rewrite Hms.
  destruct (cleanup_hands_over (cleanup_env env) "No matter server initialized" false
              mb Hg Hcl) as (mb1 & -> & Hp & Hd & H).
  do 14 destruct H as [_ H]. destruct H as (He & _).
  destruct (cleanupTimeout2_shutdown "No matter server initialized" mb1 eq_refl)
    as (mb' & E & H1 & H2 & _).
  pose proof (cleanupTimeout2_frame "No matter server initialized" false mb1) as Hfr.
  rewrite E in *. simpl in Hfr. destruct Hfr as (Hfp & Hfd & _).
  exists mb'. simpl. split_and!; [done | by rewrite H1, He | done | congruence | congruence].
Qed.

Lemma poll_without_matter_server_shuts_down_witness :
  cleared fresh_interval = false
  ∧ forallb ready (registeredPlugins (without_matter_server configured_A)) = true
  ∧ matterServer (without_matter_server configured_A) = None
  ∧ ∃ mb',
      startMatterInterval start_env fresh_interval (without_matter_server configured_A)
      = (CalledStartMatterServer (Returned tt mb'),
         {| failCount := failCount fresh_interval; cleared := true |}, mb')
      ∧ emitted mb' = emitted (without_matter_server configured_A) ++ ["shutdown"%string]
      ∧ instance mb' = false
      ∧ registeredPlugins mb' = [] ∧ registeredDevices mb' = [].
Proof.
  assert (forallb ready (registeredPlugins (without_matter_server configured_A)) = true)
    as Hr by (vm_compute; reflexivity).
  assert (hasCleanupStarted (without_matter_server configured_A) = false)
    as Hg by (vm_compute; reflexivity).
  assert (closes (cleanup_env start_env) (without_matter_server configured_A) = true)
    as Hc by (vm_compute; reflexivity).
  split; [reflexivity|]. split; [exact Hr|]. split; [reflexivity|].
  exact (poll_without_matter_server_shuts_down start_env fresh_interval
           (without_matter_server configured_A) eq_refl (or_introl eq_refl)
           Hr eq_refl Hg Hc).
Defined.

(** *** The supervisor gives up *)

Lemma in_error_kept p p' :
  same_or_in_error p p' → in_error p = true → in_error p' = true.
Proof.
  intros [-> | ->]; [done|]. unfold in_error. simpl.
  intros [-> _]%andb_true_iff. done.
Qed.

Lemma ready_back p p' :
  same_or_in_error p p' → ready p' = true → ready p = true.
Proof.
  intros [-> | ->]; [done|]. unfold ready. simpl.
  by destruct (truthy (Plugin.enabled p)).
Qed.

Lemma same_or_in_error_refl ps : Forall2 same_or_in_error ps ps.
Proof.
  apply Forall2_same_length_lookup. split; [done|].
  intros i p q -> [= <-]. by left.
Qed.

Lemma same_or_in_error_trans ps1 ps2 ps3 :
  Forall2 same_or_in_error ps1 ps2 → Forall2 same_or_in_error ps2 ps3 →
  Forall2 same_or_in_error ps1 ps3.
Proof.
  intros H. revert ps3. induction H as [|p q ps qs Hpq _ IH]; intros ps3 H3.
  - by inversion H3.
  - inversion H3 as [|? r ? rs Hqr Hrest]; subst. constructor; [|by apply IH].
    destruct Hpq as [-> | ->]; [done|].
    destruct Hqr as [-> | ->]; by right.
Qed.

Lemma same_or_in_error_alter i ps :
  Forall2 same_or_in_error ps (alter (Plugin.set_error (Some true)) i ps).
Proof.
  revert i. induction ps as [|p ps IH]; intros [|i]; simpl; try constructor.
  - by right.
  - apply same_or_in_error_refl.
  - by left.
  - apply IH.
Qed.

Lemma count_failure_spec k fc mb :
  (count_failure k fc mb).1 = fc + 1
  ∧ bridgeMode (count_failure k fc mb).2 = bridgeMode mb
  ∧ Forall2 same_or_in_error (registeredPlugins mb)
      (registeredPlugins (count_failure k fc mb).2)
  ∧ (30 < fc + 1 →
     registeredPlugins (count_failure k fc mb).2
     = alter (Plugin.set_error (Some true)) k (registeredPlugins mb)).
Proof.
  unfold count_failure. simpl. destruct (30 <? fc + 1) eqn:E; simpl.
  - split_and!; [done | done | apply same_or_in_error_alter | done].
  - apply Z.ltb_ge in E. split_and!; [done | done | apply same_or_in_error_refl | lia].
Qed.

Lemma existsb_in_error_kept ps ps' :
  Forall2 same_or_in_error ps ps' →
  existsb in_error ps = true → existsb in_error ps' = true.
Proof.
  induction 1 as [|p q ps qs Hpq _ IH]; simpl; [done|].
  intros [Hp | Hps]%orb_true_iff.
  - by rewrite (in_error_kept _ _ Hpq Hp).
  - rewrite (IH Hps). apply orb_true_r.
Qed.

Lemma forallb_ready_back ps ps' :
  Forall2 same_or_in_error ps ps' →
  forallb ready ps' = true → forallb ready ps = true.
Proof.
  induction 1 as [|p q ps qs Hpq _ IH]; simpl; [done|].
  intros [Hq Hqs]%andb_true_iff.
  by rewrite (ready_back _ _ Hpq Hq), (IH Hqs).
Qed.

(** The loop of bridge mode when it ends waiting. *)
Lemma scan_bridge_wait ps : ∀ k fc mb fc' mb',
  scan_bridge k ps fc mb = (ScanWait, fc', mb') →
  ∃ l1 p l2,
    ps = l1 ++ p :: l2 ∧ forallb ready l1 = true
    ∧ truthy (Plugin.enabled p) = true
    ∧ (fc', mb') = count_failure (k + length l1) fc mb.
Proof.
  induction ps as [|p ps IH]; intros k fc mb fc' mb'; simpl; [done|].
  unfold not_ready.
  destruct (truthy (Plugin.enabled p)) eqn:He; simpl.
  2:{ intros H. destruct (IH _ _ _ _ _ H) as (l1 & q & l2 & -> & Hl & Hq & Hc).
      exists (p :: l1), q, l2. simpl. unfold ready at 1. rewrite He. simpl.
      split_and!; try done. rewrite Hc. f_equal. lia. }
  destruct (truthy (Plugin.error p)) eqn:Herr; simpl; [done|].
  destruct (truthy (Plugin.loaded p)) eqn:Hl; simpl.
  - destruct (truthy (Plugin.started p)) eqn:Hs; simpl.
    + intros H. destruct (IH _ _ _ _ _ H) as (l1 & q & l2 & -> & Hl1 & Hq & Hc).
      exists (p :: l1), q, l2. simpl. unfold ready at 1. rewrite He, Herr, Hl, Hs. simpl.
      split_and!; try done. rewrite Hc. f_equal. lia.
    + destruct (count_failure k fc mb) as [fc1 mb1] eqn:Hc. intros [= <- <-].
      exists [], p, ps. split_and!; try done. cbn [length]. by rewrite Nat.add_0_r, Hc.
  - destruct (count_failure k fc mb) as [fc1 mb1] eqn:Hc. intros [= <- <-].
    exists [], p, ps. split_and!; try done. cbn [length]. by rewrite Nat.add_0_r, Hc.
Qed.

(** The loop of childbridge mode: the counter never goes down, it goes up
    whenever the loop ends waiting, and once it has passed 30 some enabled
    plugin is in error. *)
Lemma scan_childbridge_wait ps : ∀ k fc all mb,
  (∀ j p, ps !! j = Some p → registeredPlugins mb !! (k + j)%nat = Some p) →
  let r := scan_childbridge k ps fc all mb in
  fc ≤ r.1.2
  ∧ bridgeMode r.2 = bridgeMode mb
  ∧ Forall2 same_or_in_error (registeredPlugins mb) (registeredPlugins r.2)
  ∧ (r.1.1 = ScanWait → all = true → fc < r.1.2)
  ∧ (r.1.1 = ScanWait → fc < r.1.2 → 30 < r.1.2 →
     existsb in_error (registeredPlugins r.2) = true).
Proof.
  induction ps as [|p ps IH]; intros k fc all mb Hal; simpl.
  { split_and!; [lia | done | apply same_or_in_error_refl | | lia].
    by destruct all. }
  assert (∀ mb1, (∀ j, (k < j)%nat → registeredPlugins mb1 !! j = registeredPlugins mb !! j) →
                 ∀ j q, ps !! j = Some q →
                        registeredPlugins mb1 !! (S k + j)%nat = Some q) as Hal'.
  { intros mb1 H1 j q Hq. rewrite H1 by lia.
    replace (S k + j)%nat with (k + S j)%nat by lia. by apply Hal. }
  unfold not_ready.
  destruct (truthy (Plugin.enabled p)) eqn:He; simpl; [|by apply IH, Hal'].
  destruct (truthy (Plugin.error p)) eqn:Herr; simpl.
  { split_and!; [lia | done | apply same_or_in_error_refl | done | lia]. }
  destruct (negb (truthy (Plugin.loaded p)) || negb (truthy (Plugin.started p))) eqn:Hn;
    [|by apply IH, Hal'].
  destruct (count_failure_spec k fc mb) as (Hfc & Hmode & Hsame & Herror).
  destruct (count_failure k fc mb) as [fc1 mb1] eqn:Hc. simpl in *. subst fc1.
  assert (∀ j, (k < j)%nat → registeredPlugins mb1 !! j = registeredPlugins mb !! j)
    as Hother.
  { intros j Hj. revert Hc. unfold count_failure.
    destruct (30 <? fc + 1); intros [= <-]; [|done].
    rewrite plugins_update_plugin. apply list_lookup_alter_ne. lia. }
  assert ((if 30 <? fc + 1 then update_plugin k (Plugin.set_error (Some true)) mb else mb)
          = mb1) as Hmb by (unfold count_failure in Hc; congruence).
  rewrite Hmb.
  specialize (IH (S k) (fc + 1) false mb1 (Hal' mb1 Hother)).
  destruct IH as (I1 & I2 & I3 & I4 & I5).
  set (r := scan_childbridge (S k) ps (fc + 1) false mb1) in *.
  split_and!.
  - lia.
  - congruence.
  - by eapply same_or_in_error_trans.
  - intros _ _. lia.
  - intros Hw _ H30. destruct (decide (fc + 1 < r.1.2)) as [Hlt | Hge]; [by apply I5|].
    assert (r.1.2 = fc + 1) as E by lia. rewrite E in H30.
    eapply existsb_in_error_kept; [exact I3|].
    rewrite (Herror H30). apply existsb_exists.
    exists (Plugin.set_error (Some true) p). split.
    + apply list_elem_of_In, list_elem_of_lookup. exists k.
      rewrite list_lookup_alter_eq.
      specialize (Hal 0%nat p eq_refl). rewrite Nat.add_0_r in Hal. by rewrite Hal.
    + unfold in_error. simpl. by rewrite He.
Qed.

(** A poll on a running interval clears it, or waits with a higher count;
    and a poll that waits with a count above 30 is followed by one that
    aborts. *)
Lemma poll_progress env iv mb :
  bridgeMode mb = bridge ∨ bridgeMode mb = childbridge →
  cleared iv = false →
  let r := startMatterInterval env iv mb in
  cleared r.1.2 = true
  ∨ (r.1.1 = Waiting ∧ cleared r.1.2 = false
     ∧ failCount iv < failCount r.1.2
     ∧ bridgeMode r.2 = bridgeMode mb
     ∧ Forall2 same_or_in_error (registeredPlugins mb) (registeredPlugins r.2)
     ∧ (30 < failCount r.1.2 →
        ∀ env', cleared (startMatterInterval env' r.1.2 r.2).1.2 = true)).
Proof.
  intros Hmode Hc r. assert (r = startMatterInterval env iv mb) as Hr by done.
  clearbody r. unfold startMatterInterval, scan in Hr. rewrite Hc in Hr.
  destruct Hmode as [Hmode | Hmode]; rewrite Hmode in Hr.
  - destruct (scan_bridge 0 (registeredPlugins mb) (failCount iv) mb)
      as [[[] fc'] mb'] eqn:Hs; subst r; simpl; [by left | | by left].
    right. destruct (scan_bridge_wait _ _ _ _ _ _ Hs)
      as (l1 & p & l2 & Hps & Hl1 & He & Hcf).
    simpl in Hcf.
    destruct (count_failure_spec (length l1) (failCount iv) mb)
      as (Hfc & Hm & Hsame & Herror).
    rewrite <- Hcf in *. simpl in *.
    split_and!; [done | done | lia | congruence | done |].
    intros H30 env'. rewrite Hfc in H30. specialize (Herror H30).
    unfold startMatterInterval, scan. simpl. rewrite Hm, Hmode, Herror, Hps.
    rewrite alter_app_r_alt by lia. rewrite Nat.sub_diag. simpl.
    pose proof (scan_bridge_first l1 (Plugin.set_error (Some true) p) l2 0%nat fc' mb' Hl1)
      as Hf.
    assert (in_error (Plugin.set_error (Some true) p) = true) as Hin.
    { unfold in_error. simpl. by rewrite He. }
    rewrite Hin in Hf. specialize (Hf (in_error_not_ready _ Hin)).
    destruct (scan_bridge 0 (l1 ++ Plugin.set_error (Some true) p :: l2) fc' mb')
      as [[[] ?] ?]; simpl in *; done.
  - pose proof (scan_childbridge_wait (registeredPlugins mb) 0%nat (failCount iv) true mb)
      as Hw. simpl in Hw.
    destruct Hw as (H1 & H2 & H3 & H4 & H5); [by intros j p|].
    destruct (scan_childbridge 0 (registeredPlugins mb) (failCount iv) true mb)
      as [[[] fc'] mb'] eqn:Hs; subst r; simpl in *; [by left | | by left].
    right. specialize (H4 eq_refl eq_refl).
    split_and!; [done | done | lia | congruence | done |].
    intros H30 env'. specialize (H5 eq_refl H4 H30).
    unfold startMatterInterval, scan. simpl. rewrite H2, Hmode.
    pose proof (scan_childbridge_error _ 0%nat fc' true mb' H5) as He.
    destruct (scan_childbridge 0 (registeredPlugins mb') fc' true mb')
      as [[[] ?] ?]; simpl in *; done.
Qed.

Lemma polls_cleared n env iv mb :
  cleared iv = true → polls n env iv mb = (replicate n NotRun, iv, mb).
Proof.
  intros Hc. induction n as [|n IH]; simpl; [done|].
  unfold startMatterInterval. rewrite Hc. by rewrite IH.
Qed.

Lemma polls_S n env iv mb :
  polls (S n) env iv mb
  = (let r := startMatterInterval env iv mb in
     let q := polls n env r.1.2 r.2 in
     (r.1.1 :: q.1.1, q.1.2, q.2)).
Proof.
  cbn [polls]. destruct (startMatterInterval env iv mb) as [[p iv'] mb'].
  cbn [fst snd]. by destruct (polls n env iv' mb') as [[ps iv2] mb2].
Qed.

Lemma polls_clear n : ∀ env iv mb,
  bridgeMode mb = bridge ∨ bridgeMode mb = childbridge →
  cleared iv = false →
  30 - failCount iv ≤ Z.of_nat n →
  cleared (polls (S (S n)) env iv mb).1.2 = true.
Proof.
  induction n as [|n IH]; intros env iv mb Hmode Hc Hfc.
  - rewrite polls_S. cbv zeta. cbn [fst snd].
    destruct (poll_progress env iv mb Hmode Hc) as [H | (_ & _ & Hlt & _ & _ & Hnext)].
    + by rewrite (polls_cleared _ _ _ _ H).
    + rewrite polls_S. cbv zeta. cbn [fst snd polls]. apply Hnext. lia.
  - rewrite polls_S. cbv zeta. cbn [fst snd].
    destruct (poll_progress env iv mb Hmode Hc)
      as [H | (_ & Hc' & Hlt & Hm & _ & _)].
    + by rewrite (polls_cleared _ _ _ _ H).
    + apply IH; [by rewrite Hm | done | lia].
Qed.

Lemma poll_calls_only_when_ready env iv mb :
  calls_startMatterServer (startMatterInterval env iv mb).1.1 = true →
  forallb ready (registeredPlugins mb) = true.
Proof.
  unfold startMatterInterval, scan.
  destruct (cleared iv); [done|].
  destruct (bridgeMode mb); try done.
  - destruct (forallb ready (registeredPlugins mb)) eqn:Hr; [done|].
    assert ((scan_bridge 0 (registeredPlugins mb) (failCount iv) mb).1.1 ≠ ScanReady)
      as Hn by (rewrite scan_bridge_ready; congruence).
    destruct (scan_bridge 0 (registeredPlugins mb) (failCount iv) mb)
      as [[[] fc] mb']; simpl in *; done.
  - destruct (forallb ready (registeredPlugins mb)) eqn:Hr; [done|].
    assert ((scan_childbridge 0 (registeredPlugins mb) (failCount iv) true mb).1.1
            ≠ ScanReady) as Hn.
    { rewrite scan_childbridge_ready. intros [_ ?]. congruence. }
    destruct (scan_childbridge 0 (registeredPlugins mb) (failCount iv) true mb)
      as [[[] fc] mb']; simpl in *; done.
Qed.

Lemma polls_never_start n : ∀ env iv mb,
  forallb ready (registeredPlugins mb) = false →
  Forall (λ p, calls_startMatterServer p = false) (polls n env iv mb).1.1.
Proof.
  induction n as [|n IH]; intros env iv mb Hr; [constructor|].
  rewrite polls_S. cbv zeta. cbn [fst snd].
  pose proof (poll_calls_only_when_ready env iv mb) as Hcall.
  constructor.
  { destruct (calls_startMatterServer _); [|done]. by rewrite Hcall in Hr. }
  destruct (cleared iv) eqn:Hc.
  { unfold startMatterInterval. rewrite Hc. by apply IH. }
  destruct (bridgeMode mb) eqn:Hmode.
  3,4: unfold startMatterInterval, scan; rewrite Hc, Hmode; by apply IH.
  all: (destruct (poll_progress env iv mb) as [H | (_ & _ & _ & _ & Hsame & _)];
        [rewrite Hmode; auto | done | |]).
  1,3: rewrite (polls_cleared _ _ _ _ H); by apply Forall_replicate.
  all: apply IH;
    destruct (forallb ready (registeredPlugins (startMatterInterval env iv mb).2)) eqn:E;
    [|done]; by rewrite (forallb_ready_back _ _ Hsame E) in Hr.
Qed.

(** X9. The supervisor is bounded. In bridge and in childbridge mode, if
    nothing but the interval touches the plugins, an interval that starts
    with a count of zero or more is cleared after at most 32 runs of its
    callback; and if some enabled plugin is not ready when it starts (in
    error, not loaded or not started), [startMatterServer] is called in none
    of these runs. *)
Theorem supervisor_gives_up (env : StartEnv) (iv : Interval) (mb : Matterbridge) :
  bridgeMode mb = bridge ∨ bridgeMode mb = childbridge →
  cleared iv = false →
  0 ≤ failCount iv →
  cleared (polls 32 env iv mb).1.2 = true
  ∧ (forallb ready (registeredPlugins mb) = false →
     Forall (λ p, calls_startMatterServer p = false) (polls 32 env iv mb).1.1).
Proof.
  intros Hmode Hc Hfc. split.
  - apply (polls_clear 30); [done | done | lia].
  - apply polls_never_start.
Qed.

Lemma supervisor_gives_up_witness :
  (bridgeMode (initialized childbridge [plugin_A; plugin_B]) = bridge
   ∨ bridgeMode (initialized childbridge [plugin_A; plugin_B]) = childbridge)
  ∧ cleared fresh_interval = false
  ∧ 0 ≤ failCount fresh_interval
  ∧ cleared (polls 32 start_env fresh_interval
               (initialized childbridge [plugin_A; plugin_B])).1.2 = true
  ∧ (forallb ready (registeredPlugins (initialized childbridge [plugin_A; plugin_B]))
     = false →
     Forall (λ p, calls_startMatterServer p = false)
       (polls 32 start_env fresh_interval
          (initialized childbridge [plugin_A; plugin_B])).1.1).
Proof.
  assert (0 ≤ failCount fresh_interval) as H0 by (simpl; lia).
  split; [right; reflexivity|]. split; [reflexivity|]. split; [exact H0|].
  exact (supervisor_gives_up start_env fresh_interval
           (initialized childbridge [plugin_A; plugin_B])
           (or_intror eq_refl) eq_refl H0).
Defined.

(** ** The device registry *)

Lemma forEach_splice_beyond d : ∀ n k rds,
  (length rds ≤ k)%nat → forEach_splice n k d rds = rds.
Proof.
  induction n as [|n IH]; intros k rds Hk; simpl; [done|].
  rewrite lookup_ge_None_2 by lia. apply IH. lia.
Qed.

(** One round of the loop at the position behind [pre]. *)
Lemma forEach_splice_step d n pre rd rest :
  forEach_splice (S n) (length pre) d (pre ++ rd :: rest)
  = if holds d rd
    then match rest with
         | [] => pre
         | rd2 :: rest' =>
             forEach_splice n (length (pre ++ [rd2])) d ((pre ++ [rd2]) ++ rest')
         end
    else forEach_splice n (length (pre ++ [rd])) d ((pre ++ [rd]) ++ rest).
Proof.
  cbn [forEach_splice]. rewrite list_lookup_middle by done. unfold holds.
  destruct (N.eqb (deviceId (device rd)) d).
  - rewrite delete_middle. destruct rest as [|rd2 rest'].
    + rewrite app_nil_r. apply forEach_splice_beyond. lia.
    + by rewrite last_length, <- app_assoc.
  - by rewrite last_length, <- app_assoc.
Qed.

Lemma forEach_splice_prefix d : ∀ n pre rest,
  ∃ left_over, forEach_splice n (length pre) d (pre ++ rest) = pre ++ left_over.
Proof.
  induction n as [|n IH]; intros pre rest; [by exists rest|].
  destruct rest as [|rd rest].
  { exists []. rewrite app_nil_r. apply forEach_splice_beyond. lia. }
  rewrite forEach_splice_step. destruct (holds d rd).
  - destruct rest as [|rd2 rest']; [exists []; by rewrite app_nil_r|].
    destruct (IH (pre ++ [rd2]) rest') as [x ->]. exists (rd2 :: x).
    by rewrite <- app_assoc.
  - destruct (IH (pre ++ [rd]) rest) as [x ->]. exists (rd :: x).
    by rewrite <- app_assoc.
Qed.

Lemma no_repeat_tail d rd rds : no_repeat d (rd :: rds) = true → no_repeat d rds = true.
Proof. destruct rds as [|rd2 rds]; [done|]. simpl. by intros [_ ?]%andb_true_iff. Qed.

Lemma forEach_splice_filter d : ∀ n pre rest,
  no_repeat d rest = true → (length rest ≤ n)%nat →
  forEach_splice n (length pre) d (pre ++ rest)
  = pre ++ filter (λ rd, holds d rd = false) rest.
Proof.
  induction n as [|n IH]; intros pre rest Hr Hn.
  { destruct rest; [done | simpl in Hn; lia]. }
  destruct rest as [|rd rest].
  { rewrite filter_nil, app_nil_r. apply forEach_splice_beyond. lia. }
  rewrite forEach_splice_step. simpl in Hn.
  destruct (holds d rd) eqn:Hd.
  - rewrite filter_cons_False by congruence.
    destruct rest as [|rd2 rest']; [by rewrite filter_nil, app_nil_r|].
    assert (holds d rd2 = false) as Hd2.
    { simpl in Hr. unfold holds in *. rewrite Hd in Hr. simpl in Hr.
      by destruct (N.eqb (deviceId (device rd2)) d). }
    rewrite IH; [| by eapply no_repeat_tail, no_repeat_tail | simpl in Hn; lia].
    rewrite filter_cons_True by done. by rewrite <- app_assoc.
  - rewrite IH; [| by eapply no_repeat_tail | lia].
    rewrite filter_cons_True by done. by rewrite <- app_assoc.
Qed.

Lemma forEach_splice_survivor d : ∀ n pre l1 rd1 rd2 l2,
  holds d rd1 = true → holds d rd2 = true →
  ∃ rd, rd ∈ forEach_splice n (length pre) d (pre ++ l1 ++ rd1 :: rd2 :: l2)
        ∧ holds d rd = true.
Proof.
  induction n as [|n IH]; intros pre l1 rd1 rd2 l2 H1 H2.
  { exists rd1. split; [|done]. simpl. set_solver. }
  destruct l1 as [|x l1].
  - cbn [app]. rewrite forEach_splice_step, H1.
    destruct (forEach_splice_prefix d n (pre ++ [rd2]) l2) as [y ->].
    exists rd2. split; [set_solver | done].
  - cbn [app]. rewrite forEach_splice_step. destruct (holds d x).
    + destruct l1 as [|y l1]; cbn [app].
      * destruct (forEach_splice_prefix d n (pre ++ [rd1]) (rd2 :: l2)) as [z ->].
        exists rd1. split; [set_solver | done].
      * by apply IH.
    + by apply IH.
Qed.

Lemma forEach_splice_all d rds :
  no_repeat d rds = true →
  forEach_splice (length rds) 0 d rds = filter (λ rd, holds d rd = false) rds.
Proof. intros Hr. by apply (forEach_splice_filter d _ []). Qed.

(** X10. The loop that takes a device out of the registry removes every
    entry that holds the device, and nothing else, provided no two entries
    in a row hold it. *)
Theorem unregister_removes_all_without_repeats (d : DeviceId) (mb : Matterbridge) :
  no_repeat d (registeredDevices mb) = true →
  registeredDevices (unregister d mb)
  = filter (λ rd, holds d rd = false) (registeredDevices mb).
Proof.
  intros Hr. unfold unregister. simpl.
  by apply (forEach_splice_filter d _ []).
Qed.

Lemma unregister_removes_all_without_repeats_witness :
  no_repeat 2 (registeredDevices three_devices) = true
  ∧ registeredDevices (unregister 2 three_devices)
    = filter (λ rd, holds 2 rd = false) (registeredDevices three_devices).
Proof.
  assert (no_repeat 2 (registeredDevices three_devices) = true) as H
    by (vm_compute; reflexivity).
  split; [exact H|].
  exact (unregister_removes_all_without_repeats 2 three_devices H).
Defined.

(** X11. Where two entries in a row hold the device, the loop leaves one
    entry that holds it: the [splice] moves the second entry to the position
    the [forEach] has just visited. *)
Theorem unregister_leaves_one_of_a_repeat (d : DeviceId) (mb : Matterbridge)
    (l1 l2 : list RegisteredDevice) (rd1 rd2 : RegisteredDevice) :
  registeredDevices mb = l1 ++ rd1 :: rd2 :: l2 →
  holds d rd1 = true → holds d rd2 = true →
  ∃ rd, rd ∈ registeredDevices (unregister d mb) ∧ holds d rd = true.
Proof.
  intros E H1 H2. unfold unregister. simpl. rewrite E.
  exact (forEach_splice_survivor d _ [] l1 rd1 rd2 l2 H1 H2).
Qed.

Lemma unregister_leaves_one_of_a_repeat_witness :
  registeredDevices added_twice
  = [] ++ {| plugin := "matterbridge-a"; device := device_n 1 |}
       :: {| plugin := "matterbridge-a"; device := device_n 1 |} :: []
  ∧ ∃ rd, rd ∈ registeredDevices (unregister 1 added_twice) ∧ holds 1 rd = true.
Proof.
  assert (registeredDevices added_twice
          = [] ++ {| plugin := "matterbridge-a"; device := device_n 1 |}
               :: {| plugin := "matterbridge-a"; device := device_n 1 |} :: []) as E
    by (vm_compute; reflexivity).
  split; [exact E|].
  exact (unregister_leaves_one_of_a_repeat 1 added_twice [] [] _ _ E eq_refl eq_refl).
Defined.

(** ** Adding and removing devices in bridge mode *)

Lemma addBridgedDevice_bridge env pluginName device mb i p :
  bridgeMode mb = bridge → defined (matterAggregator mb) = true →
  findPlugin pluginName mb = Some (i, p) →
  addBridgedDevice env pluginName device mb
  = Returned tt
      (update_plugin i count_up
         (push_device pluginName device
            (set_matterAggregator
               (Aggregator.addBridgedDevice (deviceId device) <$> matterAggregator mb)
               mb))).
Proof.
  intros Hmode Hagg Hfind. unfold addBridgedDevice.
  rewrite bind_get_state, Hmode, Hagg, Hfind. reflexivity.
Qed.

Lemma removeBridgedDevice_bridge pluginName device mb i p :
  bridgeMode mb = bridge → defined (matterAggregator mb) = true →
  findPlugin pluginName mb = Some (i, p) →
  removeBridgedDevice pluginName device mb
  = Returned tt
      (update_plugin i count_down
         (unregister (deviceId device)
            (set_matterAggregator
               (Aggregator.removeBridgedDevice (deviceId device) <$> matterAggregator mb)
               (set_unreachable (deviceId device) mb)))).
Proof.
  intros Hmode Hagg Hfind. unfold removeBridgedDevice.
  rewrite bind_get_state, Hmode, Hagg, Hfind. reflexivity.
Qed.

Lemma count_down_up p : count_down (count_up p) = p.
Proof. destruct p. unfold count_down, count_up. simpl. by rewrite !decr_incr. Qed.

Lemma filter_all {A} (P : A → Prop) `{∀ x, Decision (P x)} (l : list A) :
  Forall P l → filter P l = l.
Proof. induction 1; [done|]. rewrite filter_cons_True by done. by f_equal. Qed.

Lemma aggregator_remove_add d a :
  d ∉ Aggregator.bridged a →
  Aggregator.removeBridgedDevice d (Aggregator.addBridgedDevice d a) = a.
Proof.
  intros Hd. destruct a as [? ? ? ? ? ? bridged].
  unfold Aggregator.removeBridgedDevice, Aggregator.addBridgedDevice. simpl in *.
  f_equal. rewrite filter_app, filter_cons_False, filter_nil, app_nil_r by tauto.
  apply filter_all, Forall_forall. intros x Hx ->. by apply Hd, list_elem_of_In.
Qed.

Lemma Matterbridge_eq (a b : Matterbridge) :
  bridgeMode a = bridgeMode b → port a = port b → passcode a = passcode b →
  discriminator a = discriminator b → hasCleanupStarted a = hasCleanupStarted b →
  registeredPlugins a = registeredPlugins b →
  registeredDevices a = registeredDevices b →
  nodeStorage a = nodeStorage b → nodeContext a = nodeContext b →
  expressApp a = expressApp b → httpServer a = httpServer b →
  httpsServer a = httpsServer b → webSocketServer a = webSocketServer b →
  checkUpdateInterval a = checkUpdateInterval b →
  storageManager a = storageManager b →
  matterbridgeContext a = matterbridgeContext b →
  mattercontrollerContext a = mattercontrollerContext b →
  matterServer a = matterServer b → matterAggregator a = matterAggregator b →
  commissioningServer a = commissioningServer b →
  commissioningController a = commissioningController b →
  matterbridgeVersion a = matterbridgeVersion b → osRelease a = osRelease b →
  instance a = instance b → processListeners a = processListeners b →
  reachable a = reachable b → files a = files b → hookCalls a = hookCalls b →
  emitted a = emitted b →
  a = b.
Proof. destruct a, b. simpl. intros. subst. reflexivity. Qed.

Lemma no_repeat_new d rds rd :
  Forall (λ rd, holds d rd = false) rds → no_repeat d (rds ++ [rd]) = true.
Proof.
  induction 1 as [|x l Hx _ IH]; [done|].
  cbn [app]. destruct (l ++ [rd]) as [|y l'] eqn:E; [done|].
  cbn [no_repeat]. unfold holds in Hx. rewrite Hx. simpl. exact IH.
Qed.

(** X12. In bridge mode with the aggregator of the bridge created, adding a
    device that is new to the registry and to the aggregator and removing it
    again restores the bridge: the registry of devices, the aggregator and
    every plugin with its counters are as before the add, and the only trace
    left is that the device has been set unreachable. *)
Theorem bridge_add_then_remove_round_trip (env : AddEnv) (pluginName : string)
    (device : MatterbridgeDevice) (mb : Matterbridge) (agg : Aggregator) (i : nat)
    (p : RegisteredPlugin) :
  bridgeMode mb = bridge →
  matterAggregator mb = Some agg →
  findPlugin pluginName mb = Some (i, p) →
  Forall (λ rd, holds (deviceId device) rd = false) (registeredDevices mb) →
  deviceId device ∉ Aggregator.bridged agg →
  ∃ mb1,
    addBridgedDevice env pluginName device mb = Returned tt mb1
    ∧ removeBridgedDevice pluginName device mb1
      = Returned tt (set_unreachable (deviceId device) mb).
Proof.
  intros Hmode Hagg Hfind Hnew Hd.
  destruct (findPlugin_Some _ _ _ _ Hfind) as (Hi & Hp & Hn).
  eexists. split.
  { apply (addBridgedDevice_bridge env _ _ _ i p); [done | by rewrite Hagg | done]. }
  erewrite removeBridgedDevice_bridge; cycle 1.
  - done.
  - simpl. by rewrite Hagg.
  - apply findPlugin_intro.
    + simpl. erewrite findIndex_names; [exact Hi|]. apply fmap_alter_same. by intros [].
    + simpl. rewrite list_lookup_alter_eq, Hp. done.
  - f_equal. unfold set_unreachable, unregister, update_plugin, push_device.
    apply Matterbridge_eq; try reflexivity;
      cbn [registeredPlugins registeredDevices matterAggregator set_registeredPlugins
             set_registeredDevices set_matterAggregator set_reachable].
    + rewrite list_alter_alter_eq. apply list_alter_id. apply count_down_up.
    + rewrite forEach_splice_all by (by apply no_repeat_new).
      rewrite filter_app, filter_cons_False, filter_nil, app_nil_r.
      * by apply filter_all.
      * unfold holds. simpl. rewrite N.eqb_refl. done.
    + by rewrite Hagg; simpl; rewrite aggregator_remove_add.
Qed.

Lemma bridge_add_then_remove_round_trip_witness :
  ∃ mb1,
    addBridgedDevice add_env "matterbridge-a" (device_n 1) bridge_A = Returned tt mb1
    ∧ removeBridgedDevice "matterbridge-a" (device_n 1) mb1
      = Returned tt (set_unreachable (deviceId (device_n 1)) bridge_A).
Proof.
  assert (findPlugin "matterbridge-a" bridge_A
          = Some (0%nat, loaded_as "DynamicPlatform" plugin_A)) as Hfind
    by (vm_compute; reflexivity).
  assert (Forall (λ rd, holds (deviceId (device_n 1)) rd = false)
            (registeredDevices bridge_A)) as Hnew by constructor.
  exact (bridge_add_then_remove_round_trip add_env "matterbridge-a" (device_n 1)
           bridge_A _ 0%nat _ eq_refl eq_refl Hfind Hnew (not_elem_of_nil _)).
Defined.

(** *** Removing all the devices of a plugin *)

Lemma filter_ext_in {A} (P Q : A → Prop) `{∀ x, Decision (P x)} `{∀ x, Decision (Q x)}
    (l : list A) :
  (∀ x, x ∈ l → P x ↔ Q x) → filter P l = filter Q l.
Proof.
  induction l as [|a l IH]; intros HPQ; [done|].
  rewrite !filter_cons.
  destruct (decide (P a)) as [Ha|Ha], (decide (Q a)) as [Hb|Hb].
  - f_equal. apply IH. intros x Hx. apply HPQ. by right.
  - exfalso. apply Hb, HPQ; [by left | done].
  - exfalso. apply Ha, HPQ; [by left | done].
  - apply IH. intros x Hx. apply HPQ. by right.
Qed.

Lemma NoDup_fmap_inj {A B} (f : A → B) (l : list A) x y :
  NoDup (f <$> l) → x ∈ l → y ∈ l → f x = f y → x = y.
Proof.
  induction l as [|a l IH]; [set_solver|].
  rewrite fmap_cons, NoDup_cons. intros [Ha Hnd] Hx Hy E.
  apply elem_of_cons in Hx as [-> | Hx], Hy as [-> | Hy].
  - done.
  - exfalso. apply Ha. rewrite E. by apply list_elem_of_fmap_2.
  - exfalso. apply Ha. rewrite <- E. by apply list_elem_of_fmap_2.
  - by apply IH.
Qed.

Lemma NoDup_no_repeat d rds : NoDup (device_of <$> rds) → no_repeat d rds = true.
Proof.
  induction rds as [|rd1 rds IH]; [done|].
  rewrite fmap_cons, NoDup_cons. intros [Hnot Hnd].
  destruct rds as [|rd2 rds']; [done|].
  change (no_repeat d (rd1 :: rd2 :: rds'))
    with (negb (N.eqb (deviceId (device rd1)) d && N.eqb (deviceId (device rd2)) d)
          && no_repeat d (rd2 :: rds')).
  rewrite (IH Hnd), andb_true_r. apply negb_true_iff, andb_false_iff.
  destruct (N.eqb_spec (deviceId (device rd1)) d) as [E1|]; [|by left]. right.
  apply N.eqb_neq. intros E2. apply Hnot. rewrite fmap_cons.
  apply elem_of_cons. left. unfold device_of. congruence.
Qed.

Lemma all_unreachable_kept ds : ∀ r d,
  r !! d = Some false → all_unreachable ds r !! d = Some false.
Proof.
  induction ds as [|rd ds IH]; intros r d Hd; [done|].
  change (all_unreachable (rd :: ds) r)
    with (all_unreachable ds (<[device_of rd := false]> r)).
  apply IH. destruct (decide (device_of rd = d)) as [->|].
  - by rewrite lookup_insert_eq.
  - by rewrite lookup_insert_ne.
Qed.

Lemma all_unreachable_lookup ds : ∀ r rd,
  rd ∈ ds → all_unreachable ds r !! device_of rd = Some false.
Proof.
  induction ds as [|x ds IH]; intros r rd Hrd; [set_solver|].
  change (all_unreachable (x :: ds) r)
    with (all_unreachable ds (<[device_of x := false]> r)).
  apply elem_of_cons in Hrd as [-> | Hrd].
  - apply all_unreachable_kept. by rewrite lookup_insert_eq.
  - by apply IH.
Qed.

Lemma iter_count_down k p :
  Plugin.registeredDevices (Nat.iter k count_down p)
  = lowered k (Plugin.registeredDevices p)
  ∧ Plugin.addedDevices (Nat.iter k count_down p) = lowered k (Plugin.addedDevices p).
Proof.
  induction k as [|k [IH1 IH2]].
  - unfold lowered. simpl. split.
    + destruct (Plugin.registeredDevices p); simpl; [f_equal; lia | done].
    + destruct (Plugin.addedDevices p); simpl; [f_equal; lia | done].
  - change (Nat.iter (S k) count_down p) with (count_down (Nat.iter k count_down p)).
    change (Plugin.registeredDevices (count_down (Nat.iter k count_down p)))
      with (decr (Plugin.registeredDevices (Nat.iter k count_down p))).
    change (Plugin.addedDevices (count_down (Nat.iter k count_down p)))
      with (decr (Plugin.addedDevices (Nat.iter k count_down p))).
    rewrite IH1, IH2. unfold lowered, decr. split.
    + destruct (Plugin.registeredDevices p); simpl; [f_equal; lia | done].
    + destruct (Plugin.addedDevices p); simpl; [f_equal; lia | done].
Qed.

(** The loop of [removeAllBridgedDevices] in bridge mode, as long as every
    device is registered once. *)
Lemma remove_each_bridge pluginName i : ∀ ds mb agg,
  bridgeMode mb = bridge → matterAggregator mb = Some agg →
  findIndex pluginName (registeredPlugins mb) = Some i →
  NoDup (device_of <$> registeredDevices mb) →
  ∃ agg',
    registeredDevices (remove_each pluginName ds mb)
    = filter (λ rd, device_of rd ∉ device_of <$> ds) (registeredDevices mb)
    ∧ registeredPlugins (remove_each pluginName ds mb)
      = alter (Nat.iter (length ds) count_down) i (registeredPlugins mb)
    ∧ reachable (remove_each pluginName ds mb) = all_unreachable ds (reachable mb)
    ∧ matterAggregator (remove_each pluginName ds mb) = Some agg'
    ∧ Aggregator.bridged agg'
      = filter (λ d, d ∉ device_of <$> ds) (Aggregator.bridged agg).
Proof.
  induction ds as [|rd ds IH]; intros mb agg Hmode Hagg Hi Hnd.
  { exists agg. simpl. split_and!; try done.
    - symmetry. apply filter_all, Forall_forall. set_solver.
    - symmetry. apply list_alter_id. done.
    - symmetry. apply filter_all, Forall_forall. set_solver. }
  destruct (findIndex_Some _ _ _ Hi) as (p & Hp & Hn).
  cbn [remove_each].
  rewrite (removeBridgedDevice_bridge pluginName (device rd) mb i p Hmode);
    [| by rewrite Hagg | by apply findPlugin_intro].
  cbn [final]. rewrite Hagg. cbn [fmap option_fmap option_map].
  set (mb1 := update_plugin i count_down _).
  assert (registeredDevices mb1
          = filter (λ x, holds (device_of rd) x = false) (registeredDevices mb)) as Hrds.
  { subst mb1. unfold unregister. simpl. apply forEach_splice_all.
    by apply NoDup_no_repeat. }
  destruct (IH mb1 (Aggregator.removeBridgedDevice (deviceId (device rd)) agg))
    as (agg' & H1 & H2 & H3 & H4 & H5).
  - done.
  - done.
  - subst mb1. simpl. erewrite findIndex_names; [exact Hi|].
    apply fmap_alter_same. by intros [].
  - rewrite Hrds. eapply sublist_NoDup; [exact Hnd|].
    apply fmap_sublist, sublist_filter.
  - exists agg'. split_and!.
    + rewrite H1, Hrds, list_filter_filter. apply list_filter_iff. intros x.
      rewrite fmap_cons, not_elem_of_cons. unfold holds, device_of.
      rewrite N.eqb_neq. tauto.
    + rewrite H2. subst mb1. unfold update_plugin at 1.
      cbn [registeredPlugins set_registeredPlugins]. rewrite list_alter_alter_eq.
      apply list_alter_ext; [|done]. intros x _. unfold compose. cbn [length].
      by rewrite Nat.iter_succ_r.
    + rewrite H3. done.
    + done.
    + rewrite H5. unfold Aggregator.removeBridgedDevice. cbn [Aggregator.bridged].
      rewrite list_filter_filter. apply list_filter_iff. intros x.
      rewrite fmap_cons, not_elem_of_cons. unfold device_of. tauto.
Qed.

(** X13. In bridge mode with the aggregator of the bridge created and every
    device registered once, [removeAllBridgedDevices] of a registered
    plugin takes exactly the entries of that plugin out of the registry of
    devices, lowers both counters of the plugin by their number, and leaves
    each of these devices unreachable and out of the aggregator. *)
Theorem removeAllBridgedDevices_bridge (pluginName : string) (mb : Matterbridge)
    (agg : Aggregator) (i : nat) (p : RegisteredPlugin) :
  bridgeMode mb = bridge →
  matterAggregator mb = Some agg →
  findPlugin pluginName mb = Some (i, p) →
  NoDup (device_of <$> registeredDevices mb) →
  ∃ mb' agg',
    removeAllBridgedDevices pluginName mb = Returned tt mb'
    ∧ registeredDevices mb'
      = filter (λ rd, plugin rd ≠ pluginName) (registeredDevices mb)
    ∧ counters i mb'
      = Some (lowered (length (devices_of pluginName (registeredDevices mb)))
                (Plugin.registeredDevices p),
              lowered (length (devices_of pluginName (registeredDevices mb)))
                (Plugin.addedDevices p))
    ∧ matterAggregator mb' = Some agg'
    ∧ ∀ rd, rd ∈ registeredDevices mb → plugin rd = pluginName →
            reachable mb' !! device_of rd = Some false
            ∧ device_of rd ∉ Aggregator.bridged agg'.
Proof.
  intros Hmode Hagg Hfind Hnd.
  destruct (findPlugin_Some _ _ _ _ Hfind) as (Hi & Hp & Hn).
  unfold removeAllBridgedDevices. rewrite Hmode. cbn [BridgeMode_eqb andb].
  set (ds := devices_of pluginName (registeredDevices mb)).
  destruct (remove_each_bridge pluginName i ds mb agg Hmode Hagg Hi Hnd)
    as (agg' & H1 & H2 & H3 & H4 & H5).
  assert (∀ rd, rd ∈ registeredDevices mb → plugin rd = pluginName → rd ∈ ds) as Hin.
  { intros rd Hrd Hpl. subst ds. unfold devices_of. by apply list_elem_of_filter. }
  eexists _, agg'. split; [reflexivity|]. split_and!.
  - rewrite H1. apply filter_ext_in. intros rd Hrd. split.
    + intros Hout Hpl. apply Hout. apply list_elem_of_fmap_2. by apply Hin.
    + intros Hpl (rd' & E & Hrd')%list_elem_of_fmap.
      subst ds. unfold devices_of in Hrd'. apply list_elem_of_filter in Hrd' as [Hpl' Hrd'].
      assert (rd = rd') by (by eapply NoDup_fmap_inj). congruence.
  - unfold counters. rewrite H2, list_lookup_alter_eq, Hp. simpl.
    destruct (iter_count_down (length ds) p) as [-> ->]. done.
  - done.
  - intros rd Hrd Hpl. split.
    + rewrite H3. apply all_unreachable_lookup. by apply Hin.
    + rewrite H5. intros [Hout _]%list_elem_of_filter. apply Hout.
      apply list_elem_of_fmap_2. by apply Hin.
Qed.

Lemma removeAllBridgedDevices_bridge_witness :
  ∃ mb',
    removeAllBridgedDevices "matterbridge-a" three_devices = Returned tt mb'
    ∧ registeredDevices mb'
      = filter (λ rd, plugin rd ≠ "matterbridge-a"%string)
          (registeredDevices three_devices).
Proof.
  assert (bridgeMode three_devices = bridge) as Hmode by (vm_compute; reflexivity).
  assert (∃ agg, matterAggregator three_devices = Some agg) as [agg Hagg]
    by (eexists; vm_compute; reflexivity).
  assert (∃ p, findPlugin "matterbridge-a" three_devices = Some (0%nat, p)) as [p Hfind]
    by (eexists; vm_compute; reflexivity).
  assert (NoDup (device_of <$> registeredDevices three_devices)) as Hnd
    by (apply (bool_decide_unpack
                 (NoDup (device_of <$> registeredDevices three_devices)));
        vm_compute; reflexivity).
  destruct (removeAllBridgedDevices_bridge "matterbridge-a" three_devices agg 0 p
              Hmode Hagg Hfind Hnd) as (mb' & agg' & H1 & H2 & _).
  exists mb'. by split.
Defined.

(** *** Calls that are ignored *)

Lemma removeBridgedDevice_ignored pluginName device mb :
  findPlugin pluginName mb = None
  ∨ (bridgeMode mb = bridge ∧ matterAggregator mb = None) →
  removeBridgedDevice pluginName device mb = Returned tt mb.
Proof.
  unfold removeBridgedDevice. rewrite bind_get_state.
  intros [-> | [-> ->]]; [|done].
  by destruct (BridgeMode_eqb (bridgeMode mb) bridge && _).
Qed.

Lemma remove_each_ignored pluginName mb :
  findPlugin pluginName mb = None
  ∨ (bridgeMode mb = bridge ∧ matterAggregator mb = None) →
  ∀ ds, remove_each pluginName ds mb = mb.
Proof.
  intros H ds. induction ds as [|rd ds IH]; [done|].
  cbn [remove_each]. by rewrite removeBridgedDevice_ignored.
Qed.

(** X14. A device added or removed under the name of a plugin that is not
    registered, or in bridge mode before the aggregator of the bridge
    exists, is ignored: [addBridgedDevice], [removeBridgedDevice] and
    [removeAllBridgedDevices] return without error and leave the bridge
    exactly as it was. *)
Theorem unknown_plugin_is_ignored (env : AddEnv) (pluginName : string)
    (device : MatterbridgeDevice) (mb : Matterbridge) :
  findPlugin pluginName mb = None
  ∨ (bridgeMode mb = bridge ∧ matterAggregator mb = None) →
  addBridgedDevice env pluginName device mb = Returned tt mb
  ∧ removeBridgedDevice pluginName device mb = Returned tt mb
  ∧ removeAllBridgedDevices pluginName mb = Returned tt mb.
Proof.
  intros H. split_and!.
  - unfold addBridgedDevice. rewrite bind_get_state.
    destruct H as [-> | [-> ->]]; [|done].
    by destruct (BridgeMode_eqb (bridgeMode mb) bridge && _).
  - by apply removeBridgedDevice_ignored.
  - unfold removeAllBridgedDevices.
    rewrite (remove_each_ignored pluginName mb H).
    by destruct (BridgeMode_eqb (bridgeMode mb) childbridge && _).
Qed.

Lemma unknown_plugin_is_ignored_witness :
  addBridgedDevice add_env "matterbridge-z" (device_n 1) three_devices
  = Returned tt three_devices
  ∧ removeBridgedDevice "matterbridge-z" (device_n 1) three_devices
    = Returned tt three_devices
  ∧ removeAllBridgedDevices "matterbridge-z" three_devices = Returned tt three_devices.
Proof.
  assert (findPlugin "matterbridge-z" three_devices = None) as H
    by (vm_compute; reflexivity).
  exact (unknown_plugin_is_ignored add_env "matterbridge-z" (device_n 1) three_devices
           (or_introl H)).
Defined.

(** ** Commissioning contexts, servers and aggregators *)

Lemma bind_returned {A B} (m : M A) (k : A → M B) mb a mb' :
  m mb = Returned a mb' → bind m k mb = k a mb'.
Proof. intros H. unfold bind. by rewrite H. Qed.

Lemma bind_exited {A B} (m : M A) (k : A → M B) mb c mb' :
  m mb = Exited c mb' → bind m k mb = Exited c mb'.
Proof. intros H. unfold bind. by rewrite H. Qed.

Lemma bind_plugin_at {A} i (k : RegisteredPlugin → M A) mb p :
  registeredPlugins mb !! i = Some p → bind (plugin_at i) k mb = k p mb.
Proof. intros H. unfold bind, plugin_at. by rewrite H. Qed.

(** What [createCommissioningServerContext] leaves in the storage. *)
Lemma createCommissioningServerContext_writes r name dn dt vi vn pi pn mb sm :
  storageManager mb = Some sm →
  ∃ sm',
    createCommissioningServerContext r name dn dt vi vn pi pn mb
    = Returned name (set_storageManager (Some sm') mb)
    ∧ ctx_get name "deviceName" sm' = Some (SString dn)
    ∧ ctx_get name "deviceType" sm' = Some (SNumber dt)
    ∧ ctx_get name "vendorId" sm' = Some (SNumber vi)
    ∧ ctx_get name "vendorName" sm' = Some (SString (slice32 vn))
    ∧ ctx_get name "productId" sm' = Some (SNumber pi)
    ∧ ctx_get name "productName" sm' = Some (SString (slice32 pn))
    ∧ ctx_get name "serialNumber" sm'
      = Some (default (SString ("CS" ++ r)) (ctx_get name "serialNumber" sm))
    ∧ ctx_get name "uniqueId" sm'
      = Some (default (SString ("CS" ++ r)) (ctx_get name "uniqueId" sm))
    ∧ ctx_get name "softwareVersion" sm' = Some (major_version (matterbridgeVersion mb))
    ∧ ctx_get name "softwareVersionString" sm' = Some (SString (matterbridgeVersion mb))
    ∧ ctx_get name "hardwareVersion" sm' = Some (major_version (osRelease mb))
    ∧ ctx_get name "hardwareVersionString" sm' = Some (SString (osRelease mb))
    ∧ ctx_get name "aggregatorSerialNumber" sm'
      = ctx_get name "aggregatorSerialNumber" sm
    ∧ ctx_get name "aggregatorUniqueId" sm' = ctx_get name "aggregatorUniqueId" sm
    ∧ ∀ ctx key, ctx ≠ name → ctx_get ctx key sm' = ctx_get ctx key sm.
Proof.
  intros Hsm. unfold createCommissioningServerContext, set_value.
  rewrite bind_get_state, Hsm. cbn [defined negb].
  repeat storage_step Hsm.
  unfold ret. eexists. split; [reflexivity|].
  repeat (rewrite ?ctx_get_set; rewrite ?ctx_get_set_ne by done).
  split_and!; try done.
  intros ctx key Hne. by rewrite !ctx_get_set_other by done.
Qed.

(** What [importCommissioningServerContext] leaves in the storage for a
    device whose BasicInformation cluster has a serial number and a unique
    id. *)
Lemma importCommissioningServerContext_writes name device basic s u mb sm :
  basicInformation device = Some basic →
  serialNumber basic = Some s → uniqueId basic = Some u →
  storageManager mb = Some sm →
  ∃ sm',
    importCommissioningServerContext name device mb
    = Returned name (set_storageManager (Some sm') mb)
    ∧ ctx_get name "deviceName" sm' = Some (SString (nodeLabel basic))
    ∧ ctx_get name "deviceType" sm' = Some (SNumber (deviceType device))
    ∧ ctx_get name "vendorId" sm' = Some (SNumber (vendorId basic))
    ∧ ctx_get name "vendorName" sm' = Some (SString (vendorName basic))
    ∧ ctx_get name "productId" sm' = Some (SNumber (productId basic))
    ∧ ctx_get name "productName" sm' = Some (SString (productName basic))
    ∧ ctx_get name "serialNumber" sm' = Some (SString s)
    ∧ ctx_get name "uniqueId" sm' = Some (SString u)
    ∧ ctx_get name "softwareVersion" sm' = Some (SNumber (softwareVersion basic))
    ∧ ctx_get name "softwareVersionString" sm'
      = Some (SString (softwareVersionString basic))
    ∧ ctx_get name "hardwareVersion" sm' = Some (SNumber (hardwareVersion basic))
    ∧ ctx_get name "hardwareVersionString" sm'
      = Some (SString (hardwareVersionString basic))
    ∧ ∀ ctx key, ctx ≠ name → ctx_get ctx key sm' = ctx_get ctx key sm.
Proof.
  intros Hb Hs Hu Hsm. unfold importCommissioningServerContext, set_value.
  rewrite Hb, bind_get_state, Hsm, Hs, Hu. cbn [defined negb fmap option_fmap option_map].
  repeat storage_step Hsm.
  unfold ret. eexists. split; [reflexivity|].
  repeat (rewrite ?ctx_get_set; rewrite ?ctx_get_set_ne by done).
  split_and!; try done.
  intros ctx key Hne. by rewrite !ctx_get_set_other by done.
Qed.

(** [createCommisioningServer] on a context that holds the eight keys it
    reads without a default. *)
Lemma createCommisioningServer_reads context name mb sm v1 v2 v3 v4 v5 v6 v7 v8 :
  storageManager mb = Some sm →
  ctx_get context "deviceName" sm = Some v1 →
  ctx_get context "deviceType" sm = Some v2 →
  ctx_get context "vendorId" sm = Some v3 →
  ctx_get context "vendorName" sm = Some v4 →
  ctx_get context "productId" sm = Some v5 →
  ctx_get context "productName" sm = Some v6 →
  ctx_get context "serialNumber" sm = Some v7 →
  ctx_get context "uniqueId" sm = Some v8 →
  createCommisioningServer context name mb
  = Returned
      {| CS.port := port mb; CS.passcode := passcode mb;
         CS.discriminator := discriminator mb;
         CS.deviceName := v1; CS.deviceType := v2;
         CS.vendorId := v3; CS.vendorName := v4;
         CS.productId := v5; CS.productName := v6;
         CS.softwareVersion :=
           default (SNumber 1) (ctx_get context "softwareVersion" sm);
         CS.softwareVersionString :=
           default (SString "1.0.0") (ctx_get context "softwareVersionString" sm);
         CS.hardwareVersion :=
           default (SNumber 1) (ctx_get context "hardwareVersion" sm);
         CS.hardwareVersionString :=
           default (SString "1.0.0") (ctx_get context "hardwareVersionString" sm);
         CS.uniqueId := v8; CS.serialNumber := v7;
         CS.devices := [] |}
      (stepped mb).
Proof.
  intros Hsm H1 H2 H3 H4 H5 H6 H7 H8. unfold createCommisioningServer.
  rewrite (bind_storage_get_present _ _ _ _ _ _ _ Hsm H1).
  rewrite (bind_storage_get_present _ _ _ _ _ _ _ Hsm H2).
  rewrite (bind_storage_get_present _ _ _ _ _ _ _ Hsm H3).
  rewrite (bind_storage_get_present _ _ _ _ _ _ _ Hsm H4).
  rewrite (bind_storage_get_present _ _ _ _ _ _ _ Hsm H5).
  rewrite (bind_storage_get_present _ _ _ _ _ _ _ Hsm H6).
  rewrite (bind_storage_get_present _ _ _ _ _ _ _ Hsm H7).
  rewrite (bind_storage_get_present _ _ _ _ _ _ _ Hsm H8).
  repeat (erewrite bind_storage_get_default by exact Hsm).
  reflexivity.
Qed.

(** What [createMatterAggregator] returns and leaves in the storage. *)
Lemma createMatterAggregator_result r context name mb sm :
  storageManager mb = Some sm →
  ∃ sm',
    createMatterAggregator r context name mb
    = Returned
        {| Aggregator.serialNumber :=
             default (SString ("AG" ++ r)) (ctx_get context "aggregatorSerialNumber" sm);
           Aggregator.uniqueId :=
             default (SString ("AG" ++ r)) (ctx_get context "aggregatorUniqueId" sm);
           Aggregator.softwareVersion :=
             default (SNumber 1) (ctx_get context "softwareVersion" sm);
           Aggregator.softwareVersionString :=
             default (SString "1.0.0") (ctx_get context "softwareVersionString" sm);
           Aggregator.hardwareVersion :=
             default (SNumber 1) (ctx_get context "hardwareVersion" sm);
           Aggregator.hardwareVersionString :=
             default (SString "1.0.0") (ctx_get context "hardwareVersionString" sm);
           Aggregator.bridged := [] |}
        (set_storageManager (Some sm') mb)
    ∧ ctx_get context "aggregatorSerialNumber" sm'
      = Some (default (SString ("AG" ++ r))
                (ctx_get context "aggregatorSerialNumber" sm))
    ∧ ctx_get context "aggregatorUniqueId" sm'
      = Some (default (SString ("AG" ++ r)) (ctx_get context "aggregatorUniqueId" sm))
    ∧ (∀ key, key ≠ "aggregatorSerialNumber"%string →
              key ≠ "aggregatorUniqueId"%string →
              ctx_get context key sm' = ctx_get context key sm)
    ∧ ∀ ctx key, ctx ≠ context → ctx_get ctx key sm' = ctx_get ctx key sm.
Proof.
  intros Hsm. unfold createMatterAggregator, set_value.
  do 4 storage_step Hsm.
  erewrite bind_storage_get_present;
    [| apply storageManager_set
     | by rewrite ctx_get_set_ne, ctx_get_set by done].
  erewrite bind_storage_get_present;
    [| apply storageManager_set | by rewrite ctx_get_set].
  repeat (erewrite bind_storage_get_default by apply storageManager_set).
  repeat (rewrite ?ctx_get_set; rewrite ?ctx_get_set_ne by done).
  unfold ret. eexists. split; [reflexivity|].
  repeat (rewrite ?ctx_get_set; rewrite ?ctx_get_set_ne by done).
  split_and!; try done.
  - intros key K1 K2. by rewrite !ctx_get_set_ne by done.
  - intros ctx key Hne. by rewrite !ctx_get_set_other by done.
Qed.

(** X15. With the storage manager open, [createCommisioningServer] on the
    context that [createCommissioningServerContext] has just returned never
    throws: it returns a server that carries the arguments of the context
    (vendor and product name cut to 32 characters), the versions of the
    running bridge and system, the serial number and unique id the context
    held before, or the random default where it held none, and the current
    port, which has been stepped for the next server. *)
Theorem server_of_created_context (r name dn : string) (dt vi : Z) (vn : string)
    (pi : Z) (pn : string) (mb : Matterbridge) (sm : StorageManager) :
  storageManager mb = Some sm →
  ∃ cs mb',
    (context ←ᴶ createCommissioningServerContext r name dn dt vi vn pi pn ;
     createCommisioningServer context name)%js mb = Returned cs mb'
    ∧ CS.port cs = port mb ∧ port mb' = port mb + 1
    ∧ CS.deviceName cs = SString dn ∧ CS.deviceType cs = SNumber dt
    ∧ CS.vendorId cs = SNumber vi ∧ CS.vendorName cs = SString (slice32 vn)
    ∧ CS.productId cs = SNumber pi ∧ CS.productName cs = SString (slice32 pn)
    ∧ CS.serialNumber cs
      = default (SString ("CS" ++ r)) (ctx_get name "serialNumber" sm)
    ∧ CS.uniqueId cs = default (SString ("CS" ++ r)) (ctx_get name "uniqueId" sm)
    ∧ CS.softwareVersion cs = major_version (matterbridgeVersion mb)
    ∧ CS.softwareVersionString cs = SString (matterbridgeVersion mb)
    ∧ CS.hardwareVersion cs = major_version (osRelease mb)
    ∧ CS.hardwareVersionString cs = SString (osRelease mb)
    ∧ CS.devices cs = [].
Proof.
  intros Hsm.
  destruct (createCommissioningServerContext_writes r name dn dt vi vn pi pn mb sm Hsm)
    as (sm' & E & H1 & H2 & H3 & H4 & H5 & H6 & H7 & H8 & H9 & H10 & H11 & H12 & _).
  rewrite (bind_returned _ _ _ _ _ E).
  erewrite createCommisioningServer_reads by (first [apply storageManager_set | eassumption]).
  eexists _, _. split; [reflexivity|]. cbn [CS.port CS.deviceName CS.deviceType
    CS.vendorId CS.vendorName CS.productId CS.productName CS.serialNumber CS.uniqueId
    CS.softwareVersion CS.softwareVersionString CS.hardwareVersion
    CS.hardwareVersionString CS.devices].
  rewrite H9, H10, H11, H12. split_and!; done.
Qed.

Lemma server_of_created_context_witness :
  ∃ cs mb',
    (context ←ᴶ createCommissioningServerContext "ffffffffffffffff" "matterbridge-a"
                  "Matterbridge" AGGREGATOR_code 0xfff1 "Matterbridge" 0x8000 "Plugin A" ;
     createCommisioningServer context "matterbridge-a")%js restarted_A
    = Returned cs mb'
    ∧ CS.port cs = port restarted_A
    ∧ CS.serialNumber cs = SString "CS0123456789abcdef".
Proof.
  destruct (server_of_created_context "ffffffffffffffff" "matterbridge-a"
              "Matterbridge" AGGREGATOR_code 0xfff1 "Matterbridge" 0x8000 "Plugin A"
              restarted_A stored_identity eq_refl)
    as (cs & mb' & E & H1 & _ & _ & _ & _ & _ & _ & _ & H2 & _).
  exists cs, mb'. split; [exact E|]. split; [exact H1|]. exact H2.
Defined.

(** X16. With the storage manager open, [createMatterAggregator] returns an
    aggregator without devices whose serial number and unique id are those
    the context held, or the random default where it held none; and calling
    it again on the same context returns the same aggregator, whatever the
    random bytes of the second call. *)
Theorem aggregator_identity_is_stable (r r' : string) (context : StorageContext)
    (name : string) (mb : Matterbridge) (sm : StorageManager) :
  storageManager mb = Some sm →
  ∃ ag mb',
    createMatterAggregator r context name mb = Returned ag mb'
    ∧ Aggregator.serialNumber ag
      = default (SString ("AG" ++ r)) (ctx_get context "aggregatorSerialNumber" sm)
    ∧ Aggregator.uniqueId ag
      = default (SString ("AG" ++ r)) (ctx_get context "aggregatorUniqueId" sm)
    ∧ Aggregator.bridged ag = []
    ∧ ∃ mb'', createMatterAggregator r' context name mb' = Returned ag mb''.
Proof.
  intros Hsm.
  destruct (createMatterAggregator_result r context name mb sm Hsm)
    as (sm' & E & H1 & H2 & Hk & _).
  eexists _, _. split; [exact E|]. split_and!; try done.
  destruct (createMatterAggregator_result r' context name
              (set_storageManager (Some sm') mb) sm' eq_refl) as (sm'' & E' & _).
  eexists. rewrite E'. rewrite H1, H2, !Hk by done. reflexivity.
Qed.

Lemma aggregator_identity_is_stable_witness :
  ∃ ag mb',
    createMatterAggregator "0000000000000000" "matterbridge-a" "matterbridge-a"
      restarted_A = Returned ag mb'
    ∧ Aggregator.serialNumber ag = SString "AG0000000000000000"
    ∧ ∃ mb'', createMatterAggregator "ffffffffffffffff" "matterbridge-a"
                "matterbridge-a" mb' = Returned ag mb''.
Proof.
  destruct (aggregator_identity_is_stable "0000000000000000" "ffffffffffffffff"
              "matterbridge-a" "matterbridge-a" restarted_A stored_identity eq_refl)
    as (ag & mb' & E & H1 & _ & _ & H2).
  exists ag, mb'. split; [exact E|]. split; [exact H1 | exact H2].
Defined.

(** ** The first device of a plugin in childbridge mode *)

Lemma storageManager_update_plugin i f mb :
  storageManager (update_plugin i f mb) = storageManager mb.
Proof. reflexivity. Qed.

Lemma add_first_dynamic_result env i mb sm p :
  storageManager mb = Some sm →
  registeredPlugins mb !! i = Some p →
  ∃ cs ag sm1 sm2,
    add_first_dynamic env i mb
    = Returned tt
        (addCommissioningServer (Plugin.name p)
           (update_plugin i (server_addDevice EAggregator)
              (update_plugin i (Plugin.set_aggregator (Some ag))
                 (set_storageManager (Some sm2)
                    (update_plugin i (Plugin.set_commissioningServer (Some cs))
                       (stepped
                          (update_plugin i
                             (Plugin.set_storageContext (Some (Plugin.name p)))
                             (set_storageManager (Some sm1)
                                (update_plugin i (Plugin.set_locked (Some true))
                                   mb)))))))))
    ∧ CS.port cs = port mb ∧ CS.devices cs = []
    ∧ CS.serialNumber cs
      = default (SString ("CS" ++ context_random env))
          (ctx_get (Plugin.name p) "serialNumber" sm)
    ∧ CS.uniqueId cs
      = default (SString ("CS" ++ context_random env))
          (ctx_get (Plugin.name p) "uniqueId" sm)
    ∧ CS.productName cs = SString (slice32 (Plugin.description p))
    ∧ Aggregator.serialNumber ag
      = default (SString ("AG" ++ aggregator_random env))
          (ctx_get (Plugin.name p) "aggregatorSerialNumber" sm)
    ∧ Aggregator.uniqueId ag
      = default (SString ("AG" ++ aggregator_random env))
          (ctx_get (Plugin.name p) "aggregatorUniqueId" sm)
    ∧ Aggregator.bridged ag = [].
Proof.
  intros Hsm Hp. unfold add_first_dynamic.
  rewrite bind_modify.
  erewrite bind_plugin_at by (by rewrite lookup_update_plugin, Hp).
  cbn [Plugin.name Plugin.set_locked Plugin.description].
  destruct (createCommissioningServerContext_writes (context_random env) (Plugin.name p)
              "Matterbridge" AGGREGATOR_code 0xfff1 "Matterbridge" 0x8000
              (Plugin.description p)
              (update_plugin i (Plugin.set_locked (Some true)) mb) sm Hsm)
    as (sm1 & E & H1 & H2 & H3 & H4 & H5 & H6 & H7 & H8 & H9 & H10 & H11 & H12
        & H13 & H14 & _).
  rewrite (bind_returned _ _ _ _ _ E), bind_modify.
  erewrite bind_returned;
    [| eapply createCommisioningServer_reads;
       first [apply storageManager_set | eassumption]].
  rewrite bind_modify.
  destruct (createMatterAggregator_result (aggregator_random env) (Plugin.name p)
              (Plugin.name p)
              (update_plugin i
                 (Plugin.set_commissioningServer
                    (Some
                       {| CS.port := port mb; CS.passcode := passcode mb;
                          CS.discriminator := discriminator mb;
                          CS.deviceName := SString "Matterbridge";
                          CS.deviceType := SNumber AGGREGATOR_code;
                          CS.vendorId := SNumber 0xfff1;
                          CS.vendorName := SString (slice32 "Matterbridge");
                          CS.productId := SNumber 0x8000;
                          CS.productName := SString (slice32 (Plugin.description p));
                          CS.softwareVersion :=
                            default (SNumber 1)
                              (ctx_get (Plugin.name p) "softwareVersion" sm1);
                          CS.softwareVersionString :=
                            default (SString "1.0.0")
                              (ctx_get (Plugin.name p) "softwareVersionString" sm1);
                          CS.hardwareVersion :=
                            default (SNumber 1)
                              (ctx_get (Plugin.name p) "hardwareVersion" sm1);
                          CS.hardwareVersionString :=
                            default (SString "1.0.0")
                              (ctx_get (Plugin.name p) "hardwareVersionString" sm1);
                          CS.uniqueId :=
                            default (SString ("CS" ++ context_random env))
                              (ctx_get (Plugin.name p) "uniqueId" sm);
                          CS.serialNumber :=
                            default (SString ("CS" ++ context_random env))
                              (ctx_get (Plugin.name p) "serialNumber" sm);
                          CS.devices := [] |}))
                 (stepped
                    (update_plugin i (Plugin.set_storageContext (Some (Plugin.name p)))
                       (set_storageManager (Some sm1)
                          (update_plugin i (Plugin.set_locked (Some true)) mb)))))
              sm1 eq_refl)
    as (sm2 & E2 & _).
  rewrite (bind_returned _ _ _ _ _ E2), !bind_modify.
  unfold modify at 1.
  eexists _, _, sm1, sm2. split; [reflexivity|].
  rewrite H13, H14. split_and!; reflexivity.
Qed.

Lemma when_true m : when true m = m.
Proof. reflexivity. Qed.

Lemma when_false m : when false m = ret tt.
Proof. reflexivity. Qed.

Ltac js_step :=
  first [ rewrite bind_assoc | rewrite bind_ret | rewrite bind_modify
        | rewrite when_true | rewrite when_false ];
  cbv beta.

Lemma plugins_addCommissioningServer key mb :
  registeredPlugins (addCommissioningServer key mb) = registeredPlugins mb.
Proof. unfold addCommissioningServer. by destruct (matterServer mb). Qed.

Lemma port_addCommissioningServer key mb :
  port (addCommissioningServer key mb) = port mb.
Proof. unfold addCommissioningServer. by destruct (matterServer mb). Qed.

Lemma devices_addCommissioningServer key mb :
  registeredDevices (addCommissioningServer key mb) = registeredDevices mb.
Proof. unfold addCommissioningServer. by destruct (matterServer mb). Qed.

Lemma servers_addCommissioningServer key mb :
  commissioningServers <$> matterServer (addCommissioningServer key mb)
  = (λ ms, commissioningServers ms ++ [key]) <$> matterServer mb.
Proof.
  unfold addCommissioningServer. destruct (matterServer mb) as [ms|] eqn:E.
  - reflexivity.
  - by rewrite E.
Qed.

Lemma plugins_push_device n d mb :
  registeredPlugins (push_device n d mb) = registeredPlugins mb.
Proof. reflexivity. Qed.

Lemma plugins_stepped mb : registeredPlugins (stepped mb) = registeredPlugins mb.
Proof. reflexivity. Qed.

Lemma plugins_set_storageManager v mb :
  registeredPlugins (set_storageManager v mb) = registeredPlugins mb.
Proof. reflexivity. Qed.

Lemma port_update_plugin i f mb : port (update_plugin i f mb) = port mb.
Proof. reflexivity. Qed.

Lemma port_push_device n d mb : port (push_device n d mb) = port mb.
Proof. reflexivity. Qed.

Lemma port_set_storageManager v mb : port (set_storageManager v mb) = port mb.
Proof. reflexivity. Qed.

Lemma port_stepped mb : port (stepped mb) = port mb + 1.
Proof. reflexivity. Qed.

Lemma devices_update_plugin i f mb :
  registeredDevices (update_plugin i f mb) = registeredDevices mb.
Proof. reflexivity. Qed.

Lemma devices_push_device n d mb :
  registeredDevices (push_device n d mb)
  = registeredDevices mb ++ [{| plugin := n; device := d |}].
Proof. reflexivity. Qed.

Lemma devices_set_storageManager v mb :
  registeredDevices (set_storageManager v mb) = registeredDevices mb.
Proof. reflexivity. Qed.

Lemma devices_stepped mb : registeredDevices (stepped mb) = registeredDevices mb.
Proof. reflexivity. Qed.

Lemma server_update_plugin i f mb :
  matterServer (update_plugin i f mb) = matterServer mb.
Proof. reflexivity. Qed.

Lemma server_push_device n d mb : matterServer (push_device n d mb) = matterServer mb.
Proof. reflexivity. Qed.

Lemma server_set_storageManager v mb :
  matterServer (set_storageManager v mb) = matterServer mb.
Proof. reflexivity. Qed.

Lemma server_stepped mb : matterServer (stepped mb) = matterServer mb.
Proof. reflexivity. Qed.

Ltac plugins_of_state :=
  repeat first
    [ rewrite plugins_update_plugin
    | rewrite plugins_addCommissioningServer
    | rewrite plugins_push_device
    | rewrite plugins_stepped
    | rewrite plugins_set_storageManager ].

Ltac field_of_state :=
  repeat first
    [ rewrite port_update_plugin | rewrite port_push_device
    | rewrite port_set_storageManager | rewrite port_stepped
    | rewrite port_addCommissioningServer
    | rewrite devices_update_plugin | rewrite devices_push_device
    | rewrite devices_set_storageManager | rewrite devices_stepped
    | rewrite devices_addCommissioningServer
    | rewrite server_update_plugin | rewrite server_push_device
    | rewrite server_set_storageManager | rewrite server_stepped
    | rewrite servers_addCommissioningServer ].

(** [addBridgedDevice] in childbridge mode for a dynamic platform that is
    not locked, once [add_first_dynamic] has returned. *)
Lemma addBridgedDevice_first_dynamic env pluginName device mb i p mb1 :
  bridgeMode mb = childbridge →
  findPlugin pluginName mb = Some (i, p) →
  Plugin.type p = "DynamicPlatform"%string →
  truthy (Plugin.locked p) = false →
  add_first_dynamic env i mb = Returned tt mb1 →
  addBridgedDevice env pluginName device mb
  = Returned tt
      (update_plugin i count_up
         (push_device pluginName device
            (update_plugin i (aggregator_add (deviceId device)) mb1))).
Proof.
  intros Hmode Hfind Htype Hlocked E.
  destruct (findPlugin_Some _ _ _ _ Hfind) as (Hi & Hp & Hn).
  unfold addBridgedDevice. rewrite bind_get_state, Hmode.
  cbn [BridgeMode_eqb andb]. rewrite Hfind.
  repeat js_step.
  rewrite (bind_plugin_at _ _ _ _ Hp), Htype, Hlocked.
  change (String.eqb "DynamicPlatform" "AccessoryPlatform") with false.
  change (String.eqb "DynamicPlatform" "DynamicPlatform") with true.
  cbn [andb negb].
  repeat js_step.
  rewrite (bind_plugin_at _ _ _ _ Hp), Htype, Hlocked.
  change (String.eqb "DynamicPlatform" "DynamicPlatform") with true.
  cbn [andb negb].
  repeat js_step.
  rewrite (bind_returned _ _ _ _ _ E).
  repeat js_step.
  reflexivity.
Qed.

Lemma first_dynamic_lookup i d name device key cs ag sm1 sm2 n mb p :
  registeredPlugins mb !! i = Some p →
  registeredPlugins
    (update_plugin i count_up
       (push_device name device
          (update_plugin i (aggregator_add d)
             (addCommissioningServer key
                (update_plugin i (server_addDevice EAggregator)
                   (update_plugin i (Plugin.set_aggregator (Some ag))
                      (set_storageManager (Some sm2)
                         (update_plugin i (Plugin.set_commissioningServer (Some cs))
                            (stepped
                               (update_plugin i (Plugin.set_storageContext (Some n))
                                  (set_storageManager (Some sm1)
                                     (update_plugin i (Plugin.set_locked (Some true))
                                        mb)))))))))))) !! i
  = Some (count_up
            (aggregator_add d
               (server_addDevice EAggregator
                  (Plugin.set_aggregator (Some ag)
                     (Plugin.set_commissioningServer (Some cs)
                        (Plugin.set_storageContext (Some n)
                           (Plugin.set_locked (Some true) p))))))).
Proof.
  intros Hp. plugins_of_state. by rewrite !list_lookup_alter_eq, Hp.
Qed.

Lemma first_dynamic_plugin d cs ag n p :
  let p' := count_up
              (aggregator_add d
                 (server_addDevice EAggregator
                    (Plugin.set_aggregator (Some ag)
                       (Plugin.set_commissioningServer (Some cs)
                          (Plugin.set_storageContext (Some n)
                             (Plugin.set_locked (Some true) p)))))) in
  Plugin.locked p' = Some true
  ∧ Plugin.storageContext p' = Some n
  ∧ Plugin.commissioningServer p' = Some (CS.addDevice EAggregator cs)
  ∧ Plugin.aggregator p' = Some (Aggregator.addBridgedDevice d ag)
  ∧ Plugin.registeredDevices p' = incr (Plugin.registeredDevices p)
  ∧ Plugin.addedDevices p' = incr (Plugin.addedDevices p).
Proof. destruct p. repeat split. Qed.



Lemma add_first_accessory_result i device basic s u mb sm p :
  basicInformation device = Some basic →
  serialNumber basic = Some s → uniqueId basic = Some u →
  storageManager mb = Some sm →
  registeredPlugins mb !! i = Some p →
  ∃ cs sm1,
    add_first_accessory i device mb
    = Returned tt
        (addCommissioningServer (Plugin.name p)
           (update_plugin i (Plugin.set_device (Some (deviceId device)))
              (update_plugin i (server_addDevice (EDevice (deviceId device)))
                 (update_plugin i (Plugin.set_commissioningServer (Some cs))
                    (stepped
                       (update_plugin i
                          (Plugin.set_storageContext (Some (Plugin.name p)))
                          (set_storageManager (Some sm1)
                             (update_plugin i (Plugin.set_locked (Some true))
                                mb))))))))
    ∧ CS.port cs = port mb ∧ CS.devices cs = []
    ∧ CS.serialNumber cs = SString s ∧ CS.uniqueId cs = SString u
    ∧ CS.deviceName cs = SString (nodeLabel basic)
    ∧ CS.deviceType cs = SNumber (deviceType device).
Proof.
  intros Hb Hs Hu Hsm Hp. unfold add_first_accessory.
  rewrite bind_modify.
  erewrite bind_plugin_at by (by rewrite lookup_update_plugin, Hp).
  cbn [Plugin.name Plugin.set_locked].
  destruct (importCommissioningServerContext_writes (Plugin.name p) device basic s u
              (update_plugin i (Plugin.set_locked (Some true)) mb) sm Hb Hs Hu Hsm)
    as (sm1 & E & H1 & H2 & H3 & H4 & H5 & H6 & H7 & H8 & _).
  rewrite (bind_returned _ _ _ _ _ E), bind_modify.
  erewrite bind_returned;
    [| eapply createCommisioningServer_reads;
       first [apply storageManager_set | eassumption]].
  rewrite !bind_modify. unfold modify at 1.
  eexists _, sm1. split; [reflexivity|]. split_and!; reflexivity.
Qed.

Lemma addBridgedDevice_first_accessory env pluginName device mb i p mb1 p1 :
  bridgeMode mb = childbridge →
  findPlugin pluginName mb = Some (i, p) →
  Plugin.type p = "AccessoryPlatform"%string →
  truthy (Plugin.locked p) = false →
  add_first_accessory i device mb = Returned tt mb1 →
  registeredPlugins mb1 !! i = Some p1 →
  Plugin.type p1 = "AccessoryPlatform"%string →
  addBridgedDevice env pluginName device mb
  = Returned tt (update_plugin i count_up (push_device pluginName device mb1)).
Proof.
  intros Hmode Hfind Htype Hlocked E Hp1 Htype1.
  destruct (findPlugin_Some _ _ _ _ Hfind) as (Hi & Hp & Hn).
  unfold addBridgedDevice. rewrite bind_get_state, Hmode.
  cbn [BridgeMode_eqb andb]. rewrite Hfind.
  repeat js_step.
  rewrite (bind_plugin_at _ _ _ _ Hp), Htype, Hlocked.
  change (String.eqb "AccessoryPlatform" "AccessoryPlatform") with true.
  cbn [andb negb].
  repeat js_step.
  rewrite (bind_returned _ _ _ _ _ E).
  repeat js_step.
  rewrite (bind_plugin_at _ _ _ _ Hp1), Htype1.
  change (String.eqb "AccessoryPlatform" "DynamicPlatform") with false.
  repeat js_step.
  reflexivity.
Qed.

Lemma first_accessory_lookup i name device key cs sm1 n d e mb p :
  registeredPlugins mb !! i = Some p →
  registeredPlugins
    (update_plugin i count_up
       (push_device name device
          (addCommissioningServer key
             (update_plugin i (Plugin.set_device (Some d))
                (update_plugin i (server_addDevice e)
                   (update_plugin i (Plugin.set_commissioningServer (Some cs))
                      (stepped
                         (update_plugin i (Plugin.set_storageContext (Some n))
                            (set_storageManager (Some sm1)
                               (update_plugin i (Plugin.set_locked (Some true))
                                  mb)))))))))) !! i
  = Some (count_up
            (Plugin.set_device (Some d)
               (server_addDevice e
                  (Plugin.set_commissioningServer (Some cs)
                     (Plugin.set_storageContext (Some n)
                        (Plugin.set_locked (Some true) p)))))).
Proof.
  intros Hp. plugins_of_state. by rewrite !list_lookup_alter_eq, Hp.
Qed.

Lemma first_accessory_plugin d e cs n p :
  let p1 := Plugin.set_device (Some d)
              (server_addDevice e
                 (Plugin.set_commissioningServer (Some cs)
                    (Plugin.set_storageContext (Some n)
                       (Plugin.set_locked (Some true) p)))) in
  Plugin.type p1 = Plugin.type p
  ∧ Plugin.locked (count_up p1) = Some true
  ∧ Plugin.storageContext (count_up p1) = Some n
  ∧ Plugin.device (count_up p1) = Some d
  ∧ Plugin.commissioningServer (count_up p1) = Some (CS.addDevice e cs)
  ∧ Plugin.aggregator (count_up p1) = Plugin.aggregator p
  ∧ Plugin.registeredDevices (count_up p1) = incr (Plugin.registeredDevices p)
  ∧ Plugin.addedDevices (count_up p1) = incr (Plugin.addedDevices p).
Proof. destruct p. repeat split. Qed.

(** X18. In childbridge mode with the storage manager open, the first
    device of an accessory platform, if its BasicInformation cluster has a
    serial number and a unique id, becomes the device of the plugin: the
    plugin is locked and gets a commissioning server on the current port
    that holds this device and carries the identity of the device, not a
    random one; no aggregator is created; the server is handed to the matter
    server under the name of the plugin, the port is stepped, and the device
    is registered and counted. *)
Theorem first_accessory_device (env : AddEnv) (pluginName : string)
    (device : MatterbridgeDevice) (basic : BasicInformation) (s u : string)
    (mb : Matterbridge) (sm : StorageManager) (i : nat) (p : RegisteredPlugin) :
  bridgeMode mb = childbridge →
  storageManager mb = Some sm →
  findPlugin pluginName mb = Some (i, p) →
  Plugin.type p = "AccessoryPlatform"%string →
  truthy (Plugin.locked p) = false →
  basicInformation device = Some basic →
  serialNumber basic = Some s →
  uniqueId basic = Some u →
  ∃ mb' p' cs,
    addBridgedDevice env pluginName device mb = Returned tt mb'
    ∧ registeredPlugins mb' !! i = Some p'
    ∧ Plugin.locked p' = Some true
    ∧ Plugin.storageContext p' = Some pluginName
    ∧ Plugin.device p' = Some (deviceId device)
    ∧ Plugin.commissioningServer p' = Some cs
    ∧ CS.port cs = port mb
    ∧ CS.devices cs = [EDevice (deviceId device)]
    ∧ CS.serialNumber cs = SString s
    ∧ CS.uniqueId cs = SString u
    ∧ CS.deviceName cs = SString (nodeLabel basic)
    ∧ CS.deviceType cs = SNumber (deviceType device)
    ∧ Plugin.aggregator p' = Plugin.aggregator p
    ∧ Plugin.registeredDevices p' = incr (Plugin.registeredDevices p)
    ∧ Plugin.addedDevices p' = incr (Plugin.addedDevices p)
    ∧ port mb' = port mb + 1
    ∧ registeredDevices mb'
      = registeredDevices mb ++ [{| plugin := pluginName; device := device |}]
    ∧ commissioningServers <$> matterServer mb'
      = (λ ms, commissioningServers ms ++ [pluginName]) <$> matterServer mb.
Proof.
  intros Hmode Hsm Hfind Htype Hlocked Hb Hs Hu.
  destruct (findPlugin_Some _ _ _ _ Hfind) as (Hi & Hp & Hn).
  destruct (add_first_accessory_result i device basic s u mb sm p Hb Hs Hu Hsm Hp)
    as (cs & sm1 & E & C1 & C2 & C3 & C4 & C5 & C6).
  destruct (first_accessory_plugin (deviceId device) (EDevice (deviceId device)) cs
              (Plugin.name p) p) as (P0 & P1 & P2 & P3 & P4 & P5 & P6 & P7).
  erewrite (addBridgedDevice_first_accessory env pluginName device mb i p _ _
              Hmode Hfind Htype Hlocked E); cycle 1.
  { plugins_of_state. by rewrite !list_lookup_alter_eq, Hp. }
  { by rewrite P0. }
  rewrite Hn in *.
  eexists _, _, (CS.addDevice (EDevice (deviceId device)) cs).
  split; [reflexivity|].
  split; [by apply first_accessory_lookup|].
  split; [exact P1|]. split; [exact P2|]. split; [exact P3|]. split; [exact P4|].
  split; [exact C1|]. split; [by cbn [CS.addDevice CS.devices]; rewrite C2|].
  split; [exact C3|]. split; [exact C4|]. split; [exact C5|]. split; [exact C6|].
  split; [exact P5|]. split; [exact P6|]. split; [exact P7|].
  split_and!.
  - by field_of_state.
  - by field_of_state.
  - by field_of_state.
Qed.

Lemma first_accessory_device_witness :
  ∃ mb' p' cs,
    addBridgedDevice add_env "matterbridge-a" (device_n 1)
      (initialized childbridge [loaded_as "AccessoryPlatform" plugin_A])
    = Returned tt mb'
    ∧ registeredPlugins mb' !! 0%nat = Some p'
    ∧ Plugin.device p' = Some 1%N
    ∧ Plugin.commissioningServer p' = Some cs
    ∧ CS.serialNumber cs = SString "SN1"
    ∧ CS.devices cs = [EDevice 1%N].
Proof.
  assert (findPlugin "matterbridge-a"
            (initialized childbridge [loaded_as "AccessoryPlatform" plugin_A])
          = Some (0%nat, loaded_as "AccessoryPlatform" plugin_A)) as Hfind
    by (vm_compute; reflexivity).
  assert (Plugin.type (loaded_as "AccessoryPlatform" plugin_A)
          = "AccessoryPlatform"%string) as Htype by (vm_compute; reflexivity).
  assert (truthy (Plugin.locked (loaded_as "AccessoryPlatform" plugin_A)) = false)
    as Hlocked by (vm_compute; reflexivity).
  destruct (first_accessory_device add_env "matterbridge-a" (device_n 1) basic_1
              "SN1" "UID1"
              (initialized childbridge [loaded_as "AccessoryPlatform" plugin_A])
              ∅ 0%nat _ eq_refl eq_refl Hfind Htype Hlocked eq_refl eq_refl eq_refl)
    as (mb' & p' & cs & E & H1 & _ & _ & H2 & H3 & _ & H4 & H5 & _).
  exists mb', p', cs. split_and!; [exact E | exact H1 | exact H2 | exact H3
    | exact H5 | exact H4].
Defined.

(** *** The first device when the context cannot be made *)

Lemma createCommissioningServerContext_exits r name dn dt vi vn pi pn mb :
  storageManager mb = None →
  createCommissioningServerContext r name dn dt vi vn pi pn mb = Exited 1 mb.
Proof.
  intros H. unfold createCommissioningServerContext. by rewrite bind_get_state, H.
Qed.

Lemma importCommissioningServerContext_exits name device mb :
  storageManager mb = None ∨ basicInformation device = None →
  importCommissioningServerContext name device mb = Exited 1 mb.
Proof.
  intros H. unfold importCommissioningServerContext.
  destruct (basicInformation device) as [basic|]; [|done].
  destruct H as [H|]; [|done]. by rewrite bind_get_state, H.
Qed.

(** X19. In childbridge mode, the first device of a plugin ends the process
    with code 1 when its storage context cannot be made: for a dynamic
    platform when no storage manager is open, for an accessory platform
    also when the device has no BasicInformation cluster. By then the plugin
    has been locked, and nothing else has changed: the device is not
    registered and not counted. *)
Theorem first_device_without_context_exits (env : AddEnv) (pluginName : string)
    (device : MatterbridgeDevice) (mb : Matterbridge) (i : nat) (p : RegisteredPlugin) :
  bridgeMode mb = childbridge →
  findPlugin pluginName mb = Some (i, p) →
  truthy (Plugin.locked p) = false →
  (Plugin.type p = "DynamicPlatform"%string ∧ storageManager mb = None)
  ∨ (Plugin.type p = "AccessoryPlatform"%string
     ∧ (storageManager mb = None ∨ basicInformation device = None)) →
  addBridgedDevice env pluginName device mb
  = Exited 1 (update_plugin i (Plugin.set_locked (Some true)) mb).
Proof.
  intros Hmode Hfind Hlocked H.
  destruct (findPlugin_Some _ _ _ _ Hfind) as (Hi & Hp & Hn).
  assert (registeredPlugins (update_plugin i (Plugin.set_locked (Some true)) mb) !! i
          = Some (Plugin.set_locked (Some true) p)) as Hp1
    by (by rewrite lookup_update_plugin, Hp).
  unfold addBridgedDevice. rewrite bind_get_state, Hmode.
  cbn [BridgeMode_eqb andb]. rewrite Hfind.
  repeat js_step.
  rewrite (bind_plugin_at _ _ _ _ Hp), Hlocked.
  destruct H as [[Htype Hsm] | [Htype H]]; rewrite Htype.
  - change (String.eqb "DynamicPlatform" "AccessoryPlatform") with false.
    cbn [andb negb]. repeat js_step.
    rewrite (bind_plugin_at _ _ _ _ Hp), Htype, Hlocked.
    change (String.eqb "DynamicPlatform" "DynamicPlatform") with true.
    cbn [andb negb]. repeat js_step.
    unfold add_first_dynamic. repeat js_step.
    rewrite (bind_plugin_at _ _ _ _ Hp1). repeat js_step.
    erewrite bind_exited; [reflexivity|].
    by apply createCommissioningServerContext_exits.
  - change (String.eqb "AccessoryPlatform" "AccessoryPlatform") with true.
    cbn [andb negb]. repeat js_step.
    unfold add_first_accessory. repeat js_step.
    rewrite (bind_plugin_at _ _ _ _ Hp1). repeat js_step.
    erewrite bind_exited; [reflexivity|].
    by apply importCommissioningServerContext_exits.
Qed.

Lemma first_device_without_context_exits_witness :
  addBridgedDevice add_env "matterbridge-a" (device_n 1)
    (set_storageManager None (dynamic_A childbridge))
  = Exited 1
      (update_plugin 0 (Plugin.set_locked (Some true))
         (set_storageManager None (dynamic_A childbridge))).
Proof.
  assert (findPlugin "matterbridge-a" (set_storageManager None (dynamic_A childbridge))
          = Some (0%nat, loaded_as "DynamicPlatform" plugin_A)) as Hfind
    by (vm_compute; reflexivity).
  assert (truthy (Plugin.locked (loaded_as "DynamicPlatform" plugin_A)) = false)
    as Hlocked by (vm_compute; reflexivity).
  assert (Plugin.type (loaded_as "DynamicPlatform" plugin_A) = "DynamicPlatform"%string)
    as Htype by (vm_compute; reflexivity).
  exact (first_device_without_context_exits add_env "matterbridge-a" (device_n 1)
           (set_storageManager None (dynamic_A childbridge)) 0%nat _
           eq_refl Hfind Hlocked (or_introl (conj Htype eq_refl))).
Defined.

(** ** The registry of plugins on disk and the command line *)

Lemma final_save_registry ok mb :
  final (save_registry ok mb) = mb
  ∨ final (save_registry ok mb) = persist_plugins (getBaseRegisteredPlugins mb) mb.
Proof.
  unfold save_registry. destruct (defined (nodeContext mb) && negb ok); [by left | by right].
Qed.

Lemma plugins_save_registry ok mb :
  registeredPlugins (final (save_registry ok mb)) = registeredPlugins mb.
Proof.
  destruct (final_save_registry ok mb) as [-> | ->]; [done|].
  apply plugins_persist_plugins.
Qed.

Lemma storageManager_save_registry ok mb :
  storageManager (final (save_registry ok mb)) = storageManager mb.
Proof.
  destruct (final_save_registry ok mb) as [-> | ->]; [done|].
  unfold persist_plugins. by destruct (nodeContext mb).
Qed.

(** *** The command line *)

Lemma findIndex_None pluginName ps :
  findIndex pluginName ps = None → pluginName ∉ Plugin.name <$> ps.
Proof.
  induction ps as [|p ps IH]; simpl; [intros _; apply not_elem_of_nil|].
  destruct (String.eqb_spec (Plugin.name p) pluginName) as [|Hne]; [done|].
  destruct (findIndex pluginName ps); [done|]. intros _.
  apply not_elem_of_cons. split; [congruence | by apply IH].
Qed.

Lemma findPlugin_None pluginName mb :
  findPlugin pluginName mb = None →
  findIndex pluginName (registeredPlugins mb) = None.
Proof.
  unfold findPlugin.
  destruct (findIndex pluginName (registeredPlugins mb)) as [i|] eqn:Hi; [|done].
  destruct (findIndex_Some _ _ _ Hi) as (p & Hp & _). simpl. rewrite Hp. done.
Qed.

Lemma findIndex_new pluginName ps p :
  findIndex pluginName ps = None → Plugin.name p = pluginName →
  findIndex pluginName (ps ++ [p]) = Some (length ps).
Proof.
  intros Hnone Hn. induction ps as [|q ps IH]; simpl in *.
  - rewrite Hn, String.eqb_refl. done.
  - destruct (String.eqb (Plugin.name q) pluginName); [done|].
    destruct (findIndex pluginName ps); [done|]. by rewrite IH.
Qed.

Lemma name_forget_lifecycle p : Plugin.name (forget_lifecycle p) = Plugin.name p.
Proof. reflexivity. Qed.

Lemma nodeContext_persist_plugins v mb :
  nodeContext (persist_plugins v mb) = nodeContext mb.
Proof.
  unfold persist_plugins. destruct (nodeContext mb) eqn:E; [|done].
  cbn [nodeContext set_files]. done.
Qed.

(** What the plugin object of mode [add] is after [loadPlugin]. *)
Lemma loadPlugin_new_cases env path pkg mb :
  let p := new_plugin path (pkg_name pkg) (pkg_version pkg) (pkg_description pkg)
             (pkg_author pkg) in
  (∃ p', loadPlugin_new env p mb = (p', None, mb))
  ∨ (∃ pkg' ty config schema p',
       import env = ImportDefault pkg' ty config schema
       ∧ Plugin.name p' = pkg_name pkg'
       ∧ (defined (nodeContext mb) && negb (persist_ok env) = false)
       ∧ loadPlugin_new env p mb
         = (p', Some {| Platform.name := pkg_name pkg'; Platform.type := ty;
                        Platform.version := pkg_version pkg';
                        Platform.config := config |},
            persist_plugins (getBaseRegisteredPlugins mb) mb)).
Proof.
  intros p. unfold loadPlugin_new.
  change (loadPlugin_guard p) with (@None (option MatterbridgePlatform)).
  destruct (import env) as [|pkg'|pkg' ty config schema]; [left; eauto..|].
  destruct (defined (nodeContext mb) && negb (persist_ok env)) eqn:E; [left; eauto|].
  right. eexists pkg', ty, config, schema, _. split_and!; [done| |done|reflexivity].
  reflexivity.
Qed.

(** X21. No mode of [executeCommandLine] registers two plugins under one
    name: if the names in the registry are all different before the call,
    they are all different after it, provided the two reads of
    [package.json] that mode [add] makes give the same name. *)
Theorem command_line_keeps_names_unique (env : CommandEnv)
    (packageJsonPath mode : string) (mb : Matterbridge) :
  same_package_name env →
  NoDup (Plugin.name <$> registeredPlugins mb) →
  NoDup (Plugin.name <$> registeredPlugins (executeCommandLine env packageJsonPath mode mb)).
Proof.
  intros Hsame Hnd. unfold executeCommandLine.
  destruct (package env) as [pkg|] eqn:Hpkg; [|done].
  cbv zeta.
  destruct (findPlugin (pkg_name pkg) mb) as [[i p]|] eqn:Hfind.
  - destruct (String.eqb mode "add"); [done|].
    destruct (String.eqb mode "remove").
    { rewrite plugins_save_registry. cbn [registeredPlugins set_registeredPlugins].
      eapply sublist_NoDup; [exact Hnd|]. apply fmap_sublist, sublist_delete. }
    destruct (String.eqb mode "enable").
    { rewrite plugins_save_registry, plugins_update_plugin.
      by rewrite fmap_alter_same. }
    destruct (String.eqb mode "disable").
    { rewrite plugins_save_registry, plugins_update_plugin.
      by rewrite fmap_alter_same. }
    destruct (String.eqb mode "reset"); [|done].
    rewrite plugins_save_registry. unfold clearAll.
    cbn [registeredPlugins set_storageManager]. rewrite plugins_update_plugin.
    by rewrite fmap_alter_same.
  - destruct (String.eqb mode "add").
    2:{ by repeat destruct (String.eqb mode _). }
    destruct (loadPlugin_new_cases (load env) packageJsonPath pkg mb)
      as [[p' ->] | (pkg' & ty & config & schema & p' & Himp & Hname & _ & ->)];
      [done|].
    rewrite plugins_save_registry. cbn [registeredPlugins set_registeredPlugins].
    rewrite plugins_persist_plugins, fmap_app. apply NoDup_app. split; [done|].
    split; [|apply NoDup_singleton].
    intros n Hn Hn'. apply list_elem_of_singleton in Hn'. subst n.
    unfold same_package_name in Hsame. rewrite Hpkg, Himp in Hsame.
    apply (findIndex_None (pkg_name pkg) (registeredPlugins mb));
      [by apply findPlugin_None | congruence].
Qed.

Lemma command_line_keeps_names_unique_witness :
  NoDup (Plugin.name
           <$> registeredPlugins
                 (executeCommandLine command_env_A "/plugins/a/package.json" "add"
                    (initialized bridge [plugin_B]))).
Proof.
  assert (same_package_name command_env_A) as Hsame by reflexivity.
  assert (NoDup (Plugin.name <$> registeredPlugins (initialized bridge [plugin_B])))
    as Hnd by (apply NoDup_singleton).
  exact (command_line_keeps_names_unique command_env_A "/plugins/a/package.json" "add"
           (initialized bridge [plugin_B]) Hsame Hnd).
Defined.

Lemma save_registry_saves ok mb c :
  nodeContext mb = Some c → ok = true →
  plugins (node_storage (files (final (save_registry ok mb))))
  = Some (getBaseRegisteredPlugins (final (save_registry ok mb))).
Proof.
  intros Hc ->. unfold save_registry. rewrite Hc. cbn [defined negb andb final].
  unfold getBaseRegisteredPlugins. rewrite plugins_persist_plugins.
  unfold persist_plugins. rewrite Hc. reflexivity.
Qed.

(** X22. With the node context open and the write by
    [executeCommandLine] succeeding, no change that the method makes to the
    registry goes unsaved: whenever the registry after the call differs from
    the registry before it, the node storage holds the registry as it is
    after the call. *)
Theorem command_line_saves_registry (env : CommandEnv) (packageJsonPath mode : string)
    (mb : Matterbridge) (c : NodeContext) :
  nodeContext mb = Some c →
  save_ok env = true →
  registeredPlugins (executeCommandLine env packageJsonPath mode mb)
  ≠ registeredPlugins mb →
  plugins (node_storage (files (executeCommandLine env packageJsonPath mode mb)))
  = Some (getBaseRegisteredPlugins (executeCommandLine env packageJsonPath mode mb)).
Proof.
  intros Hc Hsave. unfold executeCommandLine.
  destruct (package env) as [pkg|] eqn:Hpkg; [|done].
  cbv zeta.
  destruct (findPlugin (pkg_name pkg) mb) as [[i p]|] eqn:Hfind.
  - destruct (String.eqb mode "add"); [done|].
    destruct (String.eqb mode "remove");
      [intros _; by apply (save_registry_saves _ _ c)|].
    destruct (String.eqb mode "enable");
      [intros _; by apply (save_registry_saves _ _ c)|].
    destruct (String.eqb mode "disable");
      [intros _; by apply (save_registry_saves _ _ c)|].
    destruct (String.eqb mode "reset"); [|done].
    intros _; by apply (save_registry_saves _ _ c).
  - destruct (String.eqb mode "add").
    2:{ by repeat destruct (String.eqb mode _). }
    destruct (loadPlugin_new_cases (load env) packageJsonPath pkg mb)
      as [[p' ->] | (pkg' & ty & config & schema & p' & _ & _ & _ & ->)];
      [done|].
    intros _. apply (save_registry_saves _ _ c); [|done].
    cbn [nodeContext set_registeredPlugins]. by rewrite nodeContext_persist_plugins.
Qed.

Lemma command_line_saves_registry_witness :
  plugins (node_storage
             (files (executeCommandLine command_env_A "/plugins/a/package.json"
                       "disable" configured_A)))
  = Some (getBaseRegisteredPlugins
            (executeCommandLine command_env_A "/plugins/a/package.json" "disable"
               configured_A)).
Proof.
  assert (nodeContext configured_A = Some node_context) as Hc
    by (vm_compute; reflexivity).
  assert (registeredPlugins
            (executeCommandLine command_env_A "/plugins/a/package.json" "disable"
               configured_A)
          ≠ registeredPlugins configured_A) as Hne
    by (vm_compute; discriminate).
  exact (command_line_saves_registry command_env_A "/plugins/a/package.json" "disable"
           configured_A node_context Hc eq_refl Hne).
Defined.

Lemma save_registry_ok mb c :
  nodeContext mb = Some c →
  save_registry true mb
  = Returned tt (persist_plugins (getBaseRegisteredPlugins mb) mb).
Proof. intros Hc. unfold save_registry. by rewrite Hc. Qed.

Lemma load_after_persist v mb c :
  nodeContext mb = Some c →
  loadPluginsFromStorage (persist_plugins v mb)
  = Returned tt (set_registeredPlugins (stored_plugin <$> v) (persist_plugins v mb)).
Proof.
  intros Hc. unfold loadPluginsFromStorage.
  rewrite nodeContext_persist_plugins, Hc.
  unfold persist_plugins at 1. rewrite Hc. reflexivity.
Qed.

(** X23. A plugin disabled on the command line stays out of the way: once
    the registry that mode [disable] has saved is read back, [loadPlugin],
    [startPlugin] and [configurePlugin] on this plugin return at their
    guards, changing nothing and leaving no promise behind, and the startup
    supervisor counts the plugin as ready. *)
Theorem disabled_plugin_is_left_alone (env : CommandEnv) (packageJsonPath : string)
    (mb : Matterbridge) (c : NodeContext) (pkg : PackageJson) (i : nat)
    (p : RegisteredPlugin) :
  nodeContext mb = Some c →
  save_ok env = true →
  package env = Some pkg →
  findPlugin (pkg_name pkg) mb = Some (i, p) →
  ∃ mb' p',
    loadPluginsFromStorage (executeCommandLine env packageJsonPath "disable" mb)
    = Returned tt mb'
    ∧ registeredPlugins mb' !! i = Some p'
    ∧ Plugin.name p' = pkg_name pkg
    ∧ ready p' = true
    ∧ ∀ start message lenv answer message' configure,
        loadPlugin i start message lenv answer mb' = (mb', None, [])
        ∧ startPlugin i message' configure answer mb' = (mb', [])
        ∧ configurePlugin i answer mb' = (mb', []).
Proof.
  intros Hc Hsave Hpkg Hfind.
  destruct (findPlugin_Some _ _ _ _ Hfind) as (Hi & Hp & Hn).
  unfold executeCommandLine. rewrite Hpkg. cbv zeta. rewrite Hfind, Hsave.
  change (String.eqb "disable" "add") with false.
  change (String.eqb "disable" "remove") with false.
  change (String.eqb "disable" "enable") with false.
  change (String.eqb "disable" "disable") with true.
  cbv iota.
  rewrite (save_registry_ok _ c) by exact Hc. cbn [final].
  rewrite (load_after_persist _ _ c) by exact Hc.
  eexists _, _. split; [reflexivity|].
  assert (∀ X v, registeredPlugins (set_registeredPlugins v X) = v) as Hset by done.
  rewrite Hset. unfold getBaseRegisteredPlugins. rewrite plugins_update_plugin.
  rewrite <- list_fmap_compose, list_lookup_fmap, list_lookup_alter_eq, Hp.
  split; [reflexivity|]. split; [exact Hn|]. split; [reflexivity|].
  intros start message lenv answer message' configure.
  unfold loadPlugin, startPlugin, configurePlugin.
  rewrite ?Hset, <- ?list_fmap_compose, ?list_lookup_fmap, ?list_lookup_alter_eq, ?Hp.
  split_and!; reflexivity.
Qed.

Lemma disabled_plugin_is_left_alone_witness :
  ∃ mb' p',
    loadPluginsFromStorage
      (executeCommandLine command_env_A "/plugins/a/package.json" "disable"
         configured_A)
    = Returned tt mb'
    ∧ registeredPlugins mb' !! 0%nat = Some p'
    ∧ ready p' = true
    ∧ loadPlugin 0 true "Matterbridge is starting" (import_A "DynamicPlatform")
        HookPending mb'
      = (mb', None, []).
Proof.
  assert (nodeContext configured_A = Some node_context) as Hc
    by (vm_compute; reflexivity).
  assert (∃ p, findPlugin (pkg_name package_A) configured_A = Some (0%nat, p))
    as [p Hfind] by (eexists; vm_compute; reflexivity).
  destruct (disabled_plugin_is_left_alone command_env_A "/plugins/a/package.json"
              configured_A node_context package_A 0%nat p Hc eq_refl eq_refl Hfind)
    as (mb' & p' & E & H1 & _ & H2 & H3).
  exists mb', p'. split_and!; [exact E | exact H1 | exact H2 |].
  exact (proj1 (H3 true "Matterbridge is starting"%string (import_A "DynamicPlatform")
                  HookPending None false)).
Defined.

(** X24. On the command line, mode [remove] undoes mode [add]: for a
    package whose name is not registered, and whose name is the same in both
    reads of mode [add], the registry after [add] followed by [remove] holds
    the plugins it held before, whether the [add] has registered the plugin
    or has failed to load it. *)
Theorem command_line_add_then_remove (env : CommandEnv) (packageJsonPath : string)
    (mb : Matterbridge) (pkg : PackageJson) :
  package env = Some pkg →
  findPlugin (pkg_name pkg) mb = None →
  same_package_name env →
  registeredPlugins
    (executeCommandLine env packageJsonPath "remove"
       (executeCommandLine env packageJsonPath "add" mb))
  = registeredPlugins mb.
Proof.
  intros Hpkg Hfind Hsame.
  pose proof (findPlugin_None _ _ Hfind) as Hnone.
  unfold executeCommandLine at 2. rewrite Hpkg. cbv zeta. rewrite Hfind.
  change (String.eqb "add" "add") with true. cbv iota.
  destruct (loadPlugin_new_cases (load env) packageJsonPath pkg mb)
    as [[p' ->] | (pkg' & ty & config & schema & p' & Himp & Hname & _ & ->)].
  - unfold executeCommandLine. rewrite Hpkg. cbv zeta. rewrite Hfind. reflexivity.
  - unfold same_package_name in Hsame. rewrite Hpkg, Himp in Hsame.
    set (mb1 := final (save_registry _ _)).
    assert (registeredPlugins mb1 = registeredPlugins mb ++ [p']) as Hps.
    { subst mb1. rewrite plugins_save_registry.
      assert (∀ X v, registeredPlugins (set_registeredPlugins v X) = v) as Hset by done.
      by rewrite Hset, plugins_persist_plugins. }
    assert (findPlugin (pkg_name pkg) mb1 = Some (length (registeredPlugins mb), p'))
      as Hfind1.
    { apply findPlugin_intro; rewrite Hps.
      - apply findIndex_new; [done | congruence].
      - by rewrite list_lookup_middle. }
    unfold executeCommandLine. rewrite Hpkg. cbv zeta. rewrite Hfind1.
    change (String.eqb "remove" "add") with false.
    change (String.eqb "remove" "remove") with true. cbv iota.
    rewrite plugins_save_registry.
    assert (∀ X v, registeredPlugins (set_registeredPlugins v X) = v) as Hset by done.
    rewrite Hset, Hps, delete_middle. apply app_nil_r.
Qed.

Lemma command_line_add_then_remove_witness :
  registeredPlugins
    (executeCommandLine command_env_A "/plugins/a/package.json" "remove"
       (executeCommandLine command_env_A "/plugins/a/package.json" "add"
          (initialized bridge [plugin_B])))
  = registeredPlugins (initialized bridge [plugin_B]).
Proof.
  assert (findPlugin (pkg_name package_A) (initialized bridge [plugin_B]) = None)
    as Hfind by (vm_compute; reflexivity).
  assert (same_package_name command_env_A) as Hsame by reflexivity.
  exact (command_line_add_then_remove command_env_A "/plugins/a/package.json"
           (initialized bridge [plugin_B]) package_A eq_refl Hfind Hsame).
Defined.

Lemma ctx_get_delete context key sm : ctx_get context key (delete context sm) = None.
Proof. unfold ctx_get. by rewrite lookup_delete_eq. Qed.

Lemma ctx_get_delete_other ctx context key (sm : StorageManager) :
  ctx ≠ context → ctx_get ctx key (delete context sm) = ctx_get ctx key sm.
Proof. intros Hne. unfold ctx_get. by rewrite lookup_delete_ne. Qed.

(** X25. Mode [reset] of the command line gives the plugin a new identity:
    with the storage manager open it clears the storage context of the
    plugin and leaves the contexts of the other plugins alone, so that the
    next [createCommissioningServerContext] for this plugin stores the
    random serial number and unique id of that call. *)
Theorem command_line_reset_renews_identity (env : CommandEnv)
    (packageJsonPath r dn : string) (dt vi : Z) (vn : string) (pi : Z) (pn : string)
    (mb : Matterbridge) (sm : StorageManager) (pkg : PackageJson) (i : nat)
    (p : RegisteredPlugin) :
  package env = Some pkg →
  findPlugin (pkg_name pkg) mb = Some (i, p) →
  storageManager mb = Some sm →
  ∃ sm1 sm2 mb2,
    storageManager (executeCommandLine env packageJsonPath "reset" mb) = Some sm1
    ∧ (∀ key, ctx_get (pkg_name pkg) key sm1 = None)
    ∧ (∀ ctx key, ctx ≠ pkg_name pkg → ctx_get ctx key sm1 = ctx_get ctx key sm)
    ∧ createCommissioningServerContext r (pkg_name pkg) dn dt vi vn pi pn
        (executeCommandLine env packageJsonPath "reset" mb)
      = Returned (pkg_name pkg) mb2
    ∧ storageManager mb2 = Some sm2
    ∧ ctx_get (pkg_name pkg) "serialNumber" sm2 = Some (SString ("CS" ++ r))
    ∧ ctx_get (pkg_name pkg) "uniqueId" sm2 = Some (SString ("CS" ++ r)).
Proof.
  intros Hpkg Hfind Hsm.
  destruct (findPlugin_Some _ _ _ _ Hfind) as (Hi & Hp & Hn).
  assert (storageManager (executeCommandLine env packageJsonPath "reset" mb)
          = Some (delete (pkg_name pkg) sm)) as Hsm1.
  { unfold executeCommandLine. rewrite Hpkg. cbv zeta. rewrite Hfind.
    change (String.eqb "reset" "add") with false.
    change (String.eqb "reset" "remove") with false.
    change (String.eqb "reset" "enable") with false.
    change (String.eqb "reset" "disable") with false.
    change (String.eqb "reset" "reset") with true. cbv iota.
    rewrite storageManager_save_registry. unfold clearAll.
    rewrite storageManager_set, storageManager_update_plugin, Hsm, Hn. reflexivity. }
  destruct (createCommissioningServerContext_writes r (pkg_name pkg) dn dt vi vn pi pn
              _ _ Hsm1)
    as (sm2 & E & _ & _ & _ & _ & _ & _ & H7 & H8 & _).
  rewrite ctx_get_delete in H7, H8.
  eexists _, sm2, _. split; [exact Hsm1|]. split_and!.
  - intros key. apply ctx_get_delete.
  - intros ctx key Hne. by apply ctx_get_delete_other.
  - exact E.
  - apply storageManager_set.
  - exact H7.
  - exact H8.
Qed.

Lemma command_line_reset_renews_identity_witness :
  ∃ sm1 sm2 mb2,
    storageManager
      (executeCommandLine command_env_A "/plugins/a/package.json" "reset" restarted_A)
    = Some sm1
    ∧ ctx_get "matterbridge-a" "serialNumber" sm1 = None
    ∧ createCommissioningServerContext "ffffffffffffffff" "matterbridge-a"
        "Matterbridge" AGGREGATOR_code 0xfff1 "Matterbridge" 0x8000 "Plugin A"
        (executeCommandLine command_env_A "/plugins/a/package.json" "reset" restarted_A)
      = Returned "matterbridge-a"%string mb2
    ∧ storageManager mb2 = Some sm2
    ∧ ctx_get "matterbridge-a" "serialNumber" sm2 = Some (SString "CSffffffffffffffff").
Proof.
  assert (findPlugin (pkg_name package_A) restarted_A = Some (0%nat, plugin_A))
    as Hfind by (vm_compute; reflexivity).
  destruct (command_line_reset_renews_identity command_env_A "/plugins/a/package.json"
              "ffffffffffffffff" "Matterbridge" AGGREGATOR_code 0xfff1 "Matterbridge"
              0x8000 "Plugin A" restarted_A stored_identity package_A 0%nat plugin_A
              eq_refl Hfind eq_refl)
    as (sm1 & sm2 & mb2 & H1 & H2 & _ & H3 & H4 & H5 & _).
  exists sm1, sm2, mb2.
  split_and!; [exact H1 | exact (H2 "serialNumber"%string) | exact H3 | exact H4
    | exact H5].
Defined.

(** ** The order of the lifecycle flags next to the frontend *)

Lemma lifecycle_ok_flags p q :
  lifecycle_flags p = lifecycle_flags q → lifecycle_ok p = lifecycle_ok q.
Proof. unfold lifecycle_flags, lifecycle_ok. by intros [= -> -> ->]. Qed.

Lemma lifecycle_ok_disabled l s c p :
  lifecycle_flags p = (l, s, c) → l = None → s = None → c = None →
  lifecycle_ok p = true.
Proof. unfold lifecycle_flags, lifecycle_ok. by intros [= -> -> ->] -> -> ->. Qed.

Lemma removeBridgedDevice_keeps_flags fs pluginName d :
  keeps (λ s, lifecycle_flags <$> registeredPlugins s = fs)
    (removeBridgedDevice pluginName d).
Proof.
  unfold removeBridgedDevice.
  keeps_by ltac:(first [ assumption
                       | rewrite plugins_update_plugin, fmap_alter_same;
                         [assumption | by intros []] ]).
Qed.

(** What [disableplugin] does to the lifecycle flags, however it ends: it
    leaves them as they are, or it clears those of the plugin it names. *)
Lemma disableplugin_flags env param mb :
  lifecycle_flags <$> registeredPlugins (final (disableplugin env param mb))
  = lifecycle_flags <$> registeredPlugins mb
  ∨ ∃ i p, findPlugin param mb = Some (i, p)
           ∧ lifecycle_flags <$> registeredPlugins (final (disableplugin env param mb))
             = <[i := (None, None, None)]> (lifecycle_flags <$> registeredPlugins mb).
Proof.
  unfold disableplugin. rewrite bind_get_state.
  destruct (findPlugin param mb) as [[i p]|] eqn:Hfind; [|by left].
  set (fs := lifecycle_flags <$> registeredPlugins mb).
  set (I := λ s : Matterbridge, lifecycle_flags <$> registeredPlugins s = fs).
  set (J := λ s : Matterbridge,
              lifecycle_flags <$> registeredPlugins s = <[i := (None, None, None)]> fs).
  set (Q := λ s : Matterbridge, I s ∨ J s).
  assert (Q (final
               ((when (defined (Plugin.platform p))
                   (modify (call_hook (OnShutdown (Plugin.name p)
                                         "The plugin has been disabled.")) ;ᴶ
                    if onShutdown_ok env then ret tt else throw) ;ᴶ
                 removeAllBridgedDevices (Plugin.name p) ;ᴶ
                 modify (update_plugin i disabled) ;ᴶ
                 mb0 ←ᴶ get_state ;
                 match nodeContext mb0, plugins (node_storage (files mb0)) with
                 | Some _, Some stored =>
                     match findStored param stored with
                     | Some k =>
                         if disable_save_ok env
                         then modify
                                (set_files
                                   {| matterbridge_json := matterbridge_json (files mb0);
                                      storage :=
                                        Some {| plugins :=
                                                  Some (alter disabled_stored k stored);
                                                devices :=
                                                  devices (node_storage (files mb0)) |} |})
                         else throw
                     | None => ret tt
                     end
                 | _, _ => ret tt
                 end)%js mb))) as HQ.
  { apply (keeps_then I Q); [| by left | | done].
    { subst I. keeps_by ltac:(first [assumption | by rewrite plugins_call_hook]). }
    intros [] s1 Hs1.
    apply (keeps_then I Q); [| by left | | done].
    { apply removeAllBridgedDevices_keeps. intros d.
      apply removeBridgedDevice_keeps_flags. }
    intros [] s2 Hs2. rewrite bind_modify.
    assert (J (update_plugin i disabled s2)) as HJ.
    { subst J. cbv beta. rewrite plugins_update_plugin.
      unfold I in Hs2. rewrite <- Hs2.
      destruct (findPlugin_Some _ _ _ _ Hfind) as (_ & Hp & _).
      assert (i < length (registeredPlugins s2))%nat as Hlen.
      { apply (f_equal length) in Hs2. subst fs. rewrite !length_fmap in Hs2.
        rewrite Hs2. by eapply lookup_lt_Some. }
      apply list_eq. intros j. rewrite list_lookup_fmap.
      destruct (decide (j = i)) as [-> | Hne].
      - rewrite list_lookup_alter_eq, list_lookup_insert_eq by (by rewrite length_fmap).
        destruct (lookup_lt_is_Some_2 _ _ Hlen) as [q ->]. reflexivity.
      - rewrite list_lookup_alter_ne, list_lookup_insert_ne by done.
        by rewrite list_lookup_fmap. }
    right. revert HJ. generalize (update_plugin i disabled s2). intros s3 HJ.
    rewrite bind_get_state.
    destruct (nodeContext s3); [|done].
    destruct (plugins (node_storage (files s3))) as [stored|]; [|done].
    destruct (findStored param stored); [|done].
    destruct (disable_save_ok env); done. }
  destruct HQ as [HI | HJ]; [by left|]. right. by exists i, p.
Qed.

Lemma flags_lookup (fs : list (option bool * option bool * option bool))
    (l : list RegisteredPlugin) j q :
  lifecycle_flags <$> l = fs → l !! j = Some q → fs !! j = Some (lifecycle_flags q).
Proof. intros <- Hq. by rewrite list_lookup_fmap, Hq. Qed.

Lemma flags_lookup_inv (l : list RegisteredPlugin) j f :
  (lifecycle_flags <$> l) !! j = Some f →
  ∃ q0, l !! j = Some q0 ∧ f = lifecycle_flags q0.
Proof.
  rewrite list_lookup_fmap. destruct (l !! j) as [q0|]; [|done].
  intros [= <-]. by exists q0.
Qed.

Lemma promise_ok_flags mb mb' pr :
  (∀ k q, registeredPlugins mb' !! k = Some q →
          (∃ i, awaits_hook i pr = false ∧ k = i)
          ∨ ∃ q0, registeredPlugins mb !! k = Some q0
                  ∧ lifecycle_flags q = lifecycle_flags q0) →
  promise_ok mb pr → promise_ok mb' pr.
Proof.
  intros Hflags Hpr.
  destruct pr as [| k c | k]; [done | |]; cbn [promise_ok awaits_hook] in *;
    intros q Hk;
    (destruct (Hflags k q Hk) as [(i & Hi & ->) | (q0 & Hq0 & Hf)];
     [by rewrite Nat.eqb_refl in Hi|]);
    unfold lifecycle_flags in Hf; injection Hf as H1 H2 H3.
  - rewrite H1. by apply Hpr.
  - rewrite H1, H2. by apply Hpr.
Qed.

(** A [disableplugin] that comes when the plugin it names is quiet keeps
    what the orchestrator relies on. *)
Lemma disableplugin_ok env param s :
  quiet param s = true → sched_ok s →
  sched_ok (step_event (DisablePlugin env param) s).
Proof.
  intros Hq [Hok Hpend]. cbn [step_event].
  destruct (disableplugin_flags env param (mbridge s)) as [E | (i & p & Hfind & E)].
  - assert (∀ j q, registeredPlugins (final (disableplugin env param (mbridge s))) !! j
                   = Some q →
                   ∃ q0, registeredPlugins (mbridge s) !! j = Some q0
                         ∧ lifecycle_flags q = lifecycle_flags q0) as Hflags.
    { intros j q Hj. apply flags_lookup_inv. by eapply flags_lookup. }
    split; cbn [mbridge pending].
    + intros j q Hj. destruct (Hflags j q Hj) as (q0 & Hq0 & Hf).
      rewrite (lifecycle_ok_flags q q0) by done. by eapply Hok.
    + eapply Forall_impl; [exact Hpend|]. intros pr.
      apply promise_ok_flags. intros k q Hk. right. by apply Hflags.
  - unfold quiet in Hq. rewrite Hfind in Hq. apply negb_true_iff in Hq.
    assert (∀ pr, pr ∈ pending s → awaits_hook i pr = false) as Hquiet.
    { intros pr Hin. destruct (awaits_hook i pr) eqn:Ha; [|done].
      assert (existsb (awaits_hook i) (pending s) = true); [|congruence].
      apply existsb_exists. exists pr. split; [by apply list_elem_of_In | done]. }
    assert (∀ j q, registeredPlugins (final (disableplugin env param (mbridge s))) !! j
                   = Some q →
                   (j = i ∧ lifecycle_flags q = (None, None, None))
                   ∨ (j ≠ i ∧ ∃ q0, registeredPlugins (mbridge s) !! j = Some q0
                                    ∧ lifecycle_flags q = lifecycle_flags q0)) as Hflags.
    { intros j q Hj. pose proof (flags_lookup _ _ _ _ E Hj) as Hf.
      destruct (decide (j = i)) as [-> | Hne].
      - left. split; [done|].
        apply list_lookup_insert_Some in Hf as [(_ & Hf & _) | [? _]]; done.
      - right. split; [done|]. rewrite list_lookup_insert_ne in Hf by done.
        by apply flags_lookup_inv. }
    split; cbn [mbridge pending].
    + intros j q Hj. destruct (Hflags j q Hj) as [[_ Hf] | (_ & q0 & Hq0 & Hf)].
      * by eapply lifecycle_ok_disabled.
      * rewrite (lifecycle_ok_flags q q0) by done. by eapply Hok.
    + apply Forall_forall. intros pr Hin.
      rewrite Forall_forall in Hpend. specialize (Hpend pr Hin).
      specialize (Hquiet pr Hin). revert Hpend.
      apply promise_ok_flags. intros k q Hk.
      destruct (Hflags k q Hk) as [[-> _] | (_ & q0 & Hq0 & Hf)].
      * left. by exists i.
      * right. by exists q0.
Qed.

Lemma run_events_ok events : ∀ s,
  undisturbed events s = true → sched_ok s → sched_ok (run_events events s).
Proof.
  induction events as [|e events IH]; intros s Hu Hs; [done|].
  cbn [undisturbed] in Hu. apply andb_true_iff in Hu as [Hq Hu].
  cbn [run_events foldl]. apply IH; [done|].
  destruct e as [op | env param]; [by apply step_ok | by apply disableplugin_ok].
Qed.



